(** * Video-To-Reel: the transcription-to-reel pipeline

    A shallow embedding of the pipeline of [milestone 3/sub.py] (and, where
    it differs, of [milestone 2/application.py]):
    [extract_audio_from_video], [transcribe_audio_whisper],
    [save_transcript], [analyze_sentiment], [create_motivational_reel],
    [create_reel] and [process_video_upload].

    Modelling choices.
    - Python floats (segment times, durations, sentiment scores) are the
      rationals they denote: comparisons of finite floats are exact, and the
      only arithmetic the pipeline does on them is the subtraction inside
      moviepy's [subclip].
    - The disk is a finite map from paths to file contents; the Streamlit
      widgets and [print] are a trace of events appended to the world.
    - Whisper, VADER, yt-dlp, the chat-completion endpoint, [tempfile] and
      the ffmpeg writers are not code of this repository: they are the fields
      of an environment record [Env], and every function is parameterised
      by it.
    - Exceptions are explicit: a computation returns a value or raises. A
      write that fails leaves the disk as it was. *)

From Stdlib Require Import QArith Lqa Ascii DecimalString.
From stdpp Require Import gmap strings list fin_maps.

Open Scope string_scope.

(** ** Floats as rationals *)

(** [x < y] on floats. *)
Definition Qltb (x y : Q) : bool := negb (Qle_bool y x).

(** ** Data model *)

(** A Whisper segment: the pipeline reads the keys ['start'], ['end'] and
    ['text'] of the dictionary and nothing else. *)
Record Segment := mkSegment {
  start : Q;
  end_ : Q;
  text : string
}.

(** A moviepy clip cut out of the source video: it plays the source from
    [clip_start] for [clip_duration] seconds. *)
Record Clip := mkClip {
  clip_start : Q;
  clip_duration : Q
}.

(** The content of a file, as far as the pipeline can tell files apart. *)
Inductive File :=
| VideoFile (duration : Q) (has_audio : bool)
| AudioFile
| TextFile (content : string)
| ReelFile (clips : list Clip).

Inductive Exn :=
| ValueError (msg : string)
| AttributeError (msg : string)
| OSError (msg : string)
| RuntimeError (msg : string).

(** What the run shows: [st.text], [st.error], [progress.progress] and the
    two [print] calls of [create_reel]. The random facts shown next to the
    progress bar are left out. *)
Inductive Event :=
| st_text (msg : string)
| st_error (msg : string) (e : option Exn)
| progress (pct : nat)
| print_invalid_segment (start_time end_time : Q)
| print_reel_error (e : Exn).

Record World := mkWorld {
  files : gmap string File;
  trace : list Event
}.

(** What [requests.post] to the chat-completion endpoint gives: a response
    with its [status_code] and the content of its first message
    ([response.json()["choices"][0]["message"]["content"]]), or an
    exception of the HTTP library. A reply with status 200 is taken to
    carry such a content. *)
Inductive HttpReply :=
| HttpResponse (status_code : nat) (content : string)
| HttpRaises (e : Exn).

(** An uploaded file: [video_file.name] and [video_file.getbuffer()]. *)
Record Upload := mkUpload {
  name : string;
  getbuffer : File
}.

(** The external collaborators. *)
Record Env := mkEnv {
  (** [sentiment_analyzer.polarity_scores(text)['compound']] *)
  polarity_compound : string -> Q;
  (** [whisper_model.transcribe(audio_path, language=code)["segments"]];
      [None] when the call raises. *)
  whisper_transcribe : string -> string -> option (list Segment);
  (** [requests.post] to the chat-completion endpoint, by the user prompt *)
  chat_completion : string -> HttpReply;
  (** the name chosen by [tempfile.NamedTemporaryFile(suffix='.mp4')] *)
  tempfile_name : string;
  (** yt-dlp: the prepared file name and the downloaded video, by url and
      output directory; [None] when the download raises. *)
  ydl_download : string -> string -> option (string * File);
  (** whether the ffmpeg writer succeeds in writing the named output *)
  ffmpeg_ok : string -> bool;
  (** whether [open(path, "w")] and the writes that follow succeed *)
  open_ok : string -> bool
}.

(** ** Computations: world passing with exceptions *)

Inductive Result (A : Type) :=
| Returns (a : A)
| Raises (e : Exn).
Arguments Returns {A} a.
Arguments Raises {A} e.

Definition M (A : Type) : Type := World -> Result A * World.

Definition ret {A} (a : A) : M A := fun w => (Returns a, w).

Definition raise {A} (e : Exn) : M A := fun w => (Raises e, w).

Definition bind {A B} (m : M A) (k : A -> M B) : M B :=
  fun w => match m w with
           | (Returns a, w') => k a w'
           | (Raises e, w') => (Raises e, w')
           end.

(** [try: m except Exception as e: h e] *)
Definition try_except {A} (m : M A) (h : Exn -> M A) : M A :=
  fun w => match m w with
           | (Returns a, w') => (Returns a, w')
           | (Raises e, w') => h e w'
           end.

(** stdpp's monad notations: [x ← m; k] and [m ;; k]. *)
#[global] Instance M_ret : MRet M := @ret.
#[global] Instance M_bind : MBind M := fun A B k m => bind m k.

Definition emit (ev : Event) : M unit :=
  fun w => (Returns tt, mkWorld (files w) (trace w ++ [ev])).

Definition read_file (path : string) : M (option File) :=
  fun w => (Returns (files w !! path), w).

Definition write_file (path : string) (f : File) : M unit :=
  fun w => (Returns tt, mkWorld (<[path := f]> (files w)) (trace w)).

(** [os.unlink(path)] *)
Definition os_unlink (path : string) : M unit :=
  fun w => match files w !! path with
           | Some _ => (Returns tt, mkWorld (delete path (files w)) (trace w))
           | None => (Raises (OSError "No such file or directory"), w)
           end.

(** [for x in xs: body x], collecting what the bodies return. *)
Fixpoint for_each {A B} (xs : list A) (body : A -> M B) : M (list B) :=
  match xs with
  | [] => ret []
  | x :: xs' => b ← body x; bs ← for_each xs' body; ret (b :: bs)
  end.

(** ** Python helpers *)

(** [str(n)] for a non-negative integer. *)
Definition str_nat (n : nat) : string :=
  NilEmpty.string_of_uint (Nat.to_uint n).

(** [l[i:j]] for non-negative [i] and [j]: out-of-range bounds are clipped
    and [j <= i] gives the empty list. *)
Definition slice {A} (l : list A) (i j : nat) : list A :=
  take (j - i) (drop i l).

(** [os.path.basename(path)]: what follows the last slash. *)
Fixpoint basename_from (acc path : string) : string :=
  match path with
  | EmptyString => acc
  | String c rest =>
      if Ascii.eqb c "/"%char then basename_from "" rest
      else basename_from (acc ++ String c "") rest
  end.

Definition basename (path : string) : string := basename_from "" path.

(** ["%.2f" % x]: [x] rounded to the nearest hundredth, ties to even, with
    at least one digit before the point and two after it. *)
Definition round_half_even (x : Q) : Z :=
  let n := Qnum x in
  let d := Z.pos (Qden x) in
  let fl := (n / d)%Z in
  let r := (n mod d)%Z in
  match (2 * r ?= d)%Z with
  | Lt => fl
  | Gt => (fl + 1)%Z
  | Eq => if Z.even fl then fl else (fl + 1)%Z
  end.

Definition two_digits (n : nat) : string :=
  str_nat (n / 10) ++ str_nat (n mod 10).

Definition format_2f (x : Q) : string :=
  let h := Z.abs_nat (round_half_even (x * 100)) in
  (if Qltb x 0 then "-" else "") ++
  str_nat (h / 100) ++ "." ++ two_digits (h mod 100).

Definition newline : string := String "010"%char "".

(** Truthiness of an optional string: [None] and [""] are false. *)
Definition truthy (s : option string) : bool :=
  match s with
  | Some (String _ _) => true
  | _ => false
  end.

(** moviepy's [clip.subclip(t_start, t_end)]: the new clip starts [t_start]
    seconds into [clip] and lasts [t_end - t_start]. (moviepy raises when
    [t_start] is past the clip's end; [create_reel] only calls it on
    validated bounds and on [(0, 60)].) *)
Definition subclip (clip : Clip) (t_start t_end : Q) : Clip :=
  mkClip (clip_start clip + t_start) (t_end - t_start).

(** The opened source video as a clip. *)
Record Video := mkVideo {
  duration : Q;
  audio : bool
}.

Definition whole (video : Video) : Clip := mkClip 0 (duration video).

(** ** The stages shared by milestone 2 and milestone 3 *)

Section Stages.

Variable env : Env.

(** [with VideoFileClip(video_path) as video] *)
Definition VideoFileClip (video_path : string) : M Video :=
  f ← read_file video_path;
  match f with
  | Some (VideoFile d a) => ret (mkVideo d a)
  | _ => raise (OSError "MoviePy error: the file could not be found")
  end.

(** [audio.write_audiofile(path, codec='pcm_s16le')] and
    [final_reel.write_videofile(path, codec="libx264", audio_codec="aac")] *)
Definition ffmpeg_write (path : string) (f : File) : M unit :=
  if ffmpeg_ok env path then write_file path f
  else raise (OSError "ffmpeg: write failed").

Definition extract_audio_from_video
    (video_path output_audio_path : string) : M bool :=
  try_except
    (video ← VideoFileClip video_path;
     (if audio video then ffmpeg_write output_audio_path AudioFile
      else raise (AttributeError
             "'NoneType' object has no attribute 'write_audiofile'"));;
     ret true)
    (fun e => emit (st_error "Error extracting audio" (Some e));; ret false).

Definition language_codes : gmap string string :=
  {[ "English" := "en"; "Hindi" := "hi"; "Tamil" := "ta";
     "Malayalam" := "ml" ]}.

(** The result is [None] on failure and the segment list otherwise. *)
Definition transcribe_audio_whisper
    (audio_path language : string) : M (option (list Segment)) :=
  try_except
    (match whisper_transcribe env audio_path
             (default "en" (language_codes !! language)) with
     | Some segments => ret (Some segments)
     | None => raise (RuntimeError "transcribe")
     end)
    (fun e => emit (st_error "Error during transcription" (Some e));;
              ret None).

(** One [f.write] of [save_transcript]. *)
Definition transcript_line (segment : Segment) : string :=
  "[" ++ format_2f (start segment) ++ "s - " ++
  format_2f (end_ segment) ++ "s]: " ++ text segment ++ newline.

(** The file is opened with ["w"], which truncates it, and every segment
    appends one write. The strings are the UTF-8 bytes written. *)
Definition transcript_content (transcript : list Segment) : string :=
  foldl (fun written segment => written ++ transcript_line segment)
        "" transcript.

Definition save_transcript
    (transcript : list Segment) (filename username : string)
    : M (option string) :=
  let transcript_path :=
    "uploads/transcripts/" ++ username ++ "_" ++ filename ++ ".txt" in
  try_except
    ((if open_ok env transcript_path
      then write_file transcript_path
             (TextFile (transcript_content transcript))
      else raise (OSError "open"));;
     ret (Some transcript_path))
    (fun e => emit (st_error "Error saving transcript" (Some e));; ret None).

Definition analyze_sentiment (segments : list Segment) : list Segment :=
  List.filter
    (fun segment => Qltb 0.05 (polarity_compound env (text segment)))
    segments.

Definition create_motivational_reel
    (segments : list Segment) : M (option string) :=
  let text_batch := String.concat newline (map text segments) in
  match chat_completion env
          ("Analyze the sentiment of the following texts and provide a motivational summary: "
           ++ text_batch) with
  | HttpResponse status_code content =>
      if (status_code =? 200)%nat then ret (Some content)
      else
        emit (st_error "Failed to generate motivational content." None);;
        ret None
  | HttpRaises e => raise e
  end.

Definition download_video_from_youtube
    (url username : string) : M (option string) :=
  try_except
    (let video_dir := "uploads/videos/" ++ username in
     match ydl_download env url video_dir with
     | Some (video_file_path, f) =>
         write_file video_file_path f;; ret (Some video_file_path)
     | None => raise (RuntimeError "yt-dlp")
     end)
    (fun e => emit (st_error "Error downloading video" (Some e));; ret None).

(** The segment test of [create_reel]:
    [0 <= start_time < video.duration and 0 < end_time <= video.duration
     and start_time < end_time]. *)
Definition within_video (video : Video) (start_time end_time : Q) : bool :=
  Qle_bool 0 start_time && Qltb start_time (duration video) &&
  Qltb 0 end_time && Qle_bool end_time (duration video) &&
  Qltb start_time end_time.

(** What [process_video_upload] returns: the early exits return the
    3-tuple [None, None, []], the end of the function a 4-tuple. *)
Inductive Returned :=
| Return3 (motivational_contents transcript_path : option string)
          (reels_paths : list (option string))
| Return4 (motivational_contents transcript_path : option string)
          (reels_paths : list (option string))
          (important_segments : list Segment).

(** Step 6 of [process_video_upload] (the same text in both milestones):
    three reels when there are at least three important segments. *)
Definition make_reels
    (create_reel : list Segment -> string -> string -> nat -> M (option string))
    (important_segments : list Segment) (video_path username : string)
    : M (list (option string)) :=
  if (3 <=? length important_segments)%nat then
    let segment_count := (length important_segments / 3)%nat in
    for_each (seq 0 3) (fun i =>
      let start_index := (i * segment_count)%nat in
      let end_index := (start_index + segment_count)%nat in
      let group_segments := slice important_segments start_index end_index in
      create_reel group_segments video_path username (i + 1)%nat)
  else ret [].

End Stages.

(** ** Milestone 3: [milestone 3/sub.py] *)

Module Milestone3.
Section Run.

Variable env : Env.

(** The [for segment in segments] loop of [create_reel]; [video_clips] is
    the list built so far. *)
Fixpoint collect_clips (video : Video) (segments : list Segment)
    (video_clips : list Clip) : M (list Clip) :=
  match segments with
  | [] => ret video_clips
  | segment :: rest =>
      let start_time := start segment in
      let end_time := end_ segment in
      if within_video video start_time end_time then
        let video_segment := subclip (whole video) start_time end_time in
        let video_segment :=
          if Qltb 60 (clip_duration video_segment)
          then subclip video_segment 0 60
          else video_segment in
        collect_clips video rest (video_clips ++ [video_segment])
      else
        emit (print_invalid_segment start_time end_time);;
        collect_clips video rest video_clips
  end.

Definition create_reel (segments : list Segment)
    (video_path username : string) (reel_index : nat) : M (option string) :=
  try_except
    (video ← VideoFileClip video_path;
     video_clips ← collect_clips video segments [];
     match video_clips with
     | [] => raise (ValueError "No valid video clips were created.")
     | _ =>
         (* final_reel = concatenate_videoclips(video_clips) *)
         let reel_path :=
           "uploads/reels/" ++ username ++ "_reel_" ++ str_nat reel_index
           ++ ".mp4" in
         ffmpeg_write env reel_path (ReelFile video_clips);;
         ret (Some reel_path)
     end)
    (fun e => emit (print_reel_error e);; ret None).

(** The ten simulated steps shown before the transcription starts. *)
Definition simulate_progress : M (list unit) :=
  for_each (seq 0 10) (fun step => emit (progress ((step + 1) * 100 / 10))).

(** The run. The temporary file is taken to be created and written, and
    [os.unlink] to fail on a missing file only. *)
Definition process_video_upload
    (video_file : option Upload) (youtube_url : option string)
    (username language : string) : M Returned :=
  emit (progress 0);;
  video_path ←
    (if truthy youtube_url then
       emit (st_text "Downloading video from YouTube...");;
       download_video_from_youtube env (default "" youtube_url) username
     else
       match video_file with
       | Some uploaded =>
           write_file (tempfile_name env) (getbuffer uploaded);;
           ret (Some (tempfile_name env))
       | None => ret None
       end);
  if negb (truthy video_path) then ret (Return3 None None []) else
  let video_path := default "" video_path in
  (* Step 2 *)
  let audio_path :=
    "uploads/audio/" ++ username ++ "_" ++ basename video_path ++ ".wav" in
  emit (st_text "Extracting audio...");;
  extracted ← extract_audio_from_video env video_path audio_path;
  if negb extracted then ret (Return3 None None []) else
  emit (progress 20);;
  (* Step 3 *)
  emit (st_text "Transcribing audio...");;
  simulate_progress;;
  segments ← transcribe_audio_whisper env audio_path language;
  match segments with
  | None | Some [] => ret (Return3 None None [])
  | Some segments =>
      (* Step 4 *)
      emit (st_text "Analyzing sentiment...");;
      let important_segments := analyze_sentiment env segments in
      emit (progress 60);;
      (* Step 5 *)
      emit (st_text "Creating motivational content...");;
      motivational_contents ← create_motivational_reel env important_segments;
      emit (progress 80);;
      (* Step 6 *)
      reels_paths ← make_reels create_reel important_segments
                       video_path username;
      (* Step 7 *)
      emit (st_text "Saving transcript...");;
      transcript_path ← save_transcript env important_segments
                           (basename video_path) username;
      emit (progress 100);;
      os_unlink video_path;;
      ret (Return4 motivational_contents transcript_path reels_paths
             important_segments)
  end.

End Run.
End Milestone3.

(** ** Milestone 2: [milestone 2/application.py] *)

Module Milestone2.
Section Run.

Variable env : Env.

(** The loop of this milestone's [create_reel]: no trimming. *)
Fixpoint collect_clips (video : Video) (segments : list Segment)
    (video_clips : list Clip) : M (list Clip) :=
  match segments with
  | [] => ret video_clips
  | segment :: rest =>
      let start_time := start segment in
      let end_time := end_ segment in
      if within_video video start_time end_time then
        let video_segment := subclip (whole video) start_time end_time in
        collect_clips video rest (video_clips ++ [video_segment])
      else
        emit (print_invalid_segment start_time end_time);;
        collect_clips video rest video_clips
  end.

Definition create_reel (segments : list Segment)
    (video_path username : string) (reel_index : nat) : M (option string) :=
  try_except
    (video ← VideoFileClip video_path;
     video_clips ← collect_clips video segments [];
     match video_clips with
     | [] => raise (ValueError "No valid video clips were created.")
     | _ =>
         let reel_path :=
           "uploads/reels/" ++ username ++ "_reel_" ++ str_nat reel_index
           ++ ".mp4" in
         ffmpeg_write env reel_path (ReelFile video_clips);;
         ret (Some reel_path)
     end)
    (fun e => emit (print_reel_error e);; ret None).

Definition process_video_upload
    (video_file : Upload) (username language : string) : M Returned :=
  write_file (tempfile_name env) (getbuffer video_file);;
  let video_path := tempfile_name env in
  let audio_path :=
    "uploads/audio/" ++ username ++ "_" ++ name video_file ++ ".wav" in
  emit (st_text "Extracting audio...");;
  extracted ← extract_audio_from_video env video_path audio_path;
  if negb extracted then ret (Return3 None None []) else
  emit (st_text "Transcribing audio...");;
  segments ← transcribe_audio_whisper env audio_path language;
  match segments with
  | None | Some [] => ret (Return3 None None [])
  | Some segments =>
      emit (st_text "Analyzing sentiment...");;
      let important_segments := analyze_sentiment env segments in
      emit (st_text "Creating motivational content...");;
      motivational_contents ← create_motivational_reel env important_segments;
      reels_paths ← make_reels create_reel important_segments
                       video_path username;
      emit (st_text "Saving transcript...");;
      transcript_path ← save_transcript env important_segments
                           (name video_file) username;
      os_unlink video_path;;
      ret (Return4 motivational_contents transcript_path reels_paths
             important_segments)
  end.

End Run.
End Milestone2.

(** ** Definitions used to state the properties *)

(** The groups that step 6 hands to [create_reel], in order. *)
Definition segment_groups (important_segments : list Segment)
    : list (list Segment) :=
  if (3 <=? length important_segments)%nat then
    let n := (length important_segments / 3)%nat in
    map (fun i => slice important_segments (i * n) (i * n + n))%nat (seq 0 3)
  else [].

(** Each group paired with its position. *)
Definition numbered {A} (xs : list A) : list (nat * A) := imap pair xs.

(** The compound score of a segment's text. *)
Definition score (env : Env) (segment : Segment) : Q :=
  polarity_compound env (text segment).

(** The segment test of [create_reel] on a segment. *)
Definition valid (video : Video) (segment : Segment) : bool :=
  within_video video (start segment) (end_ segment).

(** The clip milestone 3 adds to [video_clips] for a segment that passes the
    test. *)
Definition clip_of (video : Video) (segment : Segment) : Clip :=
  let video_segment := subclip (whole video) (start segment) (end_ segment) in
  if Qltb 60 (clip_duration video_segment)
  then subclip video_segment 0 60
  else video_segment.

Definition valid_clips (video : Video) (segments : list Segment)
    : list Clip :=
  map (clip_of video) (List.filter (valid video) segments).

(** The "Invalid segment" lines printed for a group. *)
Definition warnings (video : Video) (segments : list Segment)
    : list Event :=
  map (fun segment => print_invalid_segment (start segment) (end_ segment))
      (List.filter (fun segment => negb (valid video segment)) segments).

Definition reel_path (username : string) (reel_index : nat) : string :=
  "uploads/reels/" ++ username ++ "_reel_" ++ str_nat reel_index ++ ".mp4".

Definition no_clips : Exn := ValueError "No valid video clips were created.".

(** The length of the concatenation of the clips. *)
Definition total_duration (clips : list Clip) : Q :=
  fold_right Qplus 0%Q (map clip_duration clips).

(** The audio path of milestone 3's step 2. *)
Definition audio_path (username video_path : string) : string :=
  "uploads/audio/" ++ username ++ "_" ++ basename video_path ++ ".wav".

Definition transcript_path_of (username filename : string) : string :=
  "uploads/transcripts/" ++ username ++ "_" ++ filename ++ ".txt".

(** What milestone 3 works on: the downloaded file when a URL is given, the
    temporary copy of the upload otherwise; its path and its content. *)
Definition acquired (env : Env) (video_file : option Upload)
    (youtube_url : option string) (username : string)
    : option (string * File) :=
  if truthy youtube_url then
    ydl_download env (default "" youtube_url) ("uploads/videos/" ++ username)
  else
    match video_file with
    | Some uploaded => Some (tempfile_name env, getbuffer uploaded)
    | None => None
    end.

Definition video_path_of (env : Env) (video_file : option Upload)
    (youtube_url : option string) (username : string) : option string :=
  fst <$> acquired env video_file youtube_url username.

(** The Whisper language code of a language name. *)
Definition language_code (language : string) : string :=
  default "en" (language_codes !! language).

(** The events of the ten simulated steps. *)
Definition simulated : list Event :=
  map progress [10; 20; 30; 40; 50; 60; 70; 80; 90; 100]%nat.

(** Number of line feeds in a string. *)
Fixpoint count_newlines (s : string) : nat :=
  match s with
  | EmptyString => 0
  | String c rest =>
      ((if Ascii.eqb c "010"%char then 1 else 0) + count_newlines rest)%nat
  end.

(** No slash in a string. *)
Fixpoint slash_free (s : string) : bool :=
  match s with
  | EmptyString => true
  | String c rest => negb (Ascii.eqb c "/"%char) && slash_free rest
  end.

(** ** A sample run *)

Definition sample_segments : list Segment :=
  [mkSegment 0 2 "good"; mkSegment 2 70 "good"; mkSegment 70 71 "bad";
   mkSegment 80 75 "good"; mkSegment 90 95 "good"].

Definition sample_env : Env :=
  mkEnv (fun t => if String.eqb t "good" then 0.5%Q else 0%Q)
        (fun _ _ => Some sample_segments)
        (fun _ => HttpResponse 200 "summary")
        "/tmp/tmpabc.mp4"
        (fun _ _ => None)
        (fun _ => true)
        (fun _ => true).

Definition sample_upload : Upload := mkUpload "talk.mp4" (VideoFile 100 true).

(** The same upload without an audio track. *)
Definition silent_upload : Upload := mkUpload "talk.mp4" (VideoFile 100 false).

Definition empty_world : World := mkWorld ∅ [].

(** A disk that holds the sample video. *)
Definition video_world : World :=
  mkWorld {[ "/tmp/tmpabc.mp4" := VideoFile 100 true ]} [].

(** The run of milestone 3 on the sample upload. *)
Definition sample_run : Result Returned * World :=
  Milestone3.process_video_upload sample_env (Some sample_upload) None
    "@bob" "English" empty_world.

(** An environment in which Whisper hears nothing. *)
Definition quiet_env : Env :=
  mkEnv (polarity_compound sample_env) (fun _ _ => Some [])
        (chat_completion sample_env) (tempfile_name sample_env)
        (ydl_download sample_env) (ffmpeg_ok sample_env)
        (open_ok sample_env).

(** An environment whose scorer rates the emoticon [:)], a text made of
    punctuation only, as positive; VADER's lexicon holds such entries. *)
Definition emoticon_env : Env :=
  mkEnv (fun t => if String.eqb t ":)" then 0.4588%Q else 0%Q)
        (whisper_transcribe sample_env) (chat_completion sample_env)
        (tempfile_name sample_env) (ydl_download sample_env)
        (ffmpeg_ok sample_env) (open_ok sample_env).

(** ** More definitions used to state properties of the run *)

(** What a render returned and did: it failed, returned [None] and wrote
    nothing, or it wrote the reel of its index and returned its path. *)
Definition rendered (username : string) (reel_index : nat)
    (r : option string) (w_in w_out : World) : Prop :=
  (r = None /\ files w_out = files w_in) \/
  (r = Some (reel_path username reel_index) /\
   exists clips,
     files w_out
     = <[reel_path username reel_index := ReelFile clips]> (files w_in)).

(** The user message sent to the chat-completion endpoint for a list of
    segments ([create_motivational_reel]). *)
Definition summary_prompt (segments : list Segment) : string :=
  "Analyze the sentiment of the following texts and provide a motivational summary: "
  +:+ String.concat newline (map text segments).

(** What milestone 3 adds to milestone 2's clip: the trimming to a minute. *)
Definition trim (clip : Clip) : Clip :=
  if Qltb 60 (clip_duration clip) then subclip clip 0 60 else clip.

(** The clip milestone 2 adds for a segment that passes the test. *)
Definition raw_clip (video : Video) (segment : Segment) : Clip :=
  subclip (whole video) (start segment) (end_ segment).

(** The content of a reel file with every clip trimmed. *)
Definition trim_reel (f : File) : File :=
  match f with
  | ReelFile clips => ReelFile (map trim clips)
  | other => other
  end.

(** A reel file is at a path. *)
Definition reel_file_at (path : string) (w : World) : Prop :=
  exists clips, files w !! path = Some (ReelFile clips).

(** ** Milestone 1: [progress milestone 1/video2reel.py] *)

Module Milestone1.
Section Run.

Variable env : Env.

(** The loop form of the filter: [important_segments.append(segment)] for
    every segment whose compound score is above 0.05. *)
Definition analyze_sentiment (segments : list Segment) : list Segment :=
  foldl (fun (important_segments : list Segment) segment =>
           let sentiment_score := polarity_compound env (text segment) in
           if Qltb 0.05 sentiment_score
           then (important_segments ++ [segment])%list
           else important_segments)
        [] segments.

End Run.
End Milestone1.

(** ** The validators of the registration form

    [is_valid_email], [is_valid_username], [is_strong_password] and
    [is_valid_full_phone] of [milestone 3/sub.py] (the same text in
    [milestone 2/application.py] and in the milestone 1 files; [app.py] has
    the first and the third).

    Characters are the bytes of a [string], and the model is that of the
    functions on ASCII text: there [\w] is a letter, a digit or an
    underscore, [\d] and [isdigit] a digit from 0 to 9, [islower] and
    [isupper] the two ASCII alphabets. (On other characters Python's
    classes are larger.) *)

Definition in_range (lo hi c : ascii) : bool :=
  (nat_of_ascii lo <=? nat_of_ascii c)%nat &&
  (nat_of_ascii c <=? nat_of_ascii hi)%nat.

(** The characters of ASCII text. *)
Definition is_ascii (c : ascii) : bool := (nat_of_ascii c <? 128)%nat.

Definition is_digit (c : ascii) : bool := in_range "0" "9" c.
Definition is_lower (c : ascii) : bool := in_range "a" "z" c.
Definition is_upper (c : ascii) : bool := in_range "A" "Z" c.
Definition is_letter (c : ascii) : bool := is_lower c || is_upper c.

(** [\w] *)
Definition is_word (c : ascii) : bool :=
  is_letter c || is_digit c || Ascii.eqb c "_".

(** [[\w\.-]] *)
Definition is_word_dot_dash (c : ascii) : bool :=
  is_word c || Ascii.eqb c "." || Ascii.eqb c "-".

(** [[\w_.]] *)
Definition is_word_dot (c : ascii) : bool :=
  is_word c || Ascii.eqb c "_" || Ascii.eqb c ".".

(** [[962]] *)
Definition is_9_6_2 (c : ascii) : bool :=
  Ascii.eqb c "9" || Ascii.eqb c "6" || Ascii.eqb c "2".

(** The regular expressions the patterns are made of. *)
Inductive Regex :=
| Fail
| Eps
| Chars (cls : ascii -> bool)
| Seq (r1 r2 : Regex)
| Alt (r1 r2 : Regex)
| Star (r : Regex).

(** [r+] *)
Definition Plus (r : Regex) : Regex := Seq r (Star r).

(** [r{n}] *)
Fixpoint Repeat (n : nat) (r : Regex) : Regex :=
  match n with
  | O => Eps
  | S n' => Seq r (Repeat n' r)
  end.

(** Matching by derivatives. *)
Fixpoint nullable (r : Regex) : bool :=
  match r with
  | Fail => false
  | Eps => true
  | Chars _ => false
  | Seq r1 r2 => nullable r1 && nullable r2
  | Alt r1 r2 => nullable r1 || nullable r2
  | Star _ => true
  end.

Fixpoint deriv (c : ascii) (r : Regex) : Regex :=
  match r with
  | Fail => Fail
  | Eps => Fail
  | Chars cls => if cls c then Eps else Fail
  | Seq r1 r2 =>
      if nullable r1
      then Alt (Seq (deriv c r1) r2) (deriv c r2)
      else Seq (deriv c r1) r2
  | Alt r1 r2 => Alt (deriv c r1) (deriv c r2)
  | Star r1 => Seq (deriv c r1) (Star r1)
  end.

Fixpoint matches (r : Regex) (s : string) : bool :=
  match s with
  | EmptyString => nullable r
  | String c rest => matches (deriv c r) rest
  end.

(** [s] without its last character when that is a line feed. *)
Fixpoint strip_final_newline (s : string) : option string :=
  match s with
  | EmptyString => None
  | String c rest =>
      match rest with
      | EmptyString => if Ascii.eqb c "010" then Some EmptyString else None
      | _ => option_map (String c) (strip_final_newline rest)
      end
  end.

(** [re.match("^" r "$", s) is not None]: [$] matches at the end of the
    string and also just before a line feed that ends it. *)
Definition re_match_anchored (r : Regex) (s : string) : bool :=
  matches r s ||
  match strip_final_newline s with
  | Some t => matches r t
  | None => false
  end.

(** [^[\w\.-]+@[\w\.-]+\.\w+$] *)
Definition email_pattern : Regex :=
  Seq (Plus (Chars is_word_dot_dash))
    (Seq (Chars (Ascii.eqb "@"))
       (Seq (Plus (Chars is_word_dot_dash))
          (Seq (Chars (Ascii.eqb ".")) (Plus (Chars is_word))))).

Definition is_valid_email (email : string) : bool :=
  re_match_anchored email_pattern email.

(** [^@[a-zA-Z][\w_.]*$] *)
Definition username_pattern : Regex :=
  Seq (Chars (Ascii.eqb "@"))
    (Seq (Chars is_letter) (Star (Chars is_word_dot))).

Definition is_valid_username (username : string) : bool :=
  re_match_anchored username_pattern username.

(** [^[962]\d{9}$] *)
Definition phone_pattern : Regex :=
  Seq (Chars is_9_6_2) (Repeat 9 (Chars is_digit)).

Definition is_valid_full_phone (phone : string) : bool :=
  re_match_anchored phone_pattern phone.

(** [any(p c for c in s)] and [all(p c for c in s)] *)
Fixpoint any_char (p : ascii -> bool) (s : string) : bool :=
  match s with
  | EmptyString => false
  | String c rest => p c || any_char p rest
  end.

Fixpoint all_chars (p : ascii -> bool) (s : string) : bool :=
  match s with
  | EmptyString => true
  | String c rest => p c && all_chars p rest
  end.

(** [string.punctuation] *)
Definition punctuation : string :=
  String "!" (String "034" "#$%&'()*+,-./:;<=>?@[\]^_`{|}~").

(** [c in string.punctuation] *)
Definition is_punctuation (c : ascii) : bool :=
  any_char (Ascii.eqb c) punctuation.

(** [len(password)] counts characters: on ASCII text, the bytes; the
    properties of this function are stated for ASCII passwords. *)
Definition is_strong_password (password : string) : bool :=
  (8 <=? String.length password)%nat &&
  any_char is_digit password &&
  any_char is_lower password &&
  any_char is_upper password &&
  any_char is_punctuation password.

(** The strings a regular expression denotes. *)
Inductive Lang : Regex -> string -> Prop :=
| lang_eps : Lang Eps EmptyString
| lang_chars cls c : cls c = true -> Lang (Chars cls) (String c EmptyString)
| lang_seq r1 r2 s1 s2 :
    Lang r1 s1 -> Lang r2 s2 -> Lang (Seq r1 r2) (s1 +:+ s2)
| lang_alt_l r1 r2 s : Lang r1 s -> Lang (Alt r1 r2) s
| lang_alt_r r1 r2 s : Lang r2 s -> Lang (Alt r1 r2) s
| lang_star_nil r : Lang (Star r) EmptyString
| lang_star_cons r s1 s2 :
    Lang r s1 -> Lang (Star r) s2 -> Lang (Star r) (s1 +:+ s2).

(** ** The pages: the account functions and [main]

    [get_db_connection], [register_user], [verify_user], [logout] and [main]
    of [milestone 3/sub.py] and [milestone 2/application.py]. One run of
    [main] is one rerun of the Streamlit script: the widgets' values are
    its input, [st.session_state] is carried from one run to the next.

    The database is outside the repository: whether the connection opens,
    what [fetchone] returns and whether an [INSERT] is accepted are given by
    a record [Accounts]; a committed [INSERT] is recorded. Calls that only
    display ([st.title], [st.write], [st.image], [st.subheader],
    [st.markdown], the preview of the input video, the footer) are left out
    unless evaluating their argument can raise; what the page shows with
    [st.success], [st.error] and [st.warning], and the reels it displays, is
    kept, in a list of its own next to the trace of the pipeline. *)

Module Pages.

(** The exceptions a page can end with: those of the pipeline and the ones
    Python raises on a local variable that was never assigned, on indexing
    [None] and on an index out of range. *)
Inductive PageExn :=
| Raised (e : Exn)
| UnboundLocalError (name : string)
| TypeError (msg : string)
| IndexError (msg : string).

Inductive PageEvent :=
| st_success (msg : string)
| st_failure (msg : string)
| st_warning (msg : string)
| st_write (msg : string)
| st_video (data : option string)
| st_download_button (data : option string) (file_name : string)
| st_download_transcript (data : string)
| committed_insert (values : list (option string))
| committed_delete_all.

(** [st.session_state]: a key is absent ([None]) or holds a value;
    [user_data] holds [None] or a row of the [users] table, the tuple of its
    column values as text. *)
Record Session := mkSession {
  is_authenticated : option bool;
  user_data : option (option (list string));
  redirect_to_login : option bool;
  menu_choice : option string
}.

Record Accounts := mkAccounts {
  (** [psycopg2.connect(...)] succeeds *)
  db_connects : bool;
  (** [SELECT * FROM users WHERE email = %s AND password = %s] and
      [fetchone()]: the row or [None]; [None] outside when the query raises *)
  db_fetchone : string -> string -> option (option (list string));
  (** the [INSERT INTO users] of these values and its commit succeed *)
  db_accepts : list (option string) -> bool;
  (** [DELETE FROM users] and its commit succeed *)
  db_deletes : bool
}.

Record Page := mkPage {
  world : World;
  session : Session;
  shown : list PageEvent
}.

Inductive Outcome (A : Type) :=
| Done (a : A)
| Failed (e : PageExn).
Arguments Done {A} a.
Arguments Failed {A} e.

(** A computation over a state [S] that ends with a value or with an
    exception. *)
Definition Run (S A : Type) : Type := S -> Outcome A * S.

#[global] Instance Run_ret S : MRet (Run S) := fun A a s => (Done a, s).
#[global] Instance Run_bind S : MBind (Run S) := fun A B k m s =>
  match m s with
  | (Done a, s') => k a s'
  | (Failed e, s') => (Failed e, s')
  end.

(** From any state that satisfies [pre], the computation ends, with a value
    or with an exception, in a state that satisfies [post]. *)
Definition hoare {S A} (pre : S -> Prop) (m : Run S A) (post : S -> Prop)
    : Prop :=
  forall s r s', pre s -> m s = (r, s') -> post s'.

(** A page of milestone 2 or 3. *)
Abbreviation P := (Run Page).

Definition fail {A} (e : PageExn) : P A := fun p => (Failed e, p).

Definition show (ev : PageEvent) : P unit :=
  fun p => (Done tt, mkPage (world p) (session p) (shown p ++ [ev])).

(** Run a computation of the pipeline inside a page. *)
Definition lift {A} (m : M A) : P A :=
  fun p => match m (world p) with
           | (Returns a, w') => (Done a, mkPage w' (session p) (shown p))
           | (Raises e, w') =>
               (Failed (Raised e), mkPage w' (session p) (shown p))
           end.

Definition get_session : P Session := fun p => (Done (session p), p).

Definition set_session (s : Session) : P unit :=
  fun p => (Done tt, mkPage (world p) s (shown p)).

(** [st.session_state.is_authenticated], read as a condition. *)
Definition authenticated (s : Session) : bool :=
  match is_authenticated s with
  | Some true => true
  | _ => false
  end.

(** [row[i]] where [row] is [None] or a tuple. *)
Definition index (row : option (list string)) (i : nat) : P string :=
  match row with
  | None => fail (TypeError "'NoneType' object is not subscriptable")
  | Some values =>
      match values !! i with
      | Some v => mret v
      | None => fail (IndexError "tuple index out of range")
      end
  end.

(** [st.session_state.user_data] *)
Definition read_user_data : P (option (list string)) :=
  s ← get_session;
  match user_data s with
  | Some row => mret row
  | None => fail (Raised (AttributeError
              "st.session_state has no attribute 'user_data'"))
  end.

(** A row read as a condition: [None] and the empty tuple are false. *)
Definition row_truthy (row : option (list string)) : bool :=
  match row with
  | Some (_ :: _) => true
  | _ => false
  end.

Section Accounts.

Variable db : Accounts.

(** The connection, or [None] after an error message. *)
Definition get_db_connection : P bool :=
  if db_connects db then mret true
  else show (st_failure "Database connection error");; mret false.

(** [True], [False], or [None] when there is no connection. *)
Definition register_user
    (full_name username email password phone profession dob short_desc
     profile_picture_path country_code : string) : P (option bool) :=
  conn ← get_db_connection;
  if conn : bool then
    let values := Some <$>
                  [full_name; username; email; password; phone; profession;
                   dob; short_desc; profile_picture_path; country_code] in
    if db_accepts db values
    then show (committed_insert values);; mret (Some true)
    else show (st_failure "Error during registration");; mret (Some false)
  else mret None.

(** The row, or [None]. *)
Definition verify_user (email password : string)
    : P (option (list string)) :=
  conn ← get_db_connection;
  if conn : bool then
    match db_fetchone db email password with
    | Some row => mret row
    | None =>
        show (st_failure "Error during user verification");; mret None
    end
  else mret None.

End Accounts.

Definition logout : P unit :=
  s ← get_session;
  set_session (mkSession (Some false) (Some None) (redirect_to_login s)
                 (menu_choice s));;
  show (st_success "You have successfully logged out.");;
  s ← get_session;
  set_session (mkSession (is_authenticated s) (user_data s) (Some true)
                 (menu_choice s)).

(** [a, b, c, d = t] for what [process_video_upload] returned. *)
Definition unpack4 (t : Returned)
    : P (option string * option string * list (option string)
         * list Segment) :=
  match t with
  | Return4 motivational_contents transcript_path reels_paths
      important_segments =>
      mret (motivational_contents, transcript_path, reels_paths,
            important_segments)
  | Return3 _ _ _ =>
      fail (Raised (ValueError
        "not enough values to unpack (expected 4, got 3)"))
  end.

(** [for x in xs: body x] in a page. *)
Fixpoint for_all {A} (xs : list A) (body : A -> P unit) : P unit :=
  match xs with
  | [] => mret tt
  | x :: xs' => body x;; for_all xs' body
  end.

(** The first lines of [main]: the key [is_authenticated] is created. *)
Definition ensure_is_authenticated : P unit :=
  s ← get_session;
  match is_authenticated s with
  | None => set_session (mkSession (Some false) (user_data s)
                           (redirect_to_login s) (menu_choice s))
  | Some _ => mret tt
  end.

(** The Login branch of [main]. *)
Definition login_page (db : Accounts) (email password : string)
    (button : bool) : P unit :=
  if button then
    row ← verify_user db email password;
    if row_truthy row then
      s ← get_session;
      set_session (mkSession (Some true) (Some row) (redirect_to_login s)
                     (menu_choice s));;
      show (st_success "Logged in successfully!")
    else show (st_failure "Invalid credentials. Please try again.")
  else mret tt.

(** The Register branch of [main]. *)
Definition register_page (env : Env) (db : Accounts)
    (full_name username email password phone profession dob short_desc
     : string)
    (profile_picture : option Upload) (button : bool) : P unit :=
  if button then
    if is_valid_email email && is_valid_username username &&
       is_strong_password password && is_valid_full_phone phone
    then
      let profile_picture_path :=
        "uploads/profile_pictures/" +:+ username +:+ ".jpg" in
      match profile_picture with
      | Some picture =>
          if open_ok env profile_picture_path
          then lift (write_file profile_picture_path (getbuffer picture))
          else fail (Raised (OSError "open"))
      | None => mret tt
      end;;
      registered ← register_user db full_name username email password phone
                      profession dob short_desc profile_picture_path "IN";
      match registered with
      | Some true =>
          show (st_success "Registration successful! You can now login.")
      | _ => show (st_failure "Registration failed. Please try again.")
      end
    else show (st_failure "Please check your input fields for errors.")
  else mret tt.

(** In an authenticated session [user_data] holds a row. *)
Definition session_ok (s : Session) : Prop :=
  authenticated s = true ->
  exists row, user_data s = Some (Some row) /\ row <> [].

End Pages.

(** *** [main] of [milestone 3/sub.py] *)

Module Milestone3Page.
Import Pages.

Record Widgets := mkWidgets {
  choice : string;
  (* Login *)
  login_email : string;
  login_password : string;
  login_button : bool;
  (* Register *)
  full_name : string;
  username : string;
  email : string;
  password : string;
  phone : string;
  profession : string;
  dob : string;
  short_desc : string;
  profile_picture : option Upload;
  register_button : bool;
  (* Process Video *)
  video_file : option Upload;
  youtube_url : string;
  language : string;
  process_button : bool;
  summary_option : string;
  (* Logout *)
  logout_confirmation : string
}.

Section Main.

Variable env : Env.
Variable db : Accounts.

(** The User Profile branch: [user_data] is assigned only when the session
    is authenticated, and read after the [if] in both cases. *)
Definition profile_page : P unit :=
  s ← get_session;
  local_user_data ←
    (if authenticated s then
       row ← read_user_data;
       index row 7;;
       mret (Some row)
     else mret None);
  match local_user_data with
  | None => fail (UnboundLocalError "user_data")
  | Some row =>
      index row 1;; index row 9;; index row 2;; index row 4;;
      index row 5;; index row 6;; index row 8;; mret tt
  end.

(** The preview of the input: a URL given without a file is announced. *)
Definition preview (ui : Widgets) : P unit :=
  match video_file ui with
  | Some _ => mret tt
  | None =>
      if truthy (Some (youtube_url ui))
      then lift (emit (st_text
                   "Video from YouTube will be processed shortly..."))
      else mret tt
  end.

(** The Process Video branch. *)
Definition process_page (ui : Widgets) : P unit :=
  preview ui;;
  results ←
    (if process_button ui then
       row ← read_user_data;
       name ← index row 9;
       returned ← lift (Milestone3.process_video_upload env (video_file ui)
                          (Some (youtube_url ui)) name (language ui));
       unpacked ← unpack4 returned;
       lift (emit (progress 0));;
       lift (for_each (seq 0 100) (fun i => emit (progress (i + 1))));;
       mret (unpacked, Some name)
     else mret ((None, None, [], []), None));
  let '((motivational_summary, transcript_path, reels_paths,
         important_segments), name) := results in
  (if String.eqb (summary_option ui) "Yes" then
     match motivational_summary with
     | Some (String c rest) => show (st_write (String c rest))
     | _ => mret tt
     end
   else mret tt);;
  match reels_paths with
  | [] => show (st_warning "No reels were created.")
  | _ =>
      for_all (imap pair reels_paths) (fun ir =>
        show (st_video ir.2);;
        match name with
        | Some name =>
            show (st_download_button ir.2
                    (name +:+ "_reel_" +:+ str_nat (ir.1 + 1) +:+ ".mp4"))
        | None => fail (UnboundLocalError "username")
        end)
  end.

Definition logout_page (ui : Widgets) : P unit :=
  if String.eqb (logout_confirmation ui) "Yes" then
    logout;;
    s ← get_session;
    set_session (mkSession (Some false) (Some None) (redirect_to_login s)
                   (menu_choice s))
  else mret tt.

(** One run of [main]. The sidebar offers Logout only to an authenticated
    session; here [choice] ranges over all strings, which covers it. *)
Definition main (ui : Widgets) : P unit :=
  ensure_is_authenticated;;
  s ← get_session;
  if String.eqb (choice ui) "Home" then mret tt
  else if String.eqb (choice ui) "Login" then
    login_page db (login_email ui) (login_password ui) (login_button ui)
  else if String.eqb (choice ui) "Register" then
    register_page env db (full_name ui) (username ui) (email ui)
      (password ui) (phone ui) (profession ui) (dob ui) (short_desc ui)
      (profile_picture ui) (register_button ui)
  else if String.eqb (choice ui) "User Profile" then profile_page
  else if String.eqb (choice ui) "Process Video" && authenticated s then
    process_page ui
  else if String.eqb (choice ui) "Logout" then logout_page ui
  else mret tt.

End Main.
End Milestone3Page.

(** *** [main] of [milestone 2/application.py] *)

Module Milestone2Page.
Import Pages.

Record Widgets := mkWidgets {
  choice : string;
  (* Home *)
  home_login_button : bool;
  home_register_button : bool;
  (* Login *)
  login_email : string;
  login_password : string;
  login_button : bool;
  (* Register *)
  full_name : string;
  username : string;
  email : string;
  password : string;
  phone : string;
  profession : string;
  dob : string;
  short_desc : string;
  profile_picture : option Upload;
  register_button : bool;
  (* Process Video *)
  video_file : option Upload;
  language : string;
  process_button : bool
}.

Section Main.

Variable env : Env.
Variable db : Accounts.

Definition home_page (ui : Widgets) : P unit :=
  (if home_login_button ui then
     s ← get_session;
     set_session (mkSession (is_authenticated s) (user_data s)
                    (redirect_to_login s) (Some "Login"))
   else mret tt);;
  if home_register_button ui then
    s ← get_session;
    set_session (mkSession (is_authenticated s) (user_data s)
                   (redirect_to_login s) (Some "Register"))
  else mret tt.

(** The User Profile branch: everything that reads [user_data] is under
    the [if]. *)
Definition profile_page : P unit :=
  s ← get_session;
  if authenticated s then
    row ← read_user_data;
    index row 1;; index row 9;; index row 2;; index row 4;;
    index row 5;; index row 6;; index row 8;; index row 7;; mret tt
  else show (st_warning "You need to log in to view your profile.").

(** [process_video_upload(video_file, username, language)] where
    [video_file] may be [None]: the temporary file is created, empty, before
    [video_file.getbuffer()] raises. *)
Definition call_process_video_upload (video_file : option Upload)
    (name language : string) : P Returned :=
  match video_file with
  | Some uploaded =>
      lift (Milestone2.process_video_upload env uploaded name language)
  | None =>
      lift (write_file (tempfile_name env) (TextFile ""));;
      fail (Raised (AttributeError
              "'NoneType' object has no attribute 'getbuffer'"))
  end.

(** The Process Video branch. *)
Definition process_page (ui : Widgets) : P unit :=
  results ←
    (if process_button ui then
       row ← read_user_data;
       name ← index row 9;
       returned ← call_process_video_upload (video_file ui) name
                    (language ui);
       unpacked ← unpack4 returned;
       mret (unpacked, Some name)
     else mret ((None, None, [], []), None));
  let '((motivational_summary, transcript_path, reels_paths,
         important_segments), name) := results in
  match motivational_summary with
  | Some (String c rest) => show (st_write (String c rest))
  | _ => mret tt
  end;;
  match important_segments with
  | [] => show (st_write "No important segments found.")
  | _ =>
      for_all important_segments (fun segment =>
        show (st_write
                ("[" +:+ format_2f (start segment) +:+ "s - " +:+
                 format_2f (end_ segment) +:+ "s]: " +:+ text segment)))
  end;;
  match transcript_path with
  | Some (String c rest) => show (st_download_transcript (String c rest))
  | _ => mret tt
  end;;
  for_all (imap pair reels_paths) (fun ir =>
    show (st_video ir.2);;
    match name with
    | Some name =>
        show (st_download_button ir.2
                (name +:+ "_reel_" +:+ str_nat (ir.1 + 1) +:+ ".mp4"))
    | None => fail (UnboundLocalError "username")
    end).

Definition main (ui : Widgets) : P unit :=
  ensure_is_authenticated;;
  s ← get_session;
  if String.eqb (choice ui) "Home" then home_page ui
  else if String.eqb (choice ui) "Login" then
    login_page db (login_email ui) (login_password ui) (login_button ui)
  else if String.eqb (choice ui) "Register" then
    register_page env db (full_name ui) (username ui) (email ui)
      (password ui) (phone ui) (profession ui) (dob ui) (short_desc ui)
      (profile_picture ui) (register_button ui)
  else if String.eqb (choice ui) "User Profile" then profile_page
  else if String.eqb (choice ui) "Process Video" && authenticated s then
    process_page ui
  else mret tt.

End Main.
End Milestone2Page.

(** *** [app.py] *)

Module AppPage.
Import Pages.

(** [st.session_state] once [main] has filled it. *)
Record Session := mkSession {
  page : string;
  logged_in : bool;
  email : string;
  phone : string;
  profile_picture_path : option string;
  profession : string;
  full_name : string;
  dob : string;
  short_desc : string
}.

Record State := mkState {
  disk : gmap string File;
  session : option Session;
  shown : list PageEvent
}.

Abbreviation A := (Run State).

Definition fail {X} (e : PageExn) : A X := fun st => (Failed e, st).

Definition show (ev : PageEvent) : A unit :=
  fun st => (Done tt, mkState (disk st) (session st) (shown st ++ [ev])).

(** [open(path, "wb")] and the write of the buffer. *)
Definition write_upload (env : Env) (path : string) (uploaded : Upload)
    : A unit :=
  fun st =>
    if open_ok env path
    then (Done tt,
          mkState (<[path := getbuffer uploaded]> (disk st)) (session st)
            (shown st))
    else (Failed (Raised (OSError "open")), st).

(** What the first lines of [main] put in an empty session. *)
Definition initial_session : Session :=
  mkSession "login" false "" "" None "" "" "" "".

(** The session, filled by the first lines of [main] if it was empty. *)
Definition the_session : A Session :=
  fun st =>
    match session st with
    | Some s => (Done s, st)
    | None =>
        let s := initial_session in
        (Done s, mkState (disk st) (Some s) (shown st))
    end.

(** The session as [main] sees it. *)
Definition current (st : State) : Session :=
  match session st with
  | Some s => s
  | None => initial_session
  end.

(** The profile and the upload page are shown to a logged-in session. *)
Definition gated (st : State) : Prop :=
  page (current st) = "profile" \/ page (current st) = "upload_video" ->
  logged_in (current st) = true.

Definition put_session (s : Session) : A unit :=
  fun st => (Done tt, mkState (disk st) (Some s) (shown st)).

Definition update (f : Session -> Session) : A unit :=
  s ← the_session; put_session (f s).

Definition set_page (p : string) : A unit :=
  update (fun s => mkSession p (logged_in s) (email s) (phone s)
                     (profile_picture_path s) (profession s) (full_name s)
                     (dob s) (short_desc s)).

(** [row[i]] for a row that is a tuple. *)
Definition index (row : list string) (i : nat) : A string :=
  match row !! i with
  | Some v => mret v
  | None => fail (IndexError "tuple index out of range")
  end.

Record Widgets := mkWidgets {
  (* login *)
  login_email : string;
  login_password : string;
  login_button : bool;
  to_register_button : bool;
  (* register *)
  reg_full_name : string;
  reg_dob : string;
  new_email : string;
  new_password : string;
  confirm_password : string;
  new_phone : string;
  reg_profession : string;
  reg_short_desc : string;
  profile_picture : option Upload;
  register_button : bool;
  back_to_login_button : bool;
  (* profile *)
  upload_video_button : bool;
  (* upload_video *)
  video_file : option Upload;
  threshold : nat;
  generate_reel_button : bool;
  back_to_profile_button : bool
}.

Section Main.

Variable env : Env.
Variable db : Accounts.

(** [os.path.join('uploads', name)], as the platform has it. *)
Variable uploads_join : string -> string.

Definition get_db_connection : A bool :=
  if db_connects db then mret true
  else show (st_failure "Database connection error");; mret false.

Definition delete_all_users : A unit :=
  conn ← get_db_connection;
  if conn : bool then
    if db_deletes db then show committed_delete_all
    else show (st_failure "Error deleting users")
  else mret tt.

Definition register_user
    (full_name email password phone profession dob short_desc : string)
    (profile_picture_path : option string) : A (option bool) :=
  conn ← get_db_connection;
  if conn : bool then
    let values := [Some full_name; Some email; Some password; Some phone;
                   Some profession; Some dob; Some short_desc;
                   profile_picture_path] in
    if db_accepts db values
    then show (committed_insert values);; mret (Some true)
    else show (st_failure "Error during registration");; mret (Some false)
  else mret None.

Definition verify_user (email password : string)
    : A (option (list string)) :=
  conn ← get_db_connection;
  if conn : bool then
    match db_fetchone db email password with
    | Some row => mret row
    | None =>
        show (st_failure "Error during user verification");; mret None
    end
  else mret None.

Definition login_page (ui : Widgets) : A unit :=
  (if login_button ui then
     user ← verify_user (login_email ui) (login_password ui);
     match user with
     | Some ((_ :: _) as row) =>
         update (fun s => mkSession (page s) true (email s) (phone s)
                   (profile_picture_path s) (profession s) (full_name s)
                   (dob s) (short_desc s));;
         update (fun s => mkSession (page s) (logged_in s) (login_email ui)
                   (phone s) (profile_picture_path s) (profession s)
                   (full_name s) (dob s) (short_desc s));;
         v ← index row 4;
         update (fun s => mkSession (page s) (logged_in s) (email s) v
                   (profile_picture_path s) (profession s) (full_name s)
                   (dob s) (short_desc s));;
         v ← index row 5;
         update (fun s => mkSession (page s) (logged_in s) (email s)
                   (phone s) (profile_picture_path s) v (full_name s)
                   (dob s) (short_desc s));;
         v ← index row 1;
         update (fun s => mkSession (page s) (logged_in s) (email s)
                   (phone s) (profile_picture_path s) (profession s) v
                   (dob s) (short_desc s));;
         v ← index row 6;
         update (fun s => mkSession (page s) (logged_in s) (email s)
                   (phone s) (profile_picture_path s) (profession s)
                   (full_name s) v (short_desc s));;
         v ← index row 8;
         update (fun s => mkSession (page s) (logged_in s) (email s)
                   (phone s) (profile_picture_path s) (profession s)
                   (full_name s) (dob s) v);;
         v ← index row 7;
         update (fun s => mkSession (page s) (logged_in s) (email s)
                   (phone s) (Some v) (profession s) (full_name s)
                   (dob s) (short_desc s));;
         set_page "profile";;
         show (st_success "Login successful!")
     | _ => show (st_failure "Invalid email or password. Please try again.")
     end
   else mret tt);;
  if to_register_button ui then set_page "register" else mret tt.

Definition register_page (ui : Widgets) : A unit :=
  (if register_button ui then
     delete_all_users;;
     if negb (is_valid_email (new_email ui)) then
       show (st_failure "Invalid email format.")
     else if negb (is_strong_password (new_password ui)) then
       show (st_failure "Password must meet the specified requirements.")
     else if negb (String.eqb (new_password ui) (confirm_password ui)) then
       show (st_failure "Passwords do not match.")
     else
       let profile_picture_path :=
         match profile_picture ui with
         | Some picture => Some ("uploads/" +:+ name picture)
         | None => None
         end in
       match profile_picture ui, profile_picture_path with
       | Some picture, Some path => write_upload env path picture
       | _, _ => mret tt
       end;;
       registration_success ←
         register_user (reg_full_name ui) (new_email ui) (new_password ui)
           (new_phone ui) (reg_profession ui) (reg_dob ui)
           (reg_short_desc ui) profile_picture_path;
       match registration_success with
       | Some true =>
           show (st_success "Registration successful! Please log in.");;
           set_page "login"
       | _ => mret tt
       end
   else mret tt);;
  if back_to_login_button ui then set_page "login" else mret tt.

Definition profile_page (ui : Widgets) : A unit :=
  if upload_video_button ui then set_page "upload_video" else mret tt.

Definition upload_video_page (ui : Widgets) : A unit :=
  match video_file ui with
  | Some uploaded =>
      write_upload env (uploads_join (name uploaded)) uploaded;;
      show (st_success "Video uploaded successfully!")
  | None => mret tt
  end;;
  (if generate_reel_button ui then
     match video_file ui with
     | Some uploaded =>
         show (st_success
                 ("Reel generated with threshold set to " +:+
                  str_nat (threshold ui) +:+ " for video: " +:+
                  name uploaded))
     | None =>
         show (st_failure
                 "Please upload a video file before generating a reel.")
     end
   else mret tt);;
  if back_to_profile_button ui then set_page "profile" else mret tt.

Definition main (ui : Widgets) : A unit :=
  s ← the_session;
  if String.eqb (page s) "login" then login_page ui
  else if String.eqb (page s) "register" then register_page ui
  else if String.eqb (page s) "profile" then profile_page ui
  else if String.eqb (page s) "upload_video" then upload_video_page ui
  else mret tt.

End Main.
End AppPage.

(** ** The transcriber script: [unnamed/part_000]

    [analyze_sentiment], [transcribe_audio_with_timestamps] and
    [save_transcription]. The Whisper model and TextBlob are outside the
    repository: what they return or raise is given by a record. The state
    is the disk and what the script has printed. Strings are ASCII, as for
    the validators: [strip] removes the ASCII white space. *)

Module Part000.
Import Pages.

(** What a write to an opened file does: it is done, or it raises and
    leaves in the file what was written until then. *)
Inductive Written :=
| WriteDone
| WriteRaises (e : Exn) (partial : string).

Record Env := mkEnv {
  (** [whisper.load_model("base")]: the exception it raises, if any *)
  load_model : option Exn;
  (** [model.transcribe(audio_path, language="en")]: the exception it
      raises, or what the result holds under ['segments'], [None] when the
      key is absent *)
  model_transcribe : string -> Exn + option (list Segment);
  (** [TextBlob(text).sentiment.polarity] *)
  polarity : string -> Exn + Q;
  (** [open(path, "w")] succeeds *)
  open_ok : string -> bool;
  (** [f.write(content)] and the close of the file at [path] *)
  f_write : string -> string -> Written
}.

Record Console := mkConsole {
  disk : gmap string File;
  printed : list string
}.

Abbreviation C := (Run Console).

Definition print (line : string) : C unit :=
  fun c => (Done tt, mkConsole (disk c) (printed c ++ [line])).

Definition raise {X} (e : Exn) : C X := fun c => (Failed (Raised e), c).

(** [try: body except Exception as e: handler e] *)
Definition try_except {X} (body : C X) (handler : PageExn -> C X) : C X :=
  fun c => match body c with
           | (Done x, c') => (Done x, c')
           | (Failed e, c') => handler e c'
           end.

Definition from_sum {X} (r : Exn + X) : C X :=
  match r with
  | inl e => raise e
  | inr x => mret x
  end.

(** [str(e)] *)
Definition str_exception (e : PageExn) : string :=
  match e with
  | Raised (ValueError msg) | Raised (AttributeError msg)
  | Raised (OSError msg) | Raised (RuntimeError msg)
  | UnboundLocalError msg | TypeError msg | IndexError msg => msg
  end.

(** [os.path.exists(path)] *)
Definition os_path_exists (path : string) : C bool :=
  fun c => (Done (bool_decide (is_Some (disk c !! path))), c).

(** [with open(path, "w") as f: f.write(content)]: the open creates the
    file or empties it, before anything is written. *)
Definition write_text (env : Env) (path content : string) : C unit :=
  fun c =>
    if open_ok env path then
      match f_write env path content with
      | WriteDone =>
          (Done tt,
           mkConsole (<[path := TextFile content]> (disk c)) (printed c))
      | WriteRaises e partial =>
          (Failed (Raised e),
           mkConsole (<[path := TextFile partial]> (disk c)) (printed c))
      end
    else (Failed (Raised (OSError "open")), c).

(** [c.isspace()] for an ASCII character *)
Definition is_space (c : ascii) : bool :=
  let n := nat_of_ascii c in
  ((9 <=? n) && (n <=? 13) || (28 <=? n) && (n <=? 32))%nat.

Fixpoint lstrip (s : string) : string :=
  match s with
  | String c rest => if is_space c then lstrip rest else s
  | EmptyString => EmptyString
  end.

Fixpoint rstrip (s : string) : string :=
  match s with
  | String c rest =>
      match rstrip rest with
      | EmptyString => if is_space c then EmptyString
                       else String c EmptyString
      | kept => String c kept
      end
  | EmptyString => EmptyString
  end.

(** [s.strip()] *)
Definition strip (s : string) : string := rstrip (lstrip s).

Section Script.

Variable env : Env.

(** The polarity of the text and its tone. *)
Definition analyze_sentiment (text : string) : C (Q * string) :=
  polarity ← from_sum (polarity env text);
  let tone :=
    if Qltb 0.1 polarity then "Positive"
    else if Qltb polarity (-0.1) then "Negative"
    else "Neutral" in
  mret (polarity, tone).

(** One line of the transcription. *)
Definition formatted_text (start_time end_time : Q) (text : string)
    (sentiment_score : Q) (tone : string) : string :=
  "[" +:+ format_2f start_time +:+ " - " +:+ format_2f end_time +:+ "] " +:+
  text +:+ " (Sentiment: " +:+ format_2f sentiment_score +:+ ", Tone: " +:+
  tone +:+ ")".

(** The loop over the segments: the lines in order. *)
Fixpoint format_segments (segments : list Segment) : C (list string) :=
  match segments with
  | [] => mret []
  | segment :: rest =>
      let text := strip (text segment) in
      scored ← analyze_sentiment text;
      lines ← format_segments rest;
      mret (formatted_text (start segment) (end_ segment) text
              scored.1 scored.2 :: lines)
  end.

Definition transcribe_audio_with_timestamps (audio_path : string)
    : C string :=
  try_except
    (print "Loading Whisper model...";;
     match load_model env with
     | Some e => raise e
     | None => mret tt
     end;;
     print "Whisper model loaded successfully.";;
     found ← os_path_exists audio_path;
     if negb found then
       print ("Audio file does not exist: " +:+ audio_path);;
       mret ""
     else
       print "Transcribing audio...";;
       result ← from_sum (model_transcribe env audio_path);
       let segments := default [] result in
       match segments with
       | [] => print "No segments found in transcription.";; mret ""
       | _ =>
           transcription_with_timestamps ← format_segments segments;
           print ("Transcribed " +:+ str_nat (length segments) +:+
                  " segments.");;
           mret (String.concat newline transcription_with_timestamps)
       end)
    (fun e =>
       print ("Error during transcription: " +:+ str_exception e);;
       mret "").

Definition save_transcription (transcription output_file : string)
    : C unit :=
  match transcription with
  | EmptyString => print "No transcription to save."
  | _ =>
      try_except
        (write_text env output_file transcription;;
         print ("Transcription saved to: " +:+ output_file))
        (fun e => print ("Error saving transcription: " +:+ str_exception e))
  end.

(** Every segment has a polarity. *)
Definition scored (segments : list Segment) : Prop :=
  Forall (fun segment =>
            exists q, polarity env (strip (text segment)) = inr q) segments.

(** The last two steps of [main]. *)
Definition transcribe_and_save (audio_output_path
    transcription_output_path : string) : C unit :=
  transcription ← transcribe_audio_with_timestamps audio_output_path;
  save_transcription transcription transcription_output_path.

End Script.
End Part000.

(** ** Sample data for the pages *)

(** The sample run on a disk that already holds a file at the temporary
    path. *)
Definition second_run : Result Returned * World :=
  Milestone3.process_video_upload sample_env (Some sample_upload) None
    "@bob" "English" video_world.

(** A row of the [users] table. *)
Definition sample_row : list string :=
  ["1"; "Bob"; "bob@example.com"; "Passw0rd!"; "9123456789"; "speaker";
   "2000-01-01"; "uploads/profile_pictures/@bob.jpg"; "talks"; "@bob"].

(** A database that holds this row and accepts what it is sent. *)
Definition sample_accounts : Pages.Accounts :=
  Pages.mkAccounts true
    (fun email password =>
       Some (if String.eqb email "bob@example.com" &&
                String.eqb password "Passw0rd!"
             then Some sample_row else None))
    (fun _ => true) true.

(** A first visit, and a session after a login. *)
Definition visitor_page : Pages.Page :=
  Pages.mkPage empty_world (Pages.mkSession None None None None) [].

Definition member_page : Pages.Page :=
  Pages.mkPage empty_world
    (Pages.mkSession (Some true) (Some (Some sample_row)) None None) [].

Definition sample_picture : Upload := mkUpload "bob.jpg" (TextFile "jpeg").

(** The widgets of milestone 3 with a menu choice and every button as
    given; the forms hold the sample user. *)
Definition sample_widgets3 (choice : string) (button : bool)
    : Milestone3Page.Widgets :=
  Milestone3Page.mkWidgets choice
    "bob@example.com" "Passw0rd!" button
    "Bob" "@bob" "bob@example.com" "Passw0rd!" "9123456789" "speaker"
    "2000-01-01" "talks" (Some sample_picture) button
    None "" "English" button "Yes"
    "Yes".

Definition sample_widgets2 (choice : string) (button : bool)
    : Milestone2Page.Widgets :=
  Milestone2Page.mkWidgets choice
    button button
    "bob@example.com" "Passw0rd!" button
    "Bob" "@bob" "bob@example.com" "Passw0rd!" "9123456789" "speaker"
    "2000-01-01" "talks" (Some sample_picture) button
    None "English" button.

(** What milestone 3 sends to the database for the sample user. *)
Definition sample_values : list (option string) :=
  Some <$> ["Bob"; "@bob"; "bob@example.com"; "Passw0rd!"; "9123456789";
            "speaker"; "2000-01-01"; "talks";
            "uploads/profile_pictures/@bob.jpg"; "IN"].

(** [app.py]: a session on a page, logged in or not, and the widgets with
    every button as given. *)
Definition app_state (page : string) (logged_in : bool) : AppPage.State :=
  AppPage.mkState ∅
    (Some (AppPage.mkSession page logged_in "" "" None "" "" "" "")) [].

Definition app_widgets (button : bool) : AppPage.Widgets :=
  AppPage.mkWidgets
    "bob@example.com" "Passw0rd!" button false
    "Bob" "2000-01-01" "bob@example.com" "Passw0rd!" "Passw0rd!"
    "9123456789" "speaker" "talks" (Some sample_picture) button false
    button
    (Some sample_upload) 50 button false.

(** [os.path.join] on POSIX. *)
Definition posix_uploads_join (name : string) : string := "uploads/" +:+ name.

(** * Properties *)

Open Scope list_scope.
Open Scope nat_scope.

(** ** Comparisons *)

Lemma Qltb_lt (x y : Q) : Qltb x y = true <-> (x < y)%Q.
Proof.
  unfold Qltb. rewrite negb_true_iff. split.
  - intros H. apply Qnot_le_lt. intros Hle.
    apply Qle_bool_iff in Hle. congruence.
  - intros H. destruct (Qle_bool y x) eqn:E; [|reflexivity].
    apply Qle_bool_iff in E. exfalso. exact (Qlt_not_le _ _ H E).
Qed.

Lemma Qltb_ge (x y : Q) : Qltb x y = false <-> (y <= x)%Q.
Proof.
  unfold Qltb. rewrite negb_false_iff. apply Qle_bool_iff.
Qed.

(** ** Sentiment filter *)

Section Sentiment.

Variable env : Env.

Lemma analyze_sentiment_cons segment segments :
  analyze_sentiment env (segment :: segments) =
  if Qltb 0.05 (score env segment)
  then segment :: analyze_sentiment env segments
  else analyze_sentiment env segments.
Proof. reflexivity. Qed.

Lemma analyze_sentiment_app l1 l2 :
  analyze_sentiment env (l1 ++ l2) =
  analyze_sentiment env l1 ++ analyze_sentiment env l2.
Proof. apply List.filter_app. Qed.

Lemma analyze_sentiment_sublist segments :
  sublist (analyze_sentiment env segments) segments.
Proof.
  induction segments as [|segment segments IH].
  - constructor.
  - rewrite analyze_sentiment_cons.
    destruct (Qltb 0.05 (score env segment)).
    + now apply sublist_skip.
    + now apply sublist_cons.
Qed.

Lemma analyze_sentiment_keeps before segment after :
  (0.05 < score env segment)%Q ->
  analyze_sentiment env (before ++ segment :: after) =
  analyze_sentiment env before ++ segment :: analyze_sentiment env after.
Proof.
  intros Hs. rewrite analyze_sentiment_app, analyze_sentiment_cons.
  apply Qltb_lt in Hs. now rewrite Hs.
Qed.

Lemma analyze_sentiment_drops before segment after :
  (score env segment <= 0.05)%Q ->
  analyze_sentiment env (before ++ segment :: after) =
  analyze_sentiment env before ++ analyze_sentiment env after.
Proof.
  intros Hs. rewrite analyze_sentiment_app, analyze_sentiment_cons.
  apply Qltb_ge in Hs. now rewrite Hs.
Qed.

Lemma analyze_sentiment_id segments :
  Forall (fun segment => (0.05 < score env segment)%Q) segments ->
  analyze_sentiment env segments = segments.
Proof.
  induction 1 as [|segment segments Hs _ IH]; [reflexivity|].
  rewrite analyze_sentiment_cons, IH.
  apply Qltb_lt in Hs. now rewrite Hs.
Qed.

Lemma analyze_sentiment_above segments :
  Forall (fun segment => (0.05 < score env segment)%Q)
         (analyze_sentiment env segments).
Proof.
  induction segments as [|segment segments IH]; [constructor|].
  rewrite analyze_sentiment_cons.
  destruct (Qltb 0.05 (score env segment)) eqn:E; [|exact IH].
  constructor; [now apply Qltb_lt | exact IH].
Qed.

(** C3. The sentiment filter returns a subsequence of its input, in the
    original order and with the kept segments unchanged; a segment is kept
    when its compound score is strictly above 0.05 and dropped when it is
    0.05 or less, so the segments kept are exactly those of the input that
    score above 0.05. The text of a segment decides nothing but through its
    score: the filter has no case of its own for an empty text or for
    punctuation. *)
Theorem analyze_sentiment_spec before segment after :
  sublist (analyze_sentiment env (before ++ segment :: after))
          (before ++ segment :: after) /\
  ((0.05 < score env segment)%Q ->
   analyze_sentiment env (before ++ segment :: after) =
   analyze_sentiment env before ++ segment :: analyze_sentiment env after) /\
  ((score env segment <= 0.05)%Q ->
   analyze_sentiment env (before ++ segment :: after) =
   analyze_sentiment env before ++ analyze_sentiment env after) /\
  (forall kept segments,
     In kept (analyze_sentiment env segments) <->
     In kept segments /\ (0.05 < score env kept)%Q).
Proof.
  split; [apply analyze_sentiment_sublist|].
  split; [apply analyze_sentiment_keeps|].
  split; [apply analyze_sentiment_drops|].
  intros kept segments. unfold analyze_sentiment, score.
  rewrite filter_In, Qltb_lt. reflexivity.
Qed.

(** C8. Filtering a list in which every segment already scores strictly
    above 0.05 returns that list; in particular filtering twice is
    filtering once. *)
Theorem analyze_sentiment_idempotent segments :
  (Forall (fun segment => (0.05 < score env segment)%Q) segments ->
   analyze_sentiment env segments = segments) /\
  analyze_sentiment env (analyze_sentiment env segments) =
  analyze_sentiment env segments.
Proof.
  split; [apply analyze_sentiment_id|].
  apply analyze_sentiment_id, analyze_sentiment_above.
Qed.

End Sentiment.

(** ** Grouping *)

Lemma slice_length {A} (l : list A) (i n : nat) :
  i + n <= length l -> length (slice l i (i + n)) = n.
Proof.
  intros H. unfold slice. rewrite length_take, length_drop. lia.
Qed.

Lemma slice_take_drop {A} (l : list A) (i n : nat) :
  slice l i (i + n) = take n (drop i l).
Proof. unfold slice. f_equal. lia. Qed.

Lemma slice_then_rest {A} (l : list A) (i n : nat) :
  slice l i (i + n) ++ drop (i + n) l = drop i l.
Proof.
  rewrite slice_take_drop, <- (drop_drop l n i). apply take_drop.
Qed.

Lemma three_thirds (L : nat) : 3 * (L / 3) <= L.
Proof. apply Nat.Div0.mul_div_le. Qed.

Lemma make_reels_groups create_reel important_segments video_path username :
  make_reels create_reel important_segments video_path username =
  for_each (numbered (segment_groups important_segments))
    (fun ig => create_reel ig.2 video_path username (ig.1 + 1)).
Proof.
  unfold make_reels, segment_groups.
  destruct (3 <=? length important_segments); reflexivity.
Qed.

(** C1. With [L] important segments: if [L < 3] there are no groups and
    step 6 does nothing; otherwise there are exactly three groups, group
    [i] is the slice from [i * n] to [(i + 1) * n] with [n = L / 3], every
    group has [n] segments, and the list is the three groups followed by a
    tail of [L - 3 * n] segments that is in no group. Step 6 renders the
    groups of [segment_groups], in order, numbered from 1. *)
Theorem grouping_policy
    (create_reel : list Segment -> string -> string -> nat -> M (option string))
    (important_segments : list Segment) (video_path username : string) :
  let L := length important_segments in
  let n := L / 3 in
  make_reels create_reel important_segments video_path username =
    for_each (numbered (segment_groups important_segments))
      (fun ig => create_reel ig.2 video_path username (ig.1 + 1)) /\
  (L < 3 ->
   segment_groups important_segments = [] /\
   forall w, make_reels create_reel important_segments video_path username w
             = (Returns [], w)) /\
  (3 <= L ->
   length (segment_groups important_segments) = 3 /\
   (forall i, i < 3 ->
      segment_groups important_segments !! i =
      Some (slice important_segments (i * n) ((i + 1) * n))) /\
   Forall (fun group => length group = n)
          (segment_groups important_segments) /\
   important_segments =
     concat (segment_groups important_segments)
     ++ drop (3 * n) important_segments /\
   length (drop (3 * n) important_segments) = L - 3 * n).
Proof.
  intros L n. split; [apply make_reels_groups|]. split.
  - intros HL. unfold make_reels, segment_groups.
    destruct (Nat.leb_spec 3 (length important_segments)); [lia|].
    split; reflexivity.
  - intros HL. unfold segment_groups.
    destruct (Nat.leb_spec 3 (length important_segments)); [|lia].
    fold L n. pose proof (three_thirds L) as H3. fold n in H3.
    split; [reflexivity|]. split; [|split; [|split]].
    + intros i Hi.
      replace ((i + 1) * n) with (i * n + n) by lia.
      destruct i as [|[|[|i]]]; [reflexivity..|lia].
    + repeat constructor; apply slice_length; unfold L in *; lia.
    + cbn [map seq concat]. rewrite app_nil_r, <- !app_assoc.
      replace (3 * n) with (2 * n + n) by lia.
      rewrite slice_then_rest.
      replace (2 * n) with (1 * n + n) at 1 by lia.
      rewrite slice_then_rest.
      replace (1 * n) with (0 * n + n) at 1 by lia.
      rewrite slice_then_rest. reflexivity.
    + rewrite length_drop. reflexivity.
Qed.

(** ** Running computations *)

Lemma world_eta w : mkWorld (files w) (trace w) = w.
Proof. now destruct w. Qed.

Lemma bind_run {A B} (m : M A) (k : A -> M B) w :
  (m ≫= k) w =
  match m w with
  | (Returns a, w') => k a w'
  | (Raises e, w') => (Raises e, w')
  end.
Proof. reflexivity. Qed.

Lemma bind_returns {A B} (m : M A) (k : A -> M B) w a w' :
  m w = (Returns a, w') -> (m ≫= k) w = k a w'.
Proof. intros H. rewrite bind_run, H. reflexivity. Qed.

Lemma bind_raises {A B} (m : M A) (k : A -> M B) w e w' :
  m w = (Raises e, w') -> (m ≫= k) w = (Raises e, w').
Proof. intros H. rewrite bind_run, H. reflexivity. Qed.

Lemma emit_run ev w :
  emit ev w = (Returns tt, mkWorld (files w) (trace w ++ [ev])).
Proof. reflexivity. Qed.

(** Run the [emit] at the head of the computation. *)
Ltac run_emit := rewrite bind_run, emit_run; cbv beta iota.

(** ** The reel renderer of milestone 3 *)

Section Renderer.

Variable env : Env.

Lemma collect_clips_run video segments video_clips w :
  Milestone3.collect_clips video segments video_clips w =
  (Returns (video_clips ++ valid_clips video segments),
   mkWorld (files w) (trace w ++ warnings video segments)).
Proof.
  revert video_clips w.
  induction segments as [|segment rest IH]; intros video_clips w.
  - cbn. unfold valid_clips, warnings. cbn.
    now rewrite !app_nil_r, world_eta.
  - cbn [Milestone3.collect_clips]. unfold valid_clips, warnings.
    cbn [List.filter]. fold (valid video segment).
    destruct (valid video segment); cbn [negb map].
    + rewrite IH. unfold valid_clips, warnings, clip_of.
      now rewrite <- app_assoc.
    + rewrite bind_run, emit_run, IH. cbn [files trace].
      unfold valid_clips, warnings. now rewrite <- app_assoc.
Qed.

Lemma create_reel_run segments video_path username reel_index w d a :
  files w !! video_path = Some (VideoFile d a) ->
  let video := mkVideo d a in
  let shown := trace w ++ warnings video segments in
  Milestone3.create_reel env segments video_path username reel_index w =
  match valid_clips video segments with
  | [] => (Returns None,
           mkWorld (files w) (shown ++ [print_reel_error no_clips]))
  | clips =>
      if ffmpeg_ok env (reel_path username reel_index)
      then (Returns (Some (reel_path username reel_index)),
            mkWorld (<[reel_path username reel_index := ReelFile clips]>
                       (files w)) shown)
      else (Returns None,
            mkWorld (files w)
              (shown ++ [print_reel_error (OSError "ffmpeg: write failed")]))
  end.
Proof.
  intros Hv video shown.
  unfold Milestone3.create_reel, try_except, VideoFileClip.
  rewrite !bind_run. unfold read_file. rewrite Hv.
  change (ret (mkVideo d a) w) with (Returns video, w).
  cbv beta iota.
  rewrite bind_run, collect_clips_run. cbn [app].
  fold (reel_path username reel_index).
  destruct (valid_clips video segments) as [|clip clips] eqn:Hc.
  - reflexivity.
  - rewrite bind_run. unfold ffmpeg_write.
    destruct (ffmpeg_ok env (reel_path username reel_index)); reflexivity.
Qed.

Lemma create_reel_no_video segments video_path username reel_index w :
  (forall d a, files w !! video_path <> Some (VideoFile d a)) ->
  Milestone3.create_reel env segments video_path username reel_index w =
  (Returns None,
   mkWorld (files w)
     (trace w ++ [print_reel_error
        (OSError "MoviePy error: the file could not be found")])).
Proof.
  intros Hv.
  unfold Milestone3.create_reel, try_except, VideoFileClip.
  rewrite !bind_run. unfold read_file.
  destruct (files w !! video_path) as [[d a| |c|cs]|] eqn:E;
    try reflexivity.
  now destruct (Hv d a).
Qed.

(** [create_reel] catches every exception: it always returns. *)
Lemma create_reel_returns segments video_path username reel_index w :
  exists r w',
    Milestone3.create_reel env segments video_path username reel_index w
    = (Returns r, w').
Proof.
  destruct (files w !! video_path) as [[d a| |c|cs]|] eqn:E.
  - rewrite (create_reel_run _ _ _ _ _ d a E).
    destruct (valid_clips _ _); [eauto|].
    destruct (ffmpeg_ok _ _); eauto.
  - rewrite create_reel_no_video; [eauto|]. intros; congruence.
  - rewrite create_reel_no_video; [eauto|]. intros; congruence.
  - rewrite create_reel_no_video; [eauto|]. intros; congruence.
  - rewrite create_reel_no_video; [eauto|]. intros; congruence.
Qed.

End Renderer.

Section RendererProperties.

Variable env : Env.

Lemma valid_clips_app video l1 l2 :
  valid_clips video (l1 ++ l2) = valid_clips video l1 ++ valid_clips video l2.
Proof. unfold valid_clips. now rewrite List.filter_app, map_app. Qed.

Lemma warnings_app video l1 l2 :
  warnings video (l1 ++ l2) = warnings video l1 ++ warnings video l2.
Proof. unfold warnings. now rewrite List.filter_app, map_app. Qed.

Lemma valid_clips_all_valid video segments :
  Forall (fun segment => valid video segment = true) segments ->
  valid_clips video segments = map (clip_of video) segments /\
  warnings video segments = [].
Proof.
  unfold valid_clips, warnings.
  induction 1 as [|segment rest Hs _ [IHc IHw]]; [easy|].
  cbn [List.filter]. rewrite Hs. cbn [negb map]. now rewrite IHc, IHw.
Qed.

Lemma valid_clips_none_valid video segments :
  Forall (fun segment => valid video segment = false) segments ->
  valid_clips video segments = [].
Proof.
  unfold valid_clips.
  induction 1 as [|segment rest Hs _ IH]; [easy|].
  cbn [List.filter]. now rewrite Hs.
Qed.

Lemma clip_of_capped video segment :
  (clip_duration (clip_of video segment) <= 60)%Q.
Proof.
  unfold clip_of.
  destruct (Qltb 60 _) eqn:E.
  - cbn. discriminate.
  - now apply Qltb_ge in E.
Qed.

Lemma clip_of_long video segment :
  (60 < end_ segment - start segment)%Q ->
  clip_of video segment = mkClip (0 + start segment + 0) (60 - 0).
Proof.
  intros H. unfold clip_of. cbn [subclip whole clip_duration clip_start].
  apply Qltb_lt in H. now rewrite H.
Qed.

Lemma clip_of_short video segment :
  (end_ segment - start segment <= 60)%Q ->
  clip_of video segment =
  mkClip (0 + start segment) (end_ segment - start segment).
Proof.
  intros H. unfold clip_of. cbn [subclip whole clip_duration clip_start].
  apply Qltb_ge in H. now rewrite H.
Qed.

Lemma end_before_start_invalid video segment :
  (end_ segment <= start segment)%Q -> valid video segment = false.
Proof.
  intros H. unfold valid, within_video.
  apply Qltb_ge in H. rewrite H. apply andb_false_r.
Qed.

(** C4. Every clip the renderer collects lasts at most 60 seconds: a valid
    segment longer than 60 seconds gives the clip that starts at the
    segment's start and lasts 60 seconds, a shorter one its own span. The
    cap is per clip: the reel that is written holds all the collected
    clips, and their total can exceed 60 seconds. *)
Theorem per_clip_duration_cap
    segments segment video_path username reel_index w d a :
  files w !! video_path = Some (VideoFile d a) ->
  valid (mkVideo d a) segment = true ->
  let video := mkVideo d a in
  let clips := valid_clips video segments in
  fst (Milestone3.collect_clips video segments [] w) = Returns clips /\
  Forall (fun clip => (clip_duration clip <= 60)%Q) clips /\
  (In segment segments -> In (clip_of video segment) clips) /\
  ((60 < end_ segment - start segment)%Q ->
   (clip_start (clip_of video segment) == start segment)%Q /\
   (clip_duration (clip_of video segment) == 60)%Q) /\
  ((end_ segment - start segment <= 60)%Q ->
   (clip_start (clip_of video segment) == start segment)%Q /\
   (clip_duration (clip_of video segment)
    == end_ segment - start segment)%Q) /\
  (clips <> [] -> ffmpeg_ok env (reel_path username reel_index) = true ->
   files (snd (Milestone3.create_reel env segments video_path username
                 reel_index w))
     !! reel_path username reel_index = Some (ReelFile clips)) /\
  (exists long, (60 < total_duration (valid_clips (mkVideo 200 true) long))%Q).
Proof.
  intros Hv Hseg video clips.
  split; [now rewrite collect_clips_run|].
  split.
  { unfold clips, valid_clips. apply Forall_map, Forall_forall.
    intros s _. apply clip_of_capped. }
  split.
  { intros Hin. unfold clips, valid_clips. apply in_map.
    apply List.filter_In. split; [exact Hin|exact Hseg]. }
  split.
  { intros Hlong. rewrite clip_of_long by exact Hlong.
    cbn [clip_start clip_duration]. split; ring. }
  split.
  { intros Hshort. rewrite clip_of_short by exact Hshort.
    cbn [clip_start clip_duration]. split; ring. }
  split.
  { intros Hne Hok. rewrite (create_reel_run env _ _ _ _ _ d a Hv).
    fold video clips. destruct clips as [|c cs]; [congruence|].
    rewrite Hok. cbn [snd files]. apply lookup_insert_eq. }
  exists [mkSegment 0 100 "a"; mkSegment 100 200 "b"]. reflexivity.
Qed.

(** C5. A segment that fails the test is skipped with a printed warning and
    the loop goes on with the segments after it; a segment whose end is not
    after its start fails the test. A group of one failing segment and two
    valid ones, in any position, gives a reel of exactly the two valid
    segments' clips, in their order. *)
Theorem invalid_segment_skipped
    before bad after video_path username reel_index w d a :
  files w !! video_path = Some (VideoFile d a) ->
  valid (mkVideo d a) bad = false ->
  let video := mkVideo d a in
  let warning := print_invalid_segment (start bad) (end_ bad) in
  (forall segment, (end_ segment <= start segment)%Q ->
                   valid video segment = false) /\
  Milestone3.collect_clips video (before ++ bad :: after) [] w =
    (Returns (valid_clips video before ++ valid_clips video after),
     mkWorld (files w)
       (trace w ++ warnings video before ++ warning :: warnings video after))
  /\
  (forall v1 v2,
     before ++ after = [v1; v2] ->
     valid video v1 = true -> valid video v2 = true ->
     ffmpeg_ok env (reel_path username reel_index) = true ->
     Milestone3.create_reel env (before ++ bad :: after) video_path username
       reel_index w =
     (Returns (Some (reel_path username reel_index)),
      mkWorld (<[reel_path username reel_index :=
                   ReelFile [clip_of video v1; clip_of video v2]]> (files w))
              (trace w ++ [warning]))).
Proof.
  intros Hv Hbad video warning.
  assert (Hc : valid_clips video (before ++ bad :: after) =
               valid_clips video before ++ valid_clips video after).
  { rewrite valid_clips_app. f_equal. unfold valid_clips.
    cbn [List.filter]. fold video in Hbad. now rewrite Hbad. }
  assert (Hw : warnings video (before ++ bad :: after) =
               warnings video before ++ warning :: warnings video after).
  { rewrite warnings_app. f_equal. unfold warnings.
    cbn [List.filter]. fold video in Hbad. now rewrite Hbad. }
  split; [intros s; apply end_before_start_invalid|].
  split; [now rewrite collect_clips_run, Hc, Hw|].
  intros v1 v2 Hsplit Hv1 Hv2 Hok.
  rewrite (create_reel_run env _ _ _ _ _ d a Hv). fold video.
  rewrite Hc, Hw, <- valid_clips_app, Hsplit.
  assert (Hall : Forall (fun s => valid video s = true) (before ++ after)).
  { rewrite Hsplit. repeat constructor; assumption. }
  destruct (valid_clips_all_valid video _ Hall) as [Hclips Hwarn].
  rewrite warnings_app in Hwarn. apply app_eq_nil in Hwarn as [-> ->].
  rewrite Hsplit in Hclips. rewrite Hclips. cbn [map app]. now rewrite Hok.
Qed.

Lemma make_reels_chain important_segments video_path username w :
  3 <= length important_segments ->
  let n := length important_segments / 3 in
  let render i := Milestone3.create_reel env
                    (slice important_segments (i * n) (i * n + n))
                    video_path username (i + 1) in
  exists r0 w0 r1 w1 r2 w2,
    render 0 w = (Returns r0, w0) /\
    render 1 w0 = (Returns r1, w1) /\
    render 2 w1 = (Returns r2, w2) /\
    make_reels (Milestone3.create_reel env) important_segments video_path
      username w = (Returns [r0; r1; r2], w2).
Proof.
  intros HL n render. unfold make_reels.
  destruct (Nat.leb_spec 3 (length important_segments)); [|lia].
  fold n. cbn [seq for_each]. fold (render 0) (render 1) (render 2).
  destruct (create_reel_returns env (slice important_segments (0 * n)
              (0 * n + n)) video_path username (0 + 1) w) as (r0 & w0 & E0).
  destruct (create_reel_returns env (slice important_segments (1 * n)
              (1 * n + n)) video_path username (1 + 1) w0) as (r1 & w1 & E1).
  destruct (create_reel_returns env (slice important_segments (2 * n)
              (2 * n + n)) video_path username (2 + 1) w1) as (r2 & w2 & E2).
  exists r0, w0, r1, w1, r2, w2. fold (render 0) in E0.
  fold (render 1) in E1. fold (render 2) in E2.
  repeat split; try assumption.
  rewrite !bind_run, E0. cbv beta iota.
  rewrite !bind_run, E1. cbv beta iota.
  rewrite !bind_run, E2. reflexivity.
Qed.

(** C6. A group in which every segment fails the test collects no clip:
    the render prints its warnings and the error, returns [None] and writes
    no file. The failure stays inside that render: step 6 runs the three
    renders one after the other, each in the world the previous one left,
    and returns the three results. *)
Theorem zero_valid_clips
    segments important_segments video_path username reel_index w d a :
  files w !! video_path = Some (VideoFile d a) ->
  Forall (fun segment => valid (mkVideo d a) segment = false) segments ->
  3 <= length important_segments ->
  let n := length important_segments / 3 in
  let group i := slice important_segments (i * n) (i * n + n) in
  let render i := Milestone3.create_reel env (group i) video_path username
                    (i + 1) in
  let fails i (before : World) (r : option string) (after : World) :=
    files before !! video_path = Some (VideoFile d a) ->
    Forall (fun segment => valid (mkVideo d a) segment = false) (group i) ->
    r = None /\ files after = files before in
  Milestone3.create_reel env segments video_path username reel_index w =
    (Returns None,
     mkWorld (files w)
       (trace w ++ warnings (mkVideo d a) segments
        ++ [print_reel_error no_clips])) /\
  exists r0 w0 r1 w1 r2 w2,
    render 0 w = (Returns r0, w0) /\ fails 0 w r0 w0 /\
    render 1 w0 = (Returns r1, w1) /\ fails 1 w0 r1 w1 /\
    render 2 w1 = (Returns r2, w2) /\ fails 2 w1 r2 w2 /\
    make_reels (Milestone3.create_reel env) important_segments video_path
      username w = (Returns [r0; r1; r2], w2).
Proof.
  intros Hv Hall HL n group render fails.
  assert (Hfail : forall segs i wa r wb,
            Milestone3.create_reel env segs video_path username i wa
            = (Returns r, wb) ->
            files wa !! video_path = Some (VideoFile d a) ->
            Forall (fun s => valid (mkVideo d a) s = false) segs ->
            r = None /\ files wb = files wa).
  { intros segs i wa r wb E Hva Hinv.
    rewrite (create_reel_run env _ _ _ _ _ d a Hva) in E.
    rewrite (valid_clips_none_valid _ _ Hinv) in E.
    injection E as <- <-. easy. }
  split.
  - rewrite (create_reel_run env _ _ _ _ _ d a Hv).
    rewrite (valid_clips_none_valid _ _ Hall). now rewrite <- app_assoc.
  - destruct (make_reels_chain important_segments video_path username w HL)
      as (r0 & w0 & r1 & w1 & r2 & w2 & E0 & E1 & E2 & E).
    exists r0, w0, r1, w1, r2, w2. unfold fails, render, group.
    repeat split; try assumption;
      first [ eapply (Hfail _ _ _ _ _ E0); eassumption
            | eapply (Hfail _ _ _ _ _ E1); eassumption
            | eapply (Hfail _ _ _ _ _ E2); eassumption ].
Qed.

End RendererProperties.

(** ** Strings *)

Lemma string_app_cons c (s1 s2 : string) :
  String c s1 +:+ s2 = String c (s1 +:+ s2).
Proof. reflexivity. Qed.

Lemma string_app_nil_l (s : string) : "" +:+ s = s.
Proof. reflexivity. Qed.

Lemma string_app_nil_r (s : string) : s +:+ "" = s.
Proof.
  induction s as [|c s IH]; [reflexivity|].
  now rewrite string_app_cons, IH.
Qed.

Lemma string_app_assoc (s1 s2 s3 : string) :
  (s1 +:+ s2) +:+ s3 = s1 +:+ (s2 +:+ s3).
Proof.
  induction s1 as [|c s1 IH]; [reflexivity|].
  now rewrite !string_app_cons, IH.
Qed.

Lemma string_length_app (s1 s2 : string) :
  String.length (s1 +:+ s2) = String.length s1 + String.length s2.
Proof.
  induction s1 as [|c s1 IH]; [reflexivity|].
  rewrite string_app_cons. cbn [String.length]. now rewrite IH.
Qed.

Lemma count_newlines_app (s1 s2 : string) :
  count_newlines (s1 +:+ s2) = count_newlines s1 + count_newlines s2.
Proof.
  induction s1 as [|c s1 IH]; [reflexivity|].
  rewrite string_app_cons. cbn [count_newlines]. rewrite IH. lia.
Qed.

(** ** The stages, run *)

Section StagesRun.

Variable env : Env.

Lemma extract_audio_run video_path output_audio_path w :
  extract_audio_from_video env video_path output_audio_path w =
  let failed e :=
    (Returns false,
     mkWorld (files w)
       (trace w ++ [st_error "Error extracting audio" (Some e)])) in
  match files w !! video_path with
  | Some (VideoFile d true) =>
      if ffmpeg_ok env output_audio_path
      then (Returns true,
            mkWorld (<[output_audio_path := AudioFile]> (files w)) (trace w))
      else failed (OSError "ffmpeg: write failed")
  | Some (VideoFile d false) =>
      failed (AttributeError
                "'NoneType' object has no attribute 'write_audiofile'")
  | _ => failed (OSError "MoviePy error: the file could not be found")
  end.
Proof.
  unfold extract_audio_from_video, try_except, VideoFileClip.
  rewrite !bind_run. unfold read_file.
  destruct (files w !! video_path) as [[d [|]| |c|cs]|]; try reflexivity.
  unfold ffmpeg_write. cbn [audio ret raise M_ret mret].
  destruct (ffmpeg_ok env output_audio_path); reflexivity.
Qed.

Lemma extract_audio_inv video_path output_audio_path w r w' :
  extract_audio_from_video env video_path output_audio_path w = (r, w') ->
  (r = Returns true /\
   files w' = <[output_audio_path := AudioFile]> (files w) /\
   trace w' = trace w /\
   exists d, files w !! video_path = Some (VideoFile d true)) \/
  (r = Returns false /\ files w' = files w).
Proof.
  rewrite extract_audio_run. cbv zeta.
  destruct (files w !! video_path) as [[d [|]| |c|cs]|];
    try (intros [= <- <-]; right; easy).
  destruct (ffmpeg_ok env output_audio_path); intros [= <- <-].
  - left. eauto.
  - right. easy.
Qed.

Lemma transcribe_run audio language w :
  transcribe_audio_whisper env audio language w =
  match whisper_transcribe env audio
          (default "en"%string (language_codes !! language)) with
  | Some segments => (Returns (Some segments), w)
  | None =>
      (Returns None,
       mkWorld (files w)
         (trace w ++ [st_error "Error during transcription"
                        (Some (RuntimeError "transcribe"))]))
  end.
Proof.
  unfold transcribe_audio_whisper, try_except.
  destruct (whisper_transcribe env audio _); reflexivity.
Qed.

Lemma download_run url username w :
  download_video_from_youtube env url username w =
  match ydl_download env url ("uploads/videos/" ++ username)%string with
  | Some (path, f) =>
      (Returns (Some path), mkWorld (<[path := f]> (files w)) (trace w))
  | None =>
      (Returns None,
       mkWorld (files w)
         (trace w ++ [st_error "Error downloading video"
                        (Some (RuntimeError "yt-dlp"))]))
  end.
Proof.
  unfold download_video_from_youtube, try_except.
  destruct (ydl_download env url _) as [[path f]|]; reflexivity.
Qed.

Lemma for_each_emit {A} (xs : list A) (f : A -> Event) w :
  for_each xs (fun x => emit (f x)) w =
  (Returns (map (fun _ => tt) xs),
   mkWorld (files w) (trace w ++ map f xs)).
Proof.
  revert w. induction xs as [|x xs IH]; intros w.
  - cbn. now rewrite app_nil_r, world_eta.
  - cbn [for_each map]. rewrite bind_run, emit_run, bind_run, IH.
    cbn [files trace]. now rewrite <- app_assoc.
Qed.

Lemma simulate_progress_run w :
  Milestone3.simulate_progress w =
  (Returns (map (fun _ => tt) (seq 0 10)),
   mkWorld (files w) (trace w ++ simulated)).
Proof. unfold Milestone3.simulate_progress. now rewrite for_each_emit. Qed.

Lemma transcript_content_concat transcript :
  transcript_content transcript =
  String.concat "" (map transcript_line transcript).
Proof.
  unfold transcript_content.
  enough (H : forall written,
             foldl (fun written segment =>
                      written +:+ transcript_line segment)
                   written transcript =
             written +:+ String.concat "" (map transcript_line transcript))
    by apply (H ""%string).
  induction transcript as [|segment rest IH]; intros written.
  - cbn. now rewrite string_app_nil_r.
  - cbn [foldl map]. rewrite IH, string_app_assoc. f_equal.
    destruct rest as [|next rest']; [cbn; now rewrite string_app_nil_r|].
    reflexivity.
Qed.

Lemma save_transcript_run transcript filename username w :
  save_transcript env transcript filename username w =
  let path := transcript_path_of username filename in
  if open_ok env path
  then (Returns (Some path),
        mkWorld (<[path := TextFile (transcript_content transcript)]>
                   (files w)) (trace w))
  else (Returns None,
        mkWorld (files w)
          (trace w ++ [st_error "Error saving transcript"
                         (Some (OSError "open"))])).
Proof.
  unfold save_transcript, try_except. fold (transcript_path_of username filename).
  cbv zeta. rewrite !bind_run.
  destruct (open_ok env _); reflexivity.
Qed.

End StagesRun.

(** ** The run of milestone 3 *)

Section PipelineRun.

Variable env : Env.

Lemma create_motivational_reel_files segments w r w' :
  create_motivational_reel env segments w = (r, w') -> files w' = files w.
Proof.
  unfold create_motivational_reel.
  destruct (chat_completion env _) as [status_code content|e];
    [|intros [= <- <-]; reflexivity].
  destruct (status_code =? 200); [intros [= <- <-]; reflexivity|].
  rewrite bind_run, emit_run. intros [= <- <-]. reflexivity.
Qed.

(** A render returns [None] and leaves the disk alone, or returns its reel
    path and writes that file. *)
Lemma create_reel_outcome segments video_path username reel_index w r w' :
  Milestone3.create_reel env segments video_path username reel_index w
  = (r, w') ->
  (r = Returns None /\ files w' = files w) \/
  (r = Returns (Some (reel_path username reel_index)) /\
   exists clips,
     files w' = <[reel_path username reel_index := ReelFile clips]> (files w)).
Proof.
  destruct (files w !! video_path) as [[d a| |c|cs]|] eqn:E.
  - rewrite (create_reel_run env _ _ _ _ _ d a E).
    destruct (valid_clips _ _) as [|c cs]; [intros [= <- <-]; now left|].
    destruct (ffmpeg_ok _ _); intros [= <- <-]; [right; eauto|now left].
  - rewrite create_reel_no_video by (intros; congruence).
    intros [= <- <-]; now left.
  - rewrite create_reel_no_video by (intros; congruence).
    intros [= <- <-]; now left.
  - rewrite create_reel_no_video by (intros; congruence).
    intros [= <- <-]; now left.
  - rewrite create_reel_no_video by (intros; congruence).
    intros [= <- <-]; now left.
Qed.

Lemma create_reel_keeps segments video_path username reel_index w r w' p :
  Milestone3.create_reel env segments video_path username reel_index w
  = (r, w') ->
  is_Some (files w !! p) -> is_Some (files w' !! p).
Proof.
  intros E Hp.
  apply create_reel_outcome in E as [[_ ->]|[_ [clips ->]]]; [exact Hp|].
  rewrite lookup_insert. case_decide; [eauto|exact Hp].
Qed.

Lemma make_reels_keeps important_segments video_path username w r w' p :
  make_reels (Milestone3.create_reel env) important_segments video_path
    username w = (r, w') ->
  is_Some (files w !! p) -> is_Some (files w' !! p).
Proof.
  intros E Hp.
  destruct (Nat.leb_spec 3 (length important_segments)) as [HL|HL].
  - destruct (make_reels_chain env important_segments video_path username w
                HL) as (r0 & w0 & r1 & w1 & r2 & w2 & E0 & E1 & E2 & E').
    rewrite E' in E. injection E as <- <-.
    eapply create_reel_keeps; [exact E2|].
    eapply create_reel_keeps; [exact E1|].
    eapply create_reel_keeps; [exact E0|exact Hp].
  - unfold make_reels in E.
    destruct (Nat.leb_spec 3 (length important_segments)); [lia|].
    injection E as <- <-. exact Hp.
Qed.

Lemma save_transcript_keeps transcript filename username w r w' p :
  save_transcript env transcript filename username w = (r, w') ->
  is_Some (files w !! p) -> is_Some (files w' !! p).
Proof.
  rewrite save_transcript_run. cbv zeta.
  destruct (open_ok env _); intros [= <- <-] Hp; cbn [files]; [|exact Hp].
  rewrite lookup_insert. case_decide; [eauto|exact Hp].
Qed.

Lemma acquire_run video_file youtube_url username w :
  (if truthy youtube_url then
     emit (st_text "Downloading video from YouTube...");;
     download_video_from_youtube env (default ""%string youtube_url) username
   else
     match video_file with
     | Some uploaded =>
         write_file (tempfile_name env) (getbuffer uploaded);;
         mret (Some (tempfile_name env))
     | None => mret None
     end) w =
  let shown := if truthy youtube_url
               then [st_text "Downloading video from YouTube..."] else [] in
  match acquired env video_file youtube_url username with
  | Some (path, f) =>
      (Returns (Some path),
       mkWorld (<[path := f]> (files w)) (trace w ++ shown))
  | None =>
      (Returns None,
       mkWorld (files w)
         (trace w ++ shown ++
          if truthy youtube_url
          then [st_error "Error downloading video"
                  (Some (RuntimeError "yt-dlp"))]
          else []))
  end.
Proof.
  unfold acquired. destruct (truthy youtube_url).
  - rewrite bind_run, emit_run, download_run. cbv beta iota zeta.
    destruct (ydl_download env _ _) as [[path f]|]; cbn [files trace];
      [reflexivity|]. now rewrite <- app_assoc.
  - destruct video_file as [uploaded|]; cbv zeta.
    + rewrite bind_run. unfold write_file. cbn. now rewrite app_nil_r.
    + cbn. now rewrite app_nil_r, world_eta.
Qed.

Lemma process_video_upload_inv video_file youtube_url username language
    w res w' :
  Milestone3.process_video_upload env video_file youtube_url username
    language w = (res, w') ->
  match res with
  | Returns (Return3 m t reels) => m = None /\ t = None /\ reels = []
  | Returns (Return4 m t reels important_segments) =>
      exists video_path segments w1 w2 w3,
        video_path_of env video_file youtube_url username = Some video_path /\
        whisper_transcribe env (audio_path username video_path)
          (language_code language) = Some segments /\
        important_segments = analyze_sentiment env segments /\
        is_Some (files w1 !! audio_path username video_path) /\
        make_reels (Milestone3.create_reel env) important_segments video_path
          username w1 = (Returns reels, w2) /\
        save_transcript env important_segments (basename video_path) username
          (mkWorld (files w2) (trace w2 ++ [st_text "Saving transcript..."]))
        = (Returns t, w3) /\
        is_Some (files w3 !! video_path) /\
        files w' = delete video_path (files w3)
  | Raises e => True
  end.
Proof.
  unfold Milestone3.process_video_upload, video_path_of, language_code.
  run_emit.
  rewrite bind_run, acquire_run. cbv zeta.
  destruct (acquired env video_file youtube_url username)
    as [[video_path f]|] eqn:Hacq; cbv beta iota;
    [|intros [= <- <-]; easy].
  destruct (truthy (Some video_path)) eqn:Ht; cbn [negb];
    [|intros [= <- <-]; easy].
  change (default ""%string (Some video_path)) with video_path.
  fold (audio_path username video_path).
  rewrite bind_run, emit_run. cbv beta iota. rewrite bind_run.
  match goal with |- context [extract_audio_from_video ?e ?v ?a ?w] =>
    destruct (extract_audio_from_video e v a w) as [r2 w2] eqn:Eex end.
  apply extract_audio_inv in Eex as [(-> & Hf2 & Ht2 & d & Hd)|(-> & Hf2)];
    cbn [negb]; [|intros [= <- <-]; easy].
  run_emit. run_emit.
  rewrite bind_run, simulate_progress_run. cbv beta iota.
  rewrite bind_run, transcribe_run.
  destruct (whisper_transcribe env _ _) as [[|segment segments]|] eqn:Hwh;
    cbv beta iota; try (intros [= <- <-]; easy).
  run_emit. run_emit.
  run_emit.
  rewrite bind_run.
  match goal with |- context [create_motivational_reel ?e ?s ?w] =>
    destruct (create_motivational_reel e s w) as [[m|e0] w3] eqn:Em end;
    [|intros [= <- <-]; exact I].
  apply create_motivational_reel_files in Em. cbn [files] in Em.
  run_emit.
  rewrite bind_run.
  match goal with |- context [make_reels ?c ?s ?v ?u ?w] =>
    destruct (make_reels c s v u w) as [[reels|e0] w4] eqn:Er end;
    [|intros [= <- <-]; exact I].
  run_emit.
  rewrite bind_run.
  match goal with |- context [save_transcript ?e ?s ?f ?u ?w] =>
    destruct (save_transcript e s f u w) as [[t|e0] w5] eqn:Es end;
    [|intros [= <- <-]; exact I].
  run_emit.
  rewrite bind_run. unfold os_unlink at 1. cbn [files trace].
  destruct (files w5 !! video_path) as [f5|] eqn:Hf5;
    [|intros [= <- <-]; exact I].
  intros [= <- <-].
  eexists video_path, (segment :: segments), _, w4, w5.
  split; [reflexivity|]. split; [exact Hwh|]. split; [reflexivity|].
  split; [|split; [exact Er|]].
  2:{ split; [exact Es|]. split; [eauto|reflexivity]. }
  cbn [files]. rewrite Em, Hf2. rewrite lookup_insert_eq. eauto.
Qed.

End PipelineRun.

(** ** Paths *)

Lemma slash_free_app (s1 s2 : string) :
  slash_free (s1 +:+ s2) = slash_free s1 && slash_free s2.
Proof.
  induction s1 as [|c s1 IH]; [reflexivity|].
  rewrite string_app_cons. cbn [slash_free].
  now rewrite IH, andb_assoc.
Qed.

Lemma basename_from_slash_free (acc path : string) :
  slash_free acc = true -> slash_free (basename_from acc path) = true.
Proof.
  revert acc. induction path as [|c rest IH]; intros acc Hacc; [exact Hacc|].
  cbn [basename_from]. destruct (Ascii.eqb c "/") eqn:Ec.
  - now apply IH.
  - apply IH. rewrite slash_free_app, Hacc. cbn [slash_free].
    now rewrite Ec.
Qed.

Lemma basename_from_plain (acc s : string) :
  slash_free s = true -> basename_from acc s = acc +:+ s.
Proof.
  revert acc. induction s as [|c rest IH]; intros acc Hs.
  - now rewrite string_app_nil_r.
  - cbn [slash_free] in Hs. apply andb_true_iff in Hs as [Hc Hrest].
    cbn [basename_from]. apply negb_true_iff in Hc. rewrite Hc.
    rewrite (IH _ Hrest), string_app_assoc. reflexivity.
Qed.

Lemma basename_from_app (acc x s : string) :
  slash_free s = true ->
  basename_from acc (x +:+ s) = basename_from acc x +:+ s.
Proof.
  intros Hs. revert acc. induction x as [|c rest IH]; intros acc.
  - now apply basename_from_plain.
  - rewrite string_app_cons. cbn [basename_from].
    destruct (Ascii.eqb c "/"); apply IH.
Qed.

(** The audio file is never the video file. *)
Lemma audio_path_neq (username video_path : string) :
  audio_path username video_path <> video_path.
Proof.
  intros E. apply (f_equal basename) in E.
  set (b := basename video_path) in *.
  assert (Hb : slash_free b = true)
    by (now apply basename_from_slash_free).
  unfold audio_path in E. fold b in E.
  change ("uploads/audio/" +:+ username +:+ "_" +:+ b +:+ ".wav")
    with ("uploads/audio/" +:+ (username +:+ ("_" +:+ (b +:+ ".wav")))) in E.
  rewrite <- !string_app_assoc in E.
  rewrite (string_app_assoc _ b), (string_app_assoc _ "_") in E.
  unfold basename in E at 1. rewrite basename_from_app in E.
  - apply (f_equal String.length) in E.
    rewrite !string_length_app in E. cbn [String.length] in E. lia.
  - rewrite !slash_free_app, Hb. reflexivity.
Qed.

(** ** Cleanup *)

(** C2, as the code has it. A run of milestone 3 that reaches the end of
    [process_video_upload] (it returns the 4-tuple) has unlinked the video
    it worked on, and has left the extracted audio file on disk. *)
Theorem cleanup_at_end_of_run
    env video_file youtube_url username language w
    motivational_contents transcript_path reels_paths important_segments w' :
  Milestone3.process_video_upload env video_file youtube_url username
    language w =
  (Returns (Return4 motivational_contents transcript_path reels_paths
              important_segments), w') ->
  exists video_path,
    video_path_of env video_file youtube_url username = Some video_path /\
    files w' !! video_path = None /\
    is_Some (files w' !! audio_path username video_path).
Proof.
  intros E. apply process_video_upload_inv in E.
  destruct E as (video_path & segments & w1 & w2 & w3 & Hvp & _ & _ & Ha
                 & Er & Es & _ & Hw').
  exists video_path. split; [exact Hvp|]. rewrite Hw'. split.
  - apply lookup_delete_eq.
  - rewrite lookup_delete_ne by (apply not_eq_sym, audio_path_neq).
    eapply save_transcript_keeps; [exact Es|]. cbn [files].
    eapply make_reels_keeps; [exact Er|exact Ha].
Qed.

(** A completed run of the sample upload: the video is gone and the audio
    file is still there, so the two files are not both removed. *)
Lemma cleanup_leaves_audio :
  let run := Milestone3.process_video_upload sample_env (Some sample_upload)
               None "@bob" "English" empty_world in
  let video := "/tmp/tmpabc.mp4"%string in
  let audio := "uploads/audio/@bob_tmpabc.mp4.wav"%string in
  fst run =
    Returns (Return4 (Some "summary"%string)
               (Some "uploads/transcripts/@bob_tmpabc.mp4.txt"%string)
               [Some "uploads/reels/@bob_reel_1.mp4"%string;
                Some "uploads/reels/@bob_reel_2.mp4"%string; None]
               (analyze_sentiment sample_env sample_segments)) /\
  files (snd run) !! audio = Some AudioFile /\
  ~ (files (snd run) !! video = None /\ files (snd run) !! audio = None).
Proof.
  cbv zeta. split; [vm_compute; reflexivity|].
  assert (H : files (snd (Milestone3.process_video_upload sample_env
                            (Some sample_upload) None "@bob" "English"
                            empty_world))
              !! "uploads/audio/@bob_tmpabc.mp4.wav"%string = Some AudioFile)
    by (vm_compute; reflexivity).
  split; [exact H|]. intros [_ Hnone]. congruence.
Qed.

(** A run that stops at an early return: the upload has no audio track, the
    extraction fails, and the temporary video is still on disk. *)
Lemma early_return_keeps_video :
  let run := Milestone3.process_video_upload sample_env (Some silent_upload)
               None "@bob" "English" empty_world in
  fst run = Returns (Return3 None None []) /\
  files (snd run) !! "/tmp/tmpabc.mp4"%string = Some (VideoFile 100 false).
Proof. cbv zeta. split; vm_compute; reflexivity. Qed.

(** ** Transcription short-circuit *)

(** C9. When the video is acquired and its audio extracted, and Whisper
    either fails or returns no segment, the run returns [None, None, []]
    right after the transcription step: the trace ends with the simulated
    progress (followed, on failure only, by the transcription error), no
    sentiment analysis is announced, and the disk holds the video and the
    audio file and nothing new besides. A failed transcription returns
    [None] and shows an error; an empty one is returned as it is, with no
    error. *)
Theorem transcription_short_circuit
    env video_file youtube_url username language w video_path d :
  acquired env video_file youtube_url username
    = Some (video_path, VideoFile d true) ->
  truthy (Some video_path) = true ->
  ffmpeg_ok env (audio_path username video_path) = true ->
  let audio := audio_path username video_path in
  let outcome := whisper_transcribe env audio (language_code language) in
  let error := st_error "Error during transcription"
                 (Some (RuntimeError "transcribe")) in
  outcome = None \/ outcome = Some [] ->
  (forall w0, transcribe_audio_whisper env audio language w0 =
     match outcome with
     | None => (Returns None, mkWorld (files w0) (trace w0 ++ [error]))
     | Some segments => (Returns (Some segments), w0)
     end) /\
  Milestone3.process_video_upload env video_file youtube_url username
    language w =
  (Returns (Return3 None None []),
   mkWorld (<[audio := AudioFile]>
              (<[video_path := VideoFile d true]> (files w)))
     (trace w ++ [progress 0]
      ++ (if truthy youtube_url
          then [st_text "Downloading video from YouTube..."] else [])
      ++ [st_text "Extracting audio..."; progress 20;
          st_text "Transcribing audio..."]
      ++ simulated
      ++ match outcome with None => [error] | Some _ => [] end)).
Proof.
  intros Hacq Ht Hok audio outcome error Hout.
  split; [intros w0; apply transcribe_run|].
  unfold Milestone3.process_video_upload.
  run_emit.
  rewrite bind_run, acquire_run, Hacq. cbv beta iota zeta. rewrite Ht.
  cbn [negb].
  change (default ""%string (Some video_path)) with video_path.
  fold (audio_path username video_path). fold audio.
  run_emit.
  rewrite bind_run, extract_audio_run. cbn [files trace].
  rewrite lookup_insert_eq. fold audio in Hok. rewrite Hok.
  cbv beta iota zeta. cbn [negb].
  run_emit. run_emit.
  rewrite bind_run, simulate_progress_run. cbv beta iota.
  rewrite bind_run, transcribe_run. fold (language_code language).
  fold outcome. cbn [files trace].
  destruct Hout as [-> | ->]; cbv beta iota;
    unfold mret, M_ret, ret; do 2 f_equal;
    rewrite <- ?app_assoc; cbn [app]; rewrite ?app_nil_r; reflexivity.
Qed.

(** ** Transcript writer *)

Lemma str_nat_no_newline (n : nat) : count_newlines (str_nat n) = 0.
Proof.
  unfold str_nat. generalize (Nat.to_uint n). intros u.
  induction u; cbn [NilEmpty.string_of_uint count_newlines Ascii.eqb];
    try reflexivity; cbn; exact IHu.
Qed.

Lemma format_2f_no_newline (x : Q) : count_newlines (format_2f x) = 0.
Proof.
  unfold format_2f, two_digits.
  rewrite !count_newlines_app, !str_nat_no_newline.
  destruct (Qltb x 0); reflexivity.
Qed.

Lemma transcript_line_one_newline segment :
  count_newlines (text segment) = 0 ->
  count_newlines (transcript_line segment) = 1.
Proof.
  intros Ht. unfold transcript_line.
  rewrite !count_newlines_app, !format_2f_no_newline, Ht. reflexivity.
Qed.

Lemma transcript_content_lines transcript :
  Forall (fun segment => count_newlines (text segment) = 0) transcript ->
  count_newlines (transcript_content transcript) = length transcript.
Proof.
  rewrite transcript_content_concat.
  induction 1 as [|segment rest Hs Hrest IH]; [reflexivity|].
  cbn [map length].
  replace (String.concat "" (transcript_line segment
                              :: map transcript_line rest))
    with (transcript_line segment
          +:+ String.concat "" (map transcript_line rest)).
  - rewrite count_newlines_app, IH, transcript_line_one_newline by exact Hs.
    reflexivity.
  - destruct rest; [cbn; now rewrite string_app_nil_r|reflexivity].
Qed.

(** The rounding of ["%.2f"] is to a nearest hundredth. *)
Lemma round_half_even_nearest (x : Q) :
  (Z.abs (2 * (Qnum x - round_half_even x * Z.pos (Qden x)))
   <= Z.pos (Qden x))%Z.
Proof.
  unfold round_half_even.
  pose proof (Z.div_mod (Qnum x) (Z.pos (Qden x)) ltac:(lia)) as Hdm.
  pose proof (Z.mod_pos_bound (Qnum x) (Z.pos (Qden x)) ltac:(lia)) as Hb.
  set (n := Qnum x) in *. set (dd := Z.pos (Qden x)) in *.
  set (fl := (n / dd)%Z) in *. set (r := (n mod dd)%Z) in *.
  destruct (Z.compare_spec (2 * r) dd) as [He|Hl|Hg];
    [destruct (Z.even fl)| |]; nia.
Qed.

(** C7. When the file can be written, [save_transcript] returns its path and
    leaves at that path, whatever was there, the text made of one write per
    segment, in order: the bracketed start and end with two decimals, each
    followed by [s], then the text and a line feed. Other files are
    untouched. An empty list gives an empty file, and when no text holds a
    line feed the file has one line per segment. *)
Theorem save_transcript_spec env transcript filename username w :
  open_ok env (transcript_path_of username filename) = true ->
  let path := transcript_path_of username filename in
  let line segment :=
    "[" +:+ format_2f (start segment) +:+ "s - " +:+
    format_2f (end_ segment) +:+ "s]: " +:+ text segment +:+ newline in
  let content := String.concat "" (map line transcript) in
  let w' := snd (save_transcript env transcript filename username w) in
  fst (save_transcript env transcript filename username w)
    = Returns (Some path) /\
  files w' = <[path := TextFile content]> (files w) /\
  files w' !! path = Some (TextFile content) /\
  (forall other, other <> path -> files w' !! other = files w !! other) /\
  trace w' = trace w /\
  (transcript = [] -> content = ""%string) /\
  (Forall (fun segment => count_newlines (text segment) = 0) transcript ->
   count_newlines content = length transcript) /\
  line (mkSegment 0 2.5 " hi")
    = ("[0.00s - 2.50s]:  hi" +:+ newline)%string.
Proof.
  intros Hok path line content w'.
  assert (Hc : transcript_content transcript = content)
    by apply transcript_content_concat.
  assert (Hrun : save_transcript env transcript filename username w =
                 (Returns (Some path),
                  mkWorld (<[path := TextFile content]> (files w)) (trace w))).
  { rewrite save_transcript_run. cbv zeta. rewrite Hok, Hc.
    reflexivity. }
  unfold w'. rewrite Hrun. cbn [fst snd files trace].
  split; [reflexivity|]. split; [reflexivity|].
  split; [apply lookup_insert_eq|].
  split; [intros other Hne; now apply lookup_insert_ne|].
  split; [reflexivity|].
  split; [intros ->; reflexivity|].
  split; [|vm_compute; reflexivity].
  intros Hall. rewrite <- Hc. now apply transcript_content_lines.
Qed.

(** ** Milestone 2 renders untrimmed clips *)

(** The renderer of milestone 2 has no trimming step: on the sample video
    the 68-second segment is rendered whole. *)
Lemma milestone2_clip_not_trimmed :
  fst (Milestone2.collect_clips (mkVideo 100 true) [mkSegment 2 70 "good"]
         [] video_world)
  = Returns [mkClip 2 68].
Proof. vm_compute. reflexivity. Qed.

(** ** The properties on the sample run *)

Lemma analyze_sentiment_spec_witness :
  (0.05 < polarity_compound sample_env "good")%Q /\
  (polarity_compound sample_env "bad" <= 0.05)%Q /\
  analyze_sentiment sample_env
    ([mkSegment 0 2 "good"] ++ mkSegment 2 70 "good" :: [mkSegment 70 71 "bad"])
  = analyze_sentiment sample_env [mkSegment 0 2 "good"]
    ++ mkSegment 2 70 "good"
       :: analyze_sentiment sample_env [mkSegment 70 71 "bad"] /\
  analyze_sentiment sample_env
    ([mkSegment 0 2 "good"] ++ mkSegment 70 71 "bad" :: [])
  = analyze_sentiment sample_env [mkSegment 0 2 "good"]
    ++ analyze_sentiment sample_env [].
Proof.
  assert (Hgood : (0.05 < polarity_compound sample_env "good")%Q)
    by reflexivity.
  assert (Hbad : (polarity_compound sample_env "bad" <= 0.05)%Q)
    by (vm_compute; discriminate).
  split; [exact Hgood|]. split; [exact Hbad|]. split.
  - exact (proj1 (proj2 (analyze_sentiment_spec sample_env
             [mkSegment 0 2 "good"] (mkSegment 2 70 "good")
             [mkSegment 70 71 "bad"])) Hgood).
  - exact (proj1 (proj2 (proj2 (analyze_sentiment_spec sample_env
             [mkSegment 0 2 "good"] (mkSegment 70 71 "bad") [])))
             Hbad).
Defined.

Lemma analyze_sentiment_idempotent_witness :
  Forall (fun segment =>
            (0.05 < polarity_compound sample_env (text segment))%Q)
         [mkSegment 0 2 "good"; mkSegment 90 95 "good"] /\
  analyze_sentiment sample_env [mkSegment 0 2 "good"; mkSegment 90 95 "good"]
  = [mkSegment 0 2 "good"; mkSegment 90 95 "good"].
Proof.
  assert (H : Forall (fun segment =>
                (0.05 < polarity_compound sample_env (text segment))%Q)
              [mkSegment 0 2 "good"; mkSegment 90 95 "good"])
    by (repeat constructor).
  split; [exact H|].
  exact (proj1 (analyze_sentiment_idempotent sample_env _) H).
Defined.

Lemma grouping_policy_witness :
  3 <= length (analyze_sentiment sample_env sample_segments) /\
  length (segment_groups (analyze_sentiment sample_env sample_segments)) = 3 /\
  length (drop (3 * (length (analyze_sentiment sample_env sample_segments) / 3))
            (analyze_sentiment sample_env sample_segments)) = 1.
Proof.
  assert (H : 3 <= length (analyze_sentiment sample_env sample_segments))
    by (vm_compute; lia).
  pose proof (proj2 (proj2 (grouping_policy (Milestone3.create_reel sample_env)
                (analyze_sentiment sample_env sample_segments)
                "/tmp/tmpabc.mp4" "@bob")) H) as (H3 & _ & _ & _ & Htail).
  split; [exact H|]. split; [exact H3|]. exact Htail.
Defined.

Lemma cleanup_at_end_of_run_witness :
  sample_run =
    (Returns (Return4 (Some "summary"%string)
                (Some "uploads/transcripts/@bob_tmpabc.mp4.txt"%string)
                [Some "uploads/reels/@bob_reel_1.mp4"%string;
                 Some "uploads/reels/@bob_reel_2.mp4"%string; None]
                (analyze_sentiment sample_env sample_segments)),
     snd sample_run) /\
  exists video_path,
    video_path_of sample_env (Some sample_upload) None "@bob"
      = Some video_path /\
    files (snd sample_run) !! video_path = None /\
    is_Some (files (snd sample_run) !! audio_path "@bob" video_path).
Proof.
  assert (H : sample_run =
    (Returns (Return4 (Some "summary"%string)
                (Some "uploads/transcripts/@bob_tmpabc.mp4.txt"%string)
                [Some "uploads/reels/@bob_reel_1.mp4"%string;
                 Some "uploads/reels/@bob_reel_2.mp4"%string; None]
                (analyze_sentiment sample_env sample_segments)),
     snd sample_run)) by (vm_compute; reflexivity).
  split; [exact H|].
  exact (cleanup_at_end_of_run sample_env (Some sample_upload) None "@bob"
           "English" empty_world _ _ _ _ _ H).
Defined.

Lemma per_clip_duration_cap_witness :
  files video_world !! "/tmp/tmpabc.mp4"%string = Some (VideoFile 100 true) /\
  valid (mkVideo 100 true) (mkSegment 2 70 "good") = true /\
  (60 < end_ (mkSegment 2 70 "good") - start (mkSegment 2 70 "good"))%Q /\
  Forall (fun clip => (clip_duration clip <= 60)%Q)
         (valid_clips (mkVideo 100 true) sample_segments) /\
  (clip_duration (clip_of (mkVideo 100 true) (mkSegment 2 70 "good"))
   == 60)%Q.
Proof.
  assert (Hv : files video_world !! "/tmp/tmpabc.mp4"%string
               = Some (VideoFile 100 true)) by (vm_compute; reflexivity).
  assert (Hs : valid (mkVideo 100 true) (mkSegment 2 70 "good") = true)
    by reflexivity.
  assert (Hl : (60 < end_ (mkSegment 2 70 "good")
                     - start (mkSegment 2 70 "good"))%Q) by reflexivity.
  pose proof (per_clip_duration_cap sample_env sample_segments
                (mkSegment 2 70 "good") "/tmp/tmpabc.mp4" "@bob" 1
                video_world 100 true Hv Hs) as (_ & Hcap & _ & Hlong & _).
  split; [exact Hv|]. split; [exact Hs|]. split; [exact Hl|].
  split; [exact Hcap|]. exact (proj2 (Hlong Hl)).
Defined.

Lemma invalid_segment_skipped_witness :
  files video_world !! "/tmp/tmpabc.mp4"%string = Some (VideoFile 100 true) /\
  valid (mkVideo 100 true) (mkSegment 80 75 "good") = false /\
  Milestone3.create_reel sample_env
    ([mkSegment 0 2 "good"] ++ mkSegment 80 75 "good"
       :: [mkSegment 90 95 "good"])
    "/tmp/tmpabc.mp4" "@bob" 1 video_world =
  (Returns (Some (reel_path "@bob" 1)),
   mkWorld (<[reel_path "@bob" 1 :=
                ReelFile [clip_of (mkVideo 100 true) (mkSegment 0 2 "good");
                          clip_of (mkVideo 100 true)
                            (mkSegment 90 95 "good")]]>
              (files video_world))
           (trace video_world ++ [print_invalid_segment 80 75])).
Proof.
  assert (Hv : files video_world !! "/tmp/tmpabc.mp4"%string
               = Some (VideoFile 100 true)) by (vm_compute; reflexivity).
  assert (Hb : valid (mkVideo 100 true) (mkSegment 80 75 "good") = false)
    by reflexivity.
  split; [exact Hv|]. split; [exact Hb|].
  exact (proj2 (proj2 (invalid_segment_skipped sample_env
           [mkSegment 0 2 "good"] (mkSegment 80 75 "good")
           [mkSegment 90 95 "good"] "/tmp/tmpabc.mp4" "@bob" 1 video_world
           100 true Hv Hb))
         (mkSegment 0 2 "good") (mkSegment 90 95 "good")
         eq_refl eq_refl eq_refl eq_refl).
Defined.

Lemma zero_valid_clips_witness :
  files video_world !! "/tmp/tmpabc.mp4"%string = Some (VideoFile 100 true) /\
  Forall (fun segment => valid (mkVideo 100 true) segment = false)
         [mkSegment 80 75 "good"; mkSegment 99 101 "good"] /\
  3 <= length (analyze_sentiment sample_env sample_segments) /\
  Milestone3.create_reel sample_env
    [mkSegment 80 75 "good"; mkSegment 99 101 "good"]
    "/tmp/tmpabc.mp4" "@bob" 3 video_world =
  (Returns None,
   mkWorld (files video_world)
     (trace video_world
      ++ warnings (mkVideo 100 true)
           [mkSegment 80 75 "good"; mkSegment 99 101 "good"]
      ++ [print_reel_error no_clips])).
Proof.
  assert (Hv : files video_world !! "/tmp/tmpabc.mp4"%string
               = Some (VideoFile 100 true)) by (vm_compute; reflexivity).
  assert (Hall : Forall (fun segment =>
                   valid (mkVideo 100 true) segment = false)
                 [mkSegment 80 75 "good"; mkSegment 99 101 "good"])
    by (repeat constructor).
  assert (HL : 3 <= length (analyze_sentiment sample_env sample_segments))
    by (vm_compute; lia).
  split; [exact Hv|]. split; [exact Hall|]. split; [exact HL|].
  exact (proj1 (zero_valid_clips sample_env
           [mkSegment 80 75 "good"; mkSegment 99 101 "good"]
           (analyze_sentiment sample_env sample_segments)
           "/tmp/tmpabc.mp4" "@bob" 3 video_world 100 true Hv Hall HL)).
Defined.

Lemma save_transcript_spec_witness :
  open_ok sample_env (transcript_path_of "@bob" "talk.mp4") = true /\
  fst (save_transcript sample_env [mkSegment 0 2.5 " hi"] "talk.mp4" "@bob"
         empty_world)
  = Returns (Some (transcript_path_of "@bob" "talk.mp4")) /\
  files (snd (save_transcript sample_env [] "talk.mp4" "@bob" empty_world))
    !! transcript_path_of "@bob" "talk.mp4" = Some (TextFile "").
Proof.
  assert (H : open_ok sample_env (transcript_path_of "@bob" "talk.mp4")
              = true) by reflexivity.
  split; [exact H|]. split.
  - exact (proj1 (save_transcript_spec sample_env [mkSegment 0 2.5 " hi"]
                    "talk.mp4" "@bob" empty_world H)).
  - exact (proj1 (proj2 (proj2 (save_transcript_spec sample_env []
                    "talk.mp4" "@bob" empty_world H)))).
Defined.

Lemma transcription_short_circuit_witness :
  acquired quiet_env (Some sample_upload) None "@bob"
    = Some ("/tmp/tmpabc.mp4"%string, VideoFile 100 true) /\
  whisper_transcribe quiet_env (audio_path "@bob" "/tmp/tmpabc.mp4")
    (language_code "Tamil") = Some [] /\
  Milestone3.process_video_upload quiet_env (Some sample_upload) None "@bob"
    "Tamil" empty_world =
  (Returns (Return3 None None []),
   mkWorld (<[audio_path "@bob" "/tmp/tmpabc.mp4" := AudioFile]>
              (<["/tmp/tmpabc.mp4"%string := VideoFile 100 true]> ∅))
     ([progress 0; st_text "Extracting audio..."; progress 20;
       st_text "Transcribing audio..."] ++ simulated)).
Proof.
  assert (Ha : acquired quiet_env (Some sample_upload) None "@bob"
               = Some ("/tmp/tmpabc.mp4"%string, VideoFile 100 true))
    by reflexivity.
  assert (Hw : whisper_transcribe quiet_env
                 (audio_path "@bob" "/tmp/tmpabc.mp4")
                 (language_code "Tamil") = Some []) by reflexivity.
  split; [exact Ha|]. split; [exact Hw|].
  pose proof (proj2 (transcription_short_circuit quiet_env
                (Some sample_upload) None "@bob" "Tamil" empty_world
                "/tmp/tmpabc.mp4" 100 Ha eq_refl eq_refl (or_intror Hw)))
    as Hrun.
  rewrite Hrun. vm_compute. reflexivity.
Defined.

(** ** The stages: what they return and what they change *)

Section StageEffects.

Variable env : Env.

(** X1. [extract_audio_from_video] never raises. It returns [True] exactly
    when the file at [video_path] is a video with an audio track and ffmpeg
    can write the output; then the audio file is on the disk and nothing is
    shown. Otherwise it returns [False], leaves the disk as it was and shows
    one error. *)
Theorem extract_audio_effect video_path output_audio_path w :
  exists ok w',
    extract_audio_from_video env video_path output_audio_path w
      = (Returns ok, w') /\
    (ok = true <->
     (exists d, files w !! video_path = Some (VideoFile d true)) /\
     ffmpeg_ok env output_audio_path = true) /\
    (ok = true ->
     files w' = <[output_audio_path := AudioFile]> (files w) /\
     trace w' = trace w) /\
    (ok = false ->
     files w' = files w /\
     exists e, trace w' =
               trace w ++ [st_error "Error extracting audio" (Some e)]).
Proof.
  rewrite extract_audio_run. cbv zeta.
  destruct (files w !! video_path) as [[d [|]| |c|cs]|] eqn:Hf.
  - destruct (ffmpeg_ok env output_audio_path) eqn:Hok.
    + eexists _, _. split; [reflexivity|]. cbn [files trace].
      split; [split; eauto|]. split; [easy|]. discriminate.
    + eexists _, _. split; [reflexivity|]. cbn [files trace].
      split; [split; [discriminate|intros [_ [=]]]|].
      split; [discriminate|]. intros _. eauto.
  - eexists _, _. split; [reflexivity|]. cbn [files trace].
    split; [split; [discriminate|intros [[d' [=]] _]]|].
    split; [discriminate|]. intros _. eauto.
  - eexists _, _. split; [reflexivity|]. cbn [files trace].
    split; [split; [discriminate|intros [[d' [=]] _]]|].
    split; [discriminate|]. intros _. eauto.
  - eexists _, _. split; [reflexivity|]. cbn [files trace].
    split; [split; [discriminate|intros [[d' [=]] _]]|].
    split; [discriminate|]. intros _. eauto.
  - eexists _, _. split; [reflexivity|]. cbn [files trace].
    split; [split; [discriminate|intros [[d' [=]] _]]|].
    split; [discriminate|]. intros _. eauto.
  - eexists _, _. split; [reflexivity|]. cbn [files trace].
    split; [split; [discriminate|intros [[d' [=]] _]]|].
    split; [discriminate|]. intros _. eauto.
Qed.

Lemma language_code_known language :
  language_code language =
  if decide (language = "Hindi"%string) then "hi"%string
  else if decide (language = "Tamil"%string) then "ta"%string
  else if decide (language = "Malayalam"%string) then "ml"%string
  else "en"%string.
Proof.
  unfold language_code, language_codes.
  repeat (rewrite lookup_insert; case_decide; subst; [try reflexivity|]).
  all: repeat case_decide; try congruence; try reflexivity.
  - subst. now rewrite lookup_singleton_eq.
  - now rewrite lookup_singleton_ne by congruence.
Qed.

(** X2. [transcribe_audio_whisper] asks Whisper for one of the four codes
    en, hi, ta, ml; every language name other than Hindi, Tamil and
    Malayalam, known or not, is transcribed as English. It returns what
    Whisper returns, and [None] after one error message when Whisper
    raises; it never raises and never touches the disk. *)
Theorem language_fallback audio language w :
  let code := language_code language in
  (code = "en" \/ code = "hi" \/ code = "ta" \/ code = "ml")%string /\
  (language <> "Hindi"%string -> language <> "Tamil"%string ->
   language <> "Malayalam"%string -> code = "en"%string) /\
  transcribe_audio_whisper env audio language w =
  match whisper_transcribe env audio code with
  | Some segments => (Returns (Some segments), w)
  | None =>
      (Returns None,
       mkWorld (files w)
         (trace w ++ [st_error "Error during transcription"
                        (Some (RuntimeError "transcribe"))]))
  end.
Proof.
  cbv zeta. rewrite language_code_known. split; [|split].
  - repeat case_decide; auto.
  - intros H1 H2 H3. repeat case_decide; congruence.
  - rewrite <- language_code_known. apply transcribe_run.
Qed.

End StageEffects.

Section RunCases.

Variable env : Env.

Lemma create_motivational_reel_run segments w :
  create_motivational_reel env segments w =
  match chat_completion env (summary_prompt segments) with
  | HttpResponse status_code content =>
      if status_code =? 200 then (Returns (Some content), w)
      else (Returns None,
            mkWorld (files w)
              (trace w ++ [st_error "Failed to generate motivational content."
                             None]))
  | HttpRaises e => (Raises e, w)
  end.
Proof.
  unfold create_motivational_reel, summary_prompt.
  destruct (chat_completion env _) as [status_code content|e];
    [|reflexivity].
  destruct (status_code =? 200); reflexivity.
Qed.

Lemma make_reels_returns important_segments video_path username w :
  exists reels w',
    make_reels (Milestone3.create_reel env) important_segments video_path
      username w = (Returns reels, w').
Proof.
  destruct (Nat.leb_spec 3 (length important_segments)) as [HL|HL].
  - destruct (make_reels_chain env important_segments video_path username w
                HL) as (r0 & w0 & r1 & w1 & r2 & w2 & _ & _ & _ & E).
    eauto.
  - unfold make_reels.
    destruct (Nat.leb_spec 3 (length important_segments)); [lia|]. 
    eexists _, _. reflexivity.
Qed.

Lemma save_transcript_returns transcript filename username w :
  exists t w',
    save_transcript env transcript filename username w = (Returns t, w').
Proof.
  rewrite save_transcript_run. cbv zeta.
  destruct (open_ok env _); eauto.
Qed.

(** Every way a run of milestone 3 can go, with what it returns and what it
    leaves on disk. *)
Lemma process_video_upload_cases video_file youtube_url username language
    w r w' :
  Milestone3.process_video_upload env video_file youtube_url username
    language w = (r, w') ->
  (acquired env video_file youtube_url username = None /\
   r = Returns (Return3 None None []) /\ files w' = files w) \/
  exists video_path f,
    acquired env video_file youtube_url username = Some (video_path, f) /\
    let disk1 := <[video_path := f]> (files w) in
    let audio := audio_path username video_path in
    let disk2 := <[audio := AudioFile]> disk1 in
    (truthy (Some video_path) = false /\
     r = Returns (Return3 None None []) /\ files w' = disk1) \/
    truthy (Some video_path) = true /\
    ((~ ((exists d, f = VideoFile d true) /\ ffmpeg_ok env audio = true) /\
      r = Returns (Return3 None None []) /\ files w' = disk1) \/
     (exists d, f = VideoFile d true) /\ ffmpeg_ok env audio = true /\
     match whisper_transcribe env audio (language_code language) with
     | None | Some [] =>
         r = Returns (Return3 None None []) /\ files w' = disk2
     | Some segments =>
         let important_segments := analyze_sentiment env segments in
         match chat_completion env (summary_prompt important_segments) with
         | HttpRaises e => r = Raises e /\ files w' = disk2
         | HttpResponse status_code content =>
             exists w1 reels w2 t w3,
               files w1 = disk2 /\
               make_reels (Milestone3.create_reel env) important_segments
                 video_path username w1 = (Returns reels, w2) /\
               save_transcript env important_segments (basename video_path)
                 username
                 (mkWorld (files w2)
                    (trace w2 ++ [st_text "Saving transcript..."]))
               = (Returns t, w3) /\
               r = Returns (Return4
                              (if status_code =? 200 then Some content
                               else None)
                              t reels important_segments) /\
               files w' = delete video_path (files w3)
         end
     end).
Proof.
  unfold Milestone3.process_video_upload, language_code.
  run_emit. rewrite bind_run, acquire_run. cbv zeta.
  destruct (acquired env video_file youtube_url username)
    as [[video_path f]|] eqn:Hacq; cbv beta iota;
    [|intros [= <- <-]; left; easy].
  intros Hrun. right. exists video_path, f. split; [reflexivity|].
  cbv zeta. revert Hrun.
  destruct (truthy (Some video_path)) eqn:Ht; cbn [negb];
    [|intros [= <- <-]; left; easy].
  intros Hrun. right. split; [reflexivity|]. revert Hrun.
  change (default ""%string (Some video_path)) with video_path.
  fold (audio_path username video_path).
  run_emit. rewrite bind_run, extract_audio_run. cbn [files trace].
  rewrite lookup_insert_eq. cbv zeta.
  destruct f as [d [|]| |c|cs];
    try (cbn [negb]; intros [= <- <-]; left;
         split; [intros [[d' [=]] _]|easy]).
  destruct (ffmpeg_ok env (audio_path username video_path)) eqn:Hok;
    cbn [negb];
    [|intros [= <- <-]; left; split; [intros [_ [=]]|easy]].
  intros Hrun. right. split; [eauto|]. split; [reflexivity|]. revert Hrun.
  run_emit. run_emit.
  rewrite bind_run, simulate_progress_run. cbv beta iota.
  rewrite bind_run, transcribe_run.
  destruct (whisper_transcribe env _ _) as [[|segment segments]|] eqn:Hwh;
    cbv beta iota; try (intros [= <- <-]; easy).
  run_emit. run_emit. run_emit.
  rewrite bind_run, create_motivational_reel_run.
  destruct (chat_completion env _) as [status_code content|e] eqn:Hchat;
    [|intros [= <- <-]; easy].
  set (m := if status_code =? 200 then Some content else None).
  match goal with
  | |- context [let (r0, w0) := ?x in _] =>
      assert (Hm : exists wm, x = (Returns m, wm) /\
                    files wm = <[audio_path username video_path := AudioFile]>
                                 (<[video_path := VideoFile d true]> (files w)))
  end.
  { unfold m. destruct (status_code =? 200); eexists; split; reflexivity. }
  destruct Hm as (wm & -> & Hwm). cbv beta iota.
  run_emit. rewrite bind_run.
  match goal with |- context [make_reels ?c ?s ?v ?u ?w] =>
    destruct (make_reels_returns s v u w) as (reels & w4 & Er) end.
  rewrite Er. cbv beta iota.
  run_emit. rewrite bind_run.
  match goal with |- context [save_transcript ?e ?s ?f ?u ?w] =>
    destruct (save_transcript_returns s f u w) as (t & w5 & Es) end.
  rewrite Es. cbv beta iota.
  run_emit. rewrite bind_run. unfold os_unlink at 1. cbn [files trace].
  assert (Hvid : is_Some (files w5 !! video_path)).
  { eapply save_transcript_keeps; [exact Es|]. cbn [files].
    eapply make_reels_keeps; [exact Er|]. cbn [files]. rewrite Hwm.
    rewrite lookup_insert. case_decide; [eauto|].
    rewrite lookup_insert_eq. eauto. }
  destruct Hvid as [f5 ->]. intros [= <- <-].
  eexists _, reels, w4, t, w5.
  split; [|split; [exact Er|split; [exact Es|split; reflexivity]]].
  cbn [files]. exact Hwm.
Qed.

End RunCases.

(** ** The list of reels *)

Section ReelsList.

Variable env : Env.

(** A render reads the disk only: what is shown before it plays no part. *)
Lemma create_reel_same_disk segments video_path username reel_index wa wb :
  files wa = files wb ->
  exists r wa' wb',
    Milestone3.create_reel env segments video_path username reel_index wa
      = (Returns r, wa') /\
    Milestone3.create_reel env segments video_path username reel_index wb
      = (Returns r, wb') /\
    files wa' = files wb' /\
    rendered username reel_index r wa wa'.
Proof.
  intros Hdisk.
  destruct (Milestone3.create_reel env segments video_path username
              reel_index wa) as [ra wa'] eqn:Ea.
  destruct (Milestone3.create_reel env segments video_path username
              reel_index wb) as [rb wb'] eqn:Eb.
  pose proof (create_reel_outcome env _ _ _ _ _ _ _ Ea) as Hout.
  revert Ea Eb.
  destruct (files wa !! video_path) as [f|] eqn:Hf.
  - destruct f as [d a| | |].
    + rewrite (create_reel_run env segments video_path username reel_index
                 wa d a Hf).
      rewrite Hdisk in Hf.
      rewrite (create_reel_run env segments video_path username reel_index
                 wb d a Hf).
      cbv zeta.
      destruct (valid_clips (mkVideo d a) segments) as [|clip clips].
      * intros [= <- <-] [= <- <-]. eexists _, _, _.
        repeat split; try reflexivity; [exact Hdisk|].
        left. easy.
      * destruct (ffmpeg_ok env (reel_path username reel_index)).
        -- intros [= <- <-] [= <- <-]. eexists _, _, _.
           repeat split; try reflexivity; [cbn; now rewrite Hdisk|].
           right. split; [reflexivity|]. eexists. reflexivity.
        -- intros [= <- <-] [= <- <-]. eexists _, _, _.
           repeat split; try reflexivity; [exact Hdisk|].
           left. easy.
    + rewrite !create_reel_no_video
        by (intros d a; rewrite <- ?Hdisk, Hf; discriminate).
      intros [= <- <-] [= <- <-]. eexists _, _, _.
      repeat split; try reflexivity; [exact Hdisk|]. left. easy.
    + rewrite !create_reel_no_video
        by (intros d a; rewrite <- ?Hdisk, Hf; discriminate).
      intros [= <- <-] [= <- <-]. eexists _, _, _.
      repeat split; try reflexivity; [exact Hdisk|]. left. easy.
    + rewrite !create_reel_no_video
        by (intros d a; rewrite <- ?Hdisk, Hf; discriminate).
      intros [= <- <-] [= <- <-]. eexists _, _, _.
      repeat split; try reflexivity; [exact Hdisk|]. left. easy.
  - rewrite !create_reel_no_video
      by (intros d a; rewrite <- ?Hdisk, Hf; discriminate).
    intros [= <- <-] [= <- <-]. eexists _, _, _.
    repeat split; try reflexivity; [exact Hdisk|]. left. easy.
Qed.

End ReelsList.

(** C10. Whatever the run, the list of reels it returns is empty at the
    early returns; at the end of the run it has three entries when at least
    three segments passed the sentiment filter and none otherwise. The
    entries are what the three renders of this run returned, in order: run
    on the video the run acquired, from the disk the run had made, each
    after the renders before it, render [i] returned the path of reel
    [i + 1] after writing it, or [None] after writing nothing, and that is
    entry [i]. A failure leaves a [None] in its place and moves nothing. *)
Theorem reels_list_shape
    env video_file youtube_url username language w res w' :
  Milestone3.process_video_upload env video_file youtube_url username
    language w = (res, w') ->
  match res with
  | Returns (Return3 _ _ reels_paths) => reels_paths = []
  | Returns (Return4 _ _ reels_paths important_segments) =>
      let L := length important_segments in
      let n := L / 3 in
      (exists segments,
         important_segments = analyze_sentiment env segments) /\
      length reels_paths = (if 3 <=? L then 3 else 0) /\
      exists video_path d,
        acquired env video_file youtube_url username
          = Some (video_path, VideoFile d true) /\
        forall wa,
          files wa = <[audio_path username video_path := AudioFile]>
                       (<[video_path := VideoFile d true]> (files w)) ->
          3 <= L ->
          exists r0 w0 r1 w1 r2 w2,
            let render i :=
              Milestone3.create_reel env
                (slice important_segments (i * n) (i * n + n))
                video_path username (i + 1) in
            render 0 wa = (Returns r0, w0) /\
            render 1 w0 = (Returns r1, w1) /\
            render 2 w1 = (Returns r2, w2) /\
            reels_paths = [r0; r1; r2] /\
            rendered username 1 r0 wa w0 /\
            rendered username 2 r1 w0 w1 /\
            rendered username 3 r2 w1 w2
  | Raises _ => True
  end.
Proof.
  intros E. apply process_video_upload_cases in E.
  destruct E as [(_ & -> & _)|(video_path & f & Hacq & E)]; [reflexivity|].
  cbv zeta in E.
  destruct E as [(_ & -> & _)|(_ & [(_ & -> & _)|([d ->] & _ & E)])];
    [reflexivity..|].
  destruct (whisper_transcribe env _ _) as [[|segment segments]|] eqn:Hwh;
    try (destruct E as [-> _]; reflexivity).
  cbv zeta in E.
  destruct (chat_completion env _) as [status_code content|e] eqn:Hchat;
    [|destruct E as [-> _]; exact I].
  destruct E as (w1 & reels & w2 & t & w3 & Hw1 & Er & _ & -> & _).
  set (important_segments := analyze_sentiment env (segment :: segments))
    in *.
  cbv zeta. split; [exists (segment :: segments); reflexivity|].
  destruct (Nat.leb_spec 3 (length important_segments)) as [HL|HL].
  - destruct (make_reels_chain env important_segments video_path username w1
                HL) as (r0 & v0 & r1 & v1 & r2 & v2 & E0 & E1 & E2 & E').
    rewrite E' in Er. injection Er as <- <-.
    split; [reflexivity|].
    exists video_path, d. split; [exact Hacq|].
    intros wa Hwa _. cbv zeta in *.
    destruct (create_reel_same_disk env
                (slice important_segments (0 * (length important_segments / 3))
                   (0 * (length important_segments / 3)
                    + length important_segments / 3))
                video_path username (0 + 1) wa w1)
      as (q0 & u0 & v0' & Ea0 & Eb0 & Hd0 & Hr0); [congruence|].
    rewrite E0 in Eb0. injection Eb0 as <- <-.
    destruct (create_reel_same_disk env
                (slice important_segments (1 * (length important_segments / 3))
                   (1 * (length important_segments / 3)
                    + length important_segments / 3))
                video_path username (1 + 1) u0 v0 Hd0)
      as (q1 & u1 & v1' & Ea1 & Eb1 & Hd1 & Hr1).
    rewrite E1 in Eb1. injection Eb1 as <- <-.
    destruct (create_reel_same_disk env
                (slice important_segments (2 * (length important_segments / 3))
                   (2 * (length important_segments / 3)
                    + length important_segments / 3))
                video_path username (2 + 1) u1 v1 Hd1)
      as (q2 & u2 & v2' & Ea2 & Eb2 & Hd2 & Hr2).
    rewrite E2 in Eb2. injection Eb2 as <- <-.
    exists r0, u0, r1, u1, r2, u2.
    repeat (split; [assumption|]). split; [reflexivity|].
    repeat split; assumption.
  - unfold make_reels in Er.
    destruct (Nat.leb_spec 3 (length important_segments)); [lia|].
    injection Er as <- <-. split; [reflexivity|].
    exists video_path, d. split; [exact Hacq|]. intros wa _ H3. lia.
Qed.

Lemma reels_list_shape_witness :
  sample_run =
    (Returns (Return4 (Some "summary"%string)
                (Some "uploads/transcripts/@bob_tmpabc.mp4.txt"%string)
                [Some "uploads/reels/@bob_reel_1.mp4"%string;
                 Some "uploads/reels/@bob_reel_2.mp4"%string; None]
                (analyze_sentiment sample_env sample_segments)),
     snd sample_run) /\
  length [Some "uploads/reels/@bob_reel_1.mp4"%string;
          Some "uploads/reels/@bob_reel_2.mp4"%string; None] =
  (if 3 <=? length (analyze_sentiment sample_env sample_segments)
   then 3 else 0).
Proof.
  assert (H : sample_run =
    (Returns (Return4 (Some "summary"%string)
                (Some "uploads/transcripts/@bob_tmpabc.mp4.txt"%string)
                [Some "uploads/reels/@bob_reel_1.mp4"%string;
                 Some "uploads/reels/@bob_reel_2.mp4"%string; None]
                (analyze_sentiment sample_env sample_segments)),
     snd sample_run)) by (vm_compute; reflexivity).
  split; [exact H|].
  exact (proj1 (proj2 (reels_list_shape sample_env (Some sample_upload) None
                         "@bob" "English" empty_world _ _ H))).
Defined.

(** ** More on paths *)

(** A path made of a prefix, an underscore, the base name of another path
    and a suffix without slash is never that other path. *)
Lemma derived_path_neq (pre suf path : string) :
  slash_free suf = true ->
  pre +:+ "_" +:+ basename path +:+ suf <> path.
Proof.
  intros Hsuf E. apply (f_equal basename) in E.
  set (b := basename path) in *.
  assert (Hb : slash_free b = true)
    by (now apply basename_from_slash_free).
  rewrite <- !string_app_assoc in E.
  rewrite (string_app_assoc _ b), (string_app_assoc _ "_") in E.
  unfold basename in E at 1. rewrite basename_from_app in E.
  - apply (f_equal String.length) in E.
    rewrite !string_length_app in E. cbn [String.length] in E. lia.
  - rewrite !slash_free_app, Hb, Hsuf. reflexivity.
Qed.

Lemma transcript_path_neq (username video_path : string) :
  transcript_path_of username (basename video_path) <> video_path.
Proof.
  unfold transcript_path_of.
  rewrite <- (string_app_assoc "uploads/transcripts/").
  now apply derived_path_neq.
Qed.

Lemma transcript_path_not_reel (username filename username' : string)
    (reel_index : nat) :
  transcript_path_of username filename <> reel_path username' reel_index.
Proof.
  unfold transcript_path_of, reel_path. intros E.
  rewrite !string_app_cons in E. injection E as E. discriminate E.
Qed.

(** ** What a run leaves on disk *)

Section RunEffects.

Variable env : Env.

(** X3. When a YouTube URL is given, [process_video_upload] ignores the
    uploaded file: the run is the one without the upload. *)
Theorem url_takes_precedence video_file url username language :
  url <> ""%string ->
  Milestone3.process_video_upload env video_file (Some url) username language
  = Milestone3.process_video_upload env None (Some url) username language.
Proof.
  intros Hurl. unfold Milestone3.process_video_upload.
  assert (Ht : truthy (Some url) = true) by (destruct url; [congruence|reflexivity]).
  now rewrite Ht.
Qed.

(** X5. Whatever the run ends with, the only file that was on the disk
    before and is missing afterwards is the run's own video. *)
Theorem run_deletes_only_its_video
    video_file youtube_url username language w r w' path :
  Milestone3.process_video_upload env video_file youtube_url username
    language w = (r, w') ->
  is_Some (files w !! path) ->
  is_Some (files w' !! path) \/
  video_path_of env video_file youtube_url username = Some path.
Proof.
  intros Hrun Hp. apply process_video_upload_cases in Hrun.
  destruct Hrun as [(_ & _ & ->)|(video_path & f & Hacq & Hrun)];
    [now left|].
  cbv zeta in Hrun.
  assert (H1 : is_Some (<[video_path := f]> (files w) !! path)).
  { rewrite lookup_insert. case_decide; [eauto|exact Hp]. }
  assert (H2 : is_Some (<[audio_path username video_path := AudioFile]>
                          (<[video_path := f]> (files w)) !! path)).
  { rewrite lookup_insert. case_decide; [eauto|exact H1]. }
  destruct Hrun as [(_ & _ & ->)|(_ & [(_ & _ & ->)|(_ & _ & Hrun)])];
    [now left..|].
  destruct (whisper_transcribe env _ _) as [[|segment segments]|];
    try (destruct Hrun as [_ ->]; now left).
  cbv zeta in Hrun.
  destruct (chat_completion env _) as [status_code content|e'];
    [|destruct Hrun as [_ ->]; now left].
  destruct Hrun as (w1 & reels & w2 & t & w3 & Hw1 & Er & Es & _ & ->).
  destruct (decide (video_path = path)) as [->|Hne].
  - right. unfold video_path_of. now rewrite Hacq.
  - left. rewrite lookup_delete_ne by exact Hne.
    eapply save_transcript_keeps; [exact Es|]. cbn [files].
    eapply make_reels_keeps; [exact Er|]. now rewrite Hw1.
Qed.

(** X6. In a run that completes, the transcript path returned is
    [uploads/transcripts/<username>_<basename of the video>.txt] and the
    file there holds the lines of the important segments; the path is [None]
    exactly when that file could not be opened. *)
Theorem transcript_of_a_completed_run
    video_file youtube_url username language w
    motivational_contents transcript_path reels_paths important_segments w' :
  Milestone3.process_video_upload env video_file youtube_url username
    language w =
  (Returns (Return4 motivational_contents transcript_path reels_paths
              important_segments), w') ->
  exists video_path,
    video_path_of env video_file youtube_url username = Some video_path /\
    let path := transcript_path_of username (basename video_path) in
    match transcript_path with
    | Some p =>
        p = path /\ open_ok env path = true /\
        files w' !! path
        = Some (TextFile (transcript_content important_segments))
    | None => open_ok env path = false
    end.
Proof.
  intros Hrun. apply process_video_upload_cases in Hrun.
  destruct Hrun as [(_ & [=] & _)|(video_path & f & Hacq & Hrun)].
  exists video_path. split; [unfold video_path_of; now rewrite Hacq|].
  cbv zeta in Hrun.
  destruct Hrun as [(_ & [=] & _)|(_ & [(_ & [=] & _)|(_ & _ & Hrun)])].
  destruct (whisper_transcribe env _ _) as [[|segment segments]|];
    try (destruct Hrun as [[=] _]).
  cbv zeta in Hrun.
  destruct (chat_completion env _) as [status_code content|e'];
    [|destruct Hrun as [[=] _]].
  destruct Hrun as (w1 & reels & w2 & t & w3 & _ & _ & Es & [= -> -> -> ->]
                    & ->).
  rewrite save_transcript_run in Es. cbv zeta in Es. cbv zeta.
  destruct (open_ok env _) eqn:Hok; injection Es as <- <-;
    [|reflexivity].
  split; [reflexivity|]. split; [reflexivity|]. cbn [files].
  rewrite lookup_delete_ne by (apply not_eq_sym, transcript_path_neq).
  apply lookup_insert_eq.
Qed.

Lemma create_reel_keeps_reel segments video_path username reel_index
    w r w' path :
  Milestone3.create_reel env segments video_path username reel_index w
  = (r, w') ->
  reel_file_at path w -> reel_file_at path w'.
Proof.
  intros E [clips Hp]. unfold reel_file_at.
  apply create_reel_outcome in E as [[_ ->]|[_ [clips' ->]]];
    [now exists clips|].
  rewrite lookup_insert. case_decide; eauto.
Qed.

Lemma create_reel_writes_reel segments video_path username reel_index
    w path w' :
  Milestone3.create_reel env segments video_path username reel_index w
  = (Returns (Some path), w') ->
  path = reel_path username reel_index /\ reel_file_at path w'.
Proof.
  intros E. unfold reel_file_at.
  apply create_reel_outcome in E as [[[=] _]|[[= ->] [clips ->]]].
  split; [reflexivity|]. exists clips. apply lookup_insert_eq.
Qed.

(** X7. In a run that completes, a reel path at position [i] of the list is
    the path of reel [i + 1], and a reel file is there at the end of the
    run (unless it is the path of the video, which the run deletes). *)
Theorem reels_of_a_completed_run
    video_file youtube_url username language w
    motivational_contents transcript_path reels_paths important_segments w'
    i path :
  Milestone3.process_video_upload env video_file youtube_url username
    language w =
  (Returns (Return4 motivational_contents transcript_path reels_paths
              important_segments), w') ->
  reels_paths !! i = Some (Some path) ->
  path = reel_path username (i + 1) /\
  (video_path_of env video_file youtube_url username <> Some path ->
   reel_file_at path w').
Proof.
  intros Hrun Hi. apply process_video_upload_cases in Hrun.
  destruct Hrun as [(_ & [=] & _)|(video_path & f & Hacq & Hrun)].
  cbv zeta in Hrun.
  destruct Hrun as [(_ & [=] & _)|(_ & [(_ & [=] & _)|(_ & _ & Hrun)])].
  destruct (whisper_transcribe env _ _) as [[|segment segments]|];
    try (destruct Hrun as [[=] _]).
  cbv zeta in Hrun.
  destruct (chat_completion env _) as [status_code content|e'];
    [|destruct Hrun as [[=] _]].
  destruct Hrun as (w1 & reels & w2 & t & w3 & _ & Er & Es & [= -> -> -> ->]
                    & Hw').
  set (important_segments := analyze_sentiment env (segment :: segments))
    in *.
  assert (Hreel : path = reel_path username (i + 1) /\ reel_file_at path w2).
  { destruct (Nat.leb_spec 3 (length important_segments)) as [HL|HL].
    - destruct (make_reels_chain env important_segments video_path username
                  w1 HL) as (r0 & w0 & r1 & w1' & r2 & w2' & E0 & E1 & E2
                             & E').
      rewrite E' in Er. injection Er as <- <-.
      destruct i as [|[|[|i]]]; cbn in Hi; try discriminate;
        injection Hi as ->.
      + apply create_reel_writes_reel in E0 as [-> H0].
        split; [reflexivity|].
        eapply create_reel_keeps_reel; [exact E2|].
        eapply create_reel_keeps_reel; [exact E1|exact H0].
      + apply create_reel_writes_reel in E1 as [-> H1].
        split; [reflexivity|].
        eapply create_reel_keeps_reel; [exact E2|exact H1].
      + apply create_reel_writes_reel in E2 as [-> H2]. easy.
    - unfold make_reels in Er.
      destruct (Nat.leb_spec 3 (length important_segments)); [lia|].
      injection Er as <- <-. now rewrite lookup_nil in Hi. }
  destruct Hreel as [-> [clips Hclips]]. split; [reflexivity|].
  intros Hne. unfold reel_file_at. exists clips. rewrite Hw'.
  rewrite lookup_delete_ne.
  2:{ intros ->. apply Hne. unfold video_path_of. now rewrite Hacq. }
  rewrite save_transcript_run in Es. cbv zeta in Es.
  destruct (open_ok env _); injection Es as _ <-; cbn [files];
    [|exact Hclips].
  rewrite lookup_insert_ne by apply transcript_path_not_reel.
  exact Hclips.
Qed.

End RunEffects.

(** ** The renderers of milestone 2 and milestone 3 *)

Section Renderers.

Variable env : Env.

(** X8. Every clip [create_reel] collects lies inside the video: it starts
    at or after 0 and before the end, lasts more than nothing, and ends at
    or before the end of the video. *)
Theorem collected_clips_lie_in_the_video video segments clip :
  In clip (valid_clips video segments) ->
  (0 <= clip_start clip)%Q /\
  (clip_start clip < duration video)%Q /\
  (0 < clip_duration clip)%Q /\
  (clip_start clip + clip_duration clip <= duration video)%Q.
Proof.
  unfold valid_clips. rewrite in_map_iff.
  intros (segment & <- & Hin). apply List.filter_In in Hin as [_ Hv].
  unfold valid, within_video in Hv.
  repeat (apply andb_true_iff in Hv as [Hv ?]).
  apply Qle_bool_iff in Hv.
  repeat match goal with
         | H : Qltb _ _ = true |- _ => apply Qltb_lt in H
         | H : Qle_bool _ _ = true |- _ => apply Qle_bool_iff in H
         end.
  unfold clip_of. cbn [subclip whole clip_start clip_duration].
  destruct (Qltb 60 (end_ segment - start segment)) eqn:E;
    cbn [subclip clip_start clip_duration].
  - apply Qltb_lt in E. unfold whole. cbn [clip_start]. repeat split; lra.
  - apply Qltb_ge in E. unfold whole. cbn [clip_start]. repeat split; lra.
Qed.

Lemma clip_of_trim video segment :
  clip_of video segment = trim (raw_clip video segment).
Proof. reflexivity. Qed.

Lemma milestone2_collect_clips_run video segments video_clips w :
  Milestone2.collect_clips video segments video_clips w =
  (Returns (video_clips
            ++ map (raw_clip video) (List.filter (valid video) segments)),
   mkWorld (files w) (trace w ++ warnings video segments)).
Proof.
  revert video_clips w.
  induction segments as [|segment rest IH]; intros video_clips w.
  - cbn. unfold warnings. cbn. now rewrite !app_nil_r, world_eta.
  - cbn [Milestone2.collect_clips]. unfold warnings.
    cbn [List.filter]. fold (valid video segment).
    destruct (valid video segment); cbn [negb map].
    + rewrite IH. unfold warnings, raw_clip. now rewrite <- app_assoc.
    + rewrite bind_run, emit_run, IH. cbn [files trace].
      unfold warnings. now rewrite <- app_assoc.
Qed.

Lemma milestone2_create_reel_run segments video_path username reel_index w :
  Milestone2.create_reel env segments video_path username reel_index w =
  match files w !! video_path with
  | Some (VideoFile d a) =>
      let video := mkVideo d a in
      let shown := trace w ++ warnings video segments in
      match map (raw_clip video) (List.filter (valid video) segments) with
      | [] => (Returns None,
               mkWorld (files w) (shown ++ [print_reel_error no_clips]))
      | clips =>
          if ffmpeg_ok env (reel_path username reel_index)
          then (Returns (Some (reel_path username reel_index)),
                mkWorld (<[reel_path username reel_index := ReelFile clips]>
                           (files w)) shown)
          else (Returns None,
                mkWorld (files w)
                  (shown
                   ++ [print_reel_error (OSError "ffmpeg: write failed")]))
      end
  | _ =>
      (Returns None,
       mkWorld (files w)
         (trace w ++ [print_reel_error
            (OSError "MoviePy error: the file could not be found")]))
  end.
Proof.
  unfold Milestone2.create_reel, try_except, VideoFileClip.
  rewrite !bind_run. unfold read_file.
  destruct (files w !! video_path) as [[d a| |c|cs]|] eqn:E;
    try reflexivity.
  change (ret (mkVideo d a) w) with (Returns (mkVideo d a), w).
  cbv beta iota zeta.
  rewrite bind_run, milestone2_collect_clips_run. cbn [app].
  fold (reel_path username reel_index).
  destruct (map _ _) as [|clip clips] eqn:Hc; [reflexivity|].
  rewrite bind_run. unfold ffmpeg_write.
  destruct (ffmpeg_ok env (reel_path username reel_index)); reflexivity.
Qed.

(** X9. [create_reel] of milestone 3 is the one of milestone 2 with every
    clip trimmed to a minute: same result, same output, and the reel file
    holds the trimmed clips. *)
Theorem milestone3_renderer_is_milestone2_trimmed
    segments video_path username reel_index w :
  let run2 := Milestone2.create_reel env segments video_path username
                reel_index w in
  let run3 := Milestone3.create_reel env segments video_path username
                reel_index w in
  fst run3 = fst run2 /\
  trace (snd run3) = trace (snd run2) /\
  files (snd run3) =
  match fst run2 with
  | Returns (Some path) => alter trim_reel path (files (snd run2))
  | _ => files (snd run2)
  end.
Proof.
  cbv zeta. rewrite milestone2_create_reel_run.
  destruct (files w !! video_path) as [[d a| |c|cs]|] eqn:E;
    try (rewrite create_reel_no_video by (intros; congruence); easy).
  rewrite (create_reel_run env _ _ _ _ _ d a E). cbv zeta.
  unfold valid_clips.
  assert (Hmap : map (clip_of (mkVideo d a))
                     (List.filter (valid (mkVideo d a)) segments)
                 = map trim (map (raw_clip (mkVideo d a))
                               (List.filter (valid (mkVideo d a)) segments))).
  { rewrite map_map. reflexivity. }
  rewrite Hmap.
  destruct (map (raw_clip _) _) as [|clip clips]; [easy|].
  cbn [map].
  destruct (ffmpeg_ok env (reel_path username reel_index)); [|easy].
  cbn [fst snd files trace]. split; [reflexivity|]. split; [reflexivity|].
  now rewrite alter_insert_eq.
Qed.

(** X10. The filter of milestone 1, a loop that appends, keeps the same
    segments in the same order as the comprehension of milestones 2 and 3. *)
Theorem milestone1_filter_is_the_comprehension segments :
  Milestone1.analyze_sentiment env segments = analyze_sentiment env segments.
Proof.
  unfold Milestone1.analyze_sentiment.
  enough (H : forall kept,
            foldl (fun important_segments segment =>
                     let sentiment_score :=
                       polarity_compound env (text segment) in
                     if Qltb 0.05 sentiment_score
                     then important_segments ++ [segment]
                     else important_segments) kept segments
            = kept ++ analyze_sentiment env segments) by apply (H []).
  induction segments as [|segment rest IH]; intros kept.
  - cbn. now rewrite app_nil_r.
  - cbn [foldl]. rewrite IH, analyze_sentiment_cons. cbv zeta.
    unfold score.
    destruct (Qltb 0.05 (polarity_compound env (text segment)));
      [now rewrite <- app_assoc|reflexivity].
Qed.

End Renderers.

Section Completion.

Variable env : Env.

(** X11. [process_video_upload] returns its four values only if the video
    was acquired under a non-empty path with an audio track, ffmpeg could
    write the audio, Whisper returned at least one segment, and the
    chat-completion request did not raise. *)
Theorem run_completes_only_if
    video_file youtube_url username language w
    motivational_contents transcript_path reels_paths important_segments :
  fst (Milestone3.process_video_upload env video_file youtube_url username
         language w)
  = Returns (Return4 motivational_contents transcript_path reels_paths
               important_segments) ->
  exists video_path d segment segments,
    acquired env video_file youtube_url username
      = Some (video_path, VideoFile d true) /\
    video_path <> ""%string /\
    ffmpeg_ok env (audio_path username video_path) = true /\
    whisper_transcribe env (audio_path username video_path)
      (language_code language) = Some (segment :: segments) /\
    important_segments = analyze_sentiment env (segment :: segments) /\
    forall e,
      chat_completion env (summary_prompt important_segments)
      <> HttpRaises e.
Proof.
  destruct (Milestone3.process_video_upload env video_file youtube_url
              username language w) as [r w'] eqn:Hrun.
  apply process_video_upload_cases in Hrun. cbn [fst]. intros ->.
  destruct Hrun as [(_ & [=] & _)|(video_path & f & Hacq & Hrun)].
  cbv zeta in Hrun.
  destruct Hrun as [(_ & [=] & _)
                   |(Ht & [(_ & [=] & _)|([d ->] & Hok & Hrun)])].
  destruct (whisper_transcribe env _ _) as [[|segment segments]|] eqn:Hwh;
    try (destruct Hrun as [[=] _]).
  cbv zeta in Hrun.
  destruct (chat_completion env _) as [status_code content|e'] eqn:Hchat;
    [|destruct Hrun as [[=] _]].
  destruct Hrun as (w1 & reels & w2 & t & w3 & _ & _ & _ & Hr & _).
  assert (Himp : important_segments
                 = analyze_sentiment env (segment :: segments))
    by congruence.
  exists video_path, d, segment, segments.
  split; [exact Hacq|]. split; [intros ->; discriminate|].
  split; [exact Hok|]. split; [exact Hwh|]. split; [exact Himp|].
  rewrite Himp, Hchat. discriminate.
Qed.

End Completion.

(** ** Matching by derivatives is matching *)

Lemma string_app_eq_nil (s1 s2 : string) :
  s1 +:+ s2 = ""%string -> s1 = ""%string /\ s2 = ""%string.
Proof. destruct s1; [easy|]. rewrite string_app_cons. discriminate. Qed.

Lemma string_app_eq_cons (s1 s2 : string) c s :
  s1 +:+ s2 = String c s ->
  (s1 = ""%string /\ s2 = String c s) \/
  exists s1', s1 = String c s1' /\ s = s1' +:+ s2.
Proof.
  destruct s1 as [|c1 s1']; [left; easy|].
  rewrite string_app_cons. intros [= -> <-]. right. eauto.
Qed.

Lemma nullable_lang r : nullable r = true <-> Lang r "".
Proof.
  split.
  - induction r; cbn [nullable]; intros H; try discriminate.
    + constructor.
    + apply andb_true_iff in H as [H1 H2].
      change ""%string with (""%string +:+ ""%string). constructor; auto.
    + apply orb_true_iff in H as [H|H];
        [apply lang_alt_l|apply lang_alt_r]; auto.
    + constructor.
  - intros H. remember ""%string as s eqn:Hs.
    induction H; cbn [nullable]; try reflexivity; try discriminate.
    + apply string_app_eq_nil in Hs as [-> ->]. rewrite IHLang1, IHLang2; auto.
    + rewrite IHLang; auto.
    + rewrite IHLang; auto. apply orb_true_r.
Qed.

Lemma deriv_lang_1 c r s : Lang (deriv c r) s -> Lang r (String c s).
Proof.
  revert s. induction r; intros s; cbn [deriv]; intros H.
  - inversion H.
  - inversion H.
  - destruct (cls c) eqn:E; inversion H; subst. now constructor.
  - destruct (nullable r1) eqn:En.
    + inversion H as [| |? ? ? ? | ? ? ? H' | ? ? ? H' | |]; subst.
      * inversion H' as [| |? ? s1 s2 H1 H2 | | | |]; subst.
        change (String c (s1 +:+ s2)) with (String c s1 +:+ s2).
        constructor; auto.
      * change (String c s) with (""%string +:+ String c s).
        constructor; [now apply nullable_lang|auto].
    + inversion H as [| |? ? s1 s2 H1 H2 | | | |]; subst.
      change (String c (s1 +:+ s2)) with (String c s1 +:+ s2).
      constructor; auto.
  - inversion H; subst; [apply lang_alt_l|apply lang_alt_r]; auto.
  - inversion H as [| |? ? s1 s2 H1 H2 | | | |]; subst.
    change (String c (s1 +:+ s2)) with (String c s1 +:+ s2).
    constructor; auto.
Qed.

Lemma deriv_lang_2 r s' :
  Lang r s' -> forall c s, s' = String c s -> Lang (deriv c r) s.
Proof.
  induction 1 as [|cls c0 Hc|r1 r2 s1 s2 H1 IH1 H2 IH2|r1 r2 s0 H1 IH1
                  |r1 r2 s0 H2 IH2|r|r s1 s2 H1 IH1 H2 IH2];
    intros c s Hs; cbn [deriv].
  - discriminate.
  - injection Hs as -> <-. rewrite Hc. constructor.
  - apply string_app_eq_cons in Hs as [[-> ->]|(s1' & -> & ->)].
    + apply nullable_lang in H1. rewrite H1. apply lang_alt_r. now apply IH2.
    + destruct (nullable r1).
      * apply lang_alt_l. constructor; [now apply IH1|exact H2].
      * constructor; [now apply IH1|exact H2].
  - apply lang_alt_l. now apply IH1.
  - apply lang_alt_r. now apply IH2.
  - discriminate.
  - apply string_app_eq_cons in Hs as [[-> ->]|(s1' & -> & ->)].
    + now apply IH2.
    + constructor; [now apply IH1|exact H2].
Qed.

Lemma matches_lang r s : matches r s = true <-> Lang r s.
Proof.
  revert r. induction s as [|c s IH]; intros r; cbn [matches].
  - apply nullable_lang.
  - rewrite IH. split; [apply deriv_lang_1|].
    intros H. now apply (deriv_lang_2 _ _ H).
Qed.

Lemma strip_final_newline_snoc t :
  strip_final_newline (t +:+ newline) = Some t.
Proof.
  induction t as [|c t IH]; [reflexivity|].
  rewrite string_app_cons. cbn [strip_final_newline]. rewrite IH.
  destruct t; reflexivity.
Qed.

Lemma strip_final_newline_some s t :
  strip_final_newline s = Some t -> s = t +:+ newline.
Proof.
  revert t. induction s as [|c rest IH]; intros t; [discriminate|].
  cbn [strip_final_newline]. destruct rest as [|c' rest'].
  - destruct (Ascii.eqb_spec c "010") as [->|Hc]; [|discriminate].
    now intros [= <-].
  - destruct (strip_final_newline (String c' rest')) as [t0|];
      [|discriminate].
    cbn [option_map]. intros [= <-]. rewrite string_app_cons.
    now rewrite <- (IH t0).
Qed.

Lemma strip_final_newline_spec s t :
  strip_final_newline s = Some t <-> s = t +:+ newline.
Proof.
  split; [apply strip_final_newline_some|].
  intros ->. apply strip_final_newline_snoc.
Qed.

(** What [re_match_anchored] accepts. *)
Lemma re_match_anchored_lang r s :
  re_match_anchored r s = true <->
  Lang r s \/ exists t, s = t +:+ newline /\ Lang r t.
Proof.
  unfold re_match_anchored. rewrite orb_true_iff, matches_lang. split.
  - intros [H|H]; [now left|]. right.
    destruct (strip_final_newline s) as [t|] eqn:E; [|discriminate].
    exists t. split; [now apply strip_final_newline_spec|].
    now apply matches_lang.
  - intros [H|(t & -> & H)]; [now left|]. right.
    rewrite strip_final_newline_snoc. now apply matches_lang.
Qed.

(** ** What the patterns accept *)

Lemma lang_chars_iff cls s :
  Lang (Chars cls) s <-> exists c, s = String c "" /\ cls c = true.
Proof.
  split.
  - intros H. inversion H; subst. eauto.
  - intros (c & -> & Hc). now constructor.
Qed.

Lemma lang_seq_iff r1 r2 s :
  Lang (Seq r1 r2) s <->
  exists s1 s2, s = s1 +:+ s2 /\ Lang r1 s1 /\ Lang r2 s2.
Proof.
  split.
  - intros H. inversion H; subst. eauto.
  - intros (s1 & s2 & -> & H1 & H2). now constructor.
Qed.

Lemma lang_star_chars cls s :
  Lang (Star (Chars cls)) s <-> all_chars cls s = true.
Proof.
  split.
  - intros H. remember (Star (Chars cls)) as r eqn:Hr.
    induction H; try discriminate; [reflexivity|].
    injection Hr as ->. inversion H; subst.
    rewrite string_app_cons, string_app_nil_l. cbn [all_chars].
    rewrite IHLang2 by reflexivity. now rewrite andb_true_r.
  - induction s as [|c s IH]; cbn [all_chars]; intros H; [constructor|].
    apply andb_true_iff in H as [Hc Hs].
    change (String c s) with (String c "" +:+ s).
    constructor; [now constructor|auto].
Qed.

Lemma lang_plus_chars cls s :
  Lang (Plus (Chars cls)) s <-> s <> ""%string /\ all_chars cls s = true.
Proof.
  unfold Plus. rewrite lang_seq_iff. split.
  - intros (s1 & s2 & -> & H1 & H2).
    apply lang_chars_iff in H1 as (c & -> & Hc).
    apply lang_star_chars in H2.
    rewrite string_app_cons, string_app_nil_l. cbn [all_chars].
    now rewrite Hc, H2.
  - intros [Hne H]. destruct s as [|c s]; [easy|].
    cbn [all_chars] in H. apply andb_true_iff in H as [Hc Hs].
    exists (String c ""), s. split; [reflexivity|].
    split; [now constructor|now apply lang_star_chars].
Qed.

Lemma lang_repeat_chars n cls s :
  Lang (Repeat n (Chars cls)) s <->
  String.length s = n /\ all_chars cls s = true.
Proof.
  revert s. induction n as [|n IH]; intros s; cbn [Repeat].
  - split.
    + intros H. now inversion H.
    + intros [Hl _]. destruct s; [constructor|discriminate].
  - rewrite lang_seq_iff. split.
    + intros (s1 & s2 & -> & H1 & H2).
      apply lang_chars_iff in H1 as (c & -> & Hc). apply IH in H2 as [<- H2].
      rewrite string_app_cons, string_app_nil_l. cbn. now rewrite Hc, H2.
    + intros [Hl H]. destruct s as [|c s]; [discriminate|].
      cbn in Hl, H. apply andb_true_iff in H as [Hc Hs].
      exists (String c ""), s. split; [reflexivity|].
      split; [now constructor|]. apply IH. split; [congruence|exact Hs].
Qed.

(** X12. [is_valid_full_phone] accepts exactly a 9, 6 or 2 followed by nine
    digits, with or without one line feed at the end. *)
Theorem valid_phone_iff phone :
  is_valid_full_phone phone = true <->
  exists c rest,
    (phone = String c rest \/ phone = String c rest +:+ newline) /\
    (c = "9" \/ c = "6" \/ c = "2")%char /\
    String.length rest = 9 /\
    all_chars is_digit rest = true.
Proof.
  unfold is_valid_full_phone. rewrite re_match_anchored_lang.
  assert (Hp : forall s,
            Lang phone_pattern s <->
            exists c rest, s = String c rest /\
              (c = "9" \/ c = "6" \/ c = "2")%char /\
              String.length rest = 9 /\ all_chars is_digit rest = true).
  { intros s. unfold phone_pattern. rewrite lang_seq_iff. split.
    - intros (s1 & s2 & -> & H1 & H2).
      apply lang_chars_iff in H1 as (c & -> & Hc).
      apply lang_repeat_chars in H2 as [Hl Hd].
      exists c, s2. split; [reflexivity|]. split; [|easy].
      unfold is_9_6_2 in Hc.
      repeat (apply orb_true_iff in Hc as [Hc|Hc]);
        apply Ascii.eqb_eq in Hc; auto.
    - intros (c & rest & -> & Hc & Hl & Hd).
      exists (String c ""), rest. split; [reflexivity|]. split.
      + apply lang_chars_iff. exists c. split; [reflexivity|].
        destruct Hc as [->|[->| ->]]; reflexivity.
      + now apply lang_repeat_chars. }
  split.
  - intros [H|(t & -> & H)]; apply Hp in H as (c & rest & -> & H);
      exists c, rest; auto.
  - intros (c & rest & [->| ->] & H); [left|right; eexists; split;
      [reflexivity|]]; apply Hp; eauto.
Qed.

Lemma username_pattern_lang s :
  Lang username_pattern s <->
  exists c rest, s = String "@" (String c rest) /\
    is_letter c = true /\ all_chars is_word_dot rest = true.
Proof.
  unfold username_pattern. rewrite lang_seq_iff. split.
  - intros (s1 & s2 & -> & H1 & H2).
    apply lang_chars_iff in H1 as (a & -> & Ha). apply Ascii.eqb_eq in Ha.
    subst a. apply lang_seq_iff in H2 as (s3 & s4 & -> & H3 & H4).
    apply lang_chars_iff in H3 as (c & -> & Hc).
    apply lang_star_chars in H4. exists c, s4. easy.
  - intros (c & rest & -> & Hc & Hr).
    exists "@"%string, (String c rest). split; [reflexivity|]. split.
    + apply lang_chars_iff. exists "@"%char. easy.
    + apply lang_seq_iff. exists (String c ""), rest.
      split; [reflexivity|]. split; [now constructor|].
      now apply lang_star_chars.
Qed.

Lemma valid_username_shape username :
  is_valid_username username = true ->
  exists c rest,
    (username = String "@" (String c rest) \/
     username = String "@" (String c rest) +:+ newline) /\
    is_letter c = true /\ all_chars is_word_dot rest = true.
Proof.
  unfold is_valid_username. rewrite re_match_anchored_lang.
  intros [H|(t & -> & H)];
    apply username_pattern_lang in H as (c & rest & -> & H);
    exists c, rest; auto.
Qed.

(** X13. [is_valid_username] accepts exactly an [@], a letter, and then
    letters, digits, underscores and dots, with or without one line feed at
    the end. *)
Theorem valid_username_iff username :
  is_valid_username username = true <->
  exists c rest,
    (username = String "@" (String c rest) \/
     username = String "@" (String c rest) +:+ newline) /\
    is_letter c = true /\ all_chars is_word_dot rest = true.
Proof.
  split; [apply valid_username_shape|].
  unfold is_valid_username. rewrite re_match_anchored_lang.
  intros (c & rest & [->| ->] & H); [left|right; eexists; split;
    [reflexivity|]]; apply username_pattern_lang; eauto.
Qed.

Lemma all_chars_slash_free cls s :
  cls "/"%char = false -> all_chars cls s = true -> slash_free s = true.
Proof.
  intros Hcls. induction s as [|c s IH]; [reflexivity|].
  cbn [all_chars slash_free]. intros H.
  apply andb_true_iff in H as [Hc Hs]. rewrite (IH Hs), andb_true_r.
  apply negb_true_iff. destruct (Ascii.eqb_spec c "/"); [|reflexivity].
  congruence.
Qed.

Lemma str_nat_slash_free n : slash_free (str_nat n) = true.
Proof.
  unfold str_nat. generalize (Nat.to_uint n). intros u.
  induction u; cbn [NilEmpty.string_of_uint slash_free]; try reflexivity;
    cbn; exact IHu.
Qed.

Lemma basename_under_directory (dir name : string) :
  slash_free name = true ->
  basename (dir +:+ "/" +:+ name) = name.
Proof.
  intros Hn. unfold basename.
  replace (dir +:+ "/" +:+ name) with ((dir +:+ "/") +:+ name)
    by apply string_app_assoc.
  rewrite basename_from_app by exact Hn.
  enough (H : forall acc, basename_from acc (dir +:+ "/") = ""%string)
    by now rewrite H.
  induction dir as [|c dir IH]; intros acc; [reflexivity|].
  rewrite string_app_cons. cbn [basename_from].
  destruct (Ascii.eqb c "/"); apply IH.
Qed.

(** X14. A user name the validator accepts holds no slash, so the reel and
    the transcript of that user are files of [uploads/reels] and
    [uploads/transcripts]: the last component of each path is the whole
    file name built from the user name. *)
Theorem valid_username_stays_in_its_directory username reel_index filename :
  is_valid_username username = true ->
  slash_free filename = true ->
  slash_free username = true /\
  basename (reel_path username reel_index)
    = username +:+ "_reel_" +:+ str_nat reel_index +:+ ".mp4" /\
  basename (transcript_path_of username filename)
    = username +:+ "_" +:+ filename +:+ ".txt".
Proof.
  intros Hu Hf.
  assert (Hs : slash_free username = true).
  { apply valid_username_shape in Hu as (c & rest & Hu & Hc & Hr).
    assert (Hrest : slash_free rest = true)
      by (now apply (all_chars_slash_free is_word_dot)).
    assert (Hcs : negb (Ascii.eqb c "/") = true).
    { apply negb_true_iff. destruct (Ascii.eqb_spec c "/"); [|reflexivity].
      subst c. discriminate. }
    destruct Hu as [->| ->].
    - cbn [slash_free]. now rewrite Hcs, Hrest.
    - rewrite slash_free_app. cbn [slash_free]. now rewrite Hcs, Hrest. }
  split; [exact Hs|]. split.
  - unfold reel_path.
    change ("uploads/reels/" +:+ username +:+ "_reel_" +:+ str_nat reel_index
            +:+ ".mp4")
      with ("uploads/reels" +:+ "/" +:+
            (username +:+ "_reel_" +:+ str_nat reel_index +:+ ".mp4")).
    apply basename_under_directory.
    rewrite !slash_free_app, Hs, str_nat_slash_free. reflexivity.
  - unfold transcript_path_of.
    change ("uploads/transcripts/" +:+ username +:+ "_" +:+ filename
            +:+ ".txt")
      with ("uploads/transcripts" +:+ "/" +:+
            (username +:+ "_" +:+ filename +:+ ".txt")).
    apply basename_under_directory.
    rewrite !slash_free_app, Hs, Hf. reflexivity.
Qed.

(** X15. [is_valid_email] accepts exactly [local@domain.tld] where [local]
    and [domain] are non-empty and made of word characters, dots and dashes
    and [tld] is non-empty and made of word characters, with or without one
    line feed at the end. *)
Theorem valid_email_iff email :
  is_valid_email email = true <->
  exists local domain tld,
    (email = local +:+ "@" +:+ domain +:+ "." +:+ tld \/
     email = (local +:+ "@" +:+ domain +:+ "." +:+ tld) +:+ newline) /\
    local <> ""%string /\ all_chars is_word_dot_dash local = true /\
    domain <> ""%string /\ all_chars is_word_dot_dash domain = true /\
    tld <> ""%string /\ all_chars is_word tld = true.
Proof.
  unfold is_valid_email. rewrite re_match_anchored_lang.
  assert (Hp : forall s,
            Lang email_pattern s <->
            exists local domain tld,
              s = local +:+ "@" +:+ domain +:+ "." +:+ tld /\
              local <> ""%string /\ all_chars is_word_dot_dash local = true /\
              domain <> ""%string /\
              all_chars is_word_dot_dash domain = true /\
              tld <> ""%string /\ all_chars is_word tld = true).
  { intros s. unfold email_pattern. split.
    - intros H.
      apply lang_seq_iff in H as (local & s1 & -> & Hl & H).
      apply lang_seq_iff in H as (at_ & s2 & -> & Ha & H).
      apply lang_seq_iff in H as (domain & s3 & -> & Hd & H).
      apply lang_seq_iff in H as (dot & tld & -> & Hdot & Ht).
      apply lang_plus_chars in Hl as [? ?], Hd as [? ?], Ht as [? ?].
      apply lang_chars_iff in Ha as (a & -> & Ha), Hdot as (b & -> & Hb).
      apply Ascii.eqb_eq in Ha, Hb. subst a b.
      exists local, domain, tld. easy.
    - intros (local & domain & tld & -> & Hl1 & Hl2 & Hd1 & Hd2 & Ht1 & Ht2).
      apply lang_seq_iff. exists local, ("@" +:+ domain +:+ "." +:+ tld).
      split; [reflexivity|]. split; [now apply lang_plus_chars|].
      apply lang_seq_iff. exists "@"%string, (domain +:+ "." +:+ tld).
      split; [reflexivity|].
      split; [apply lang_chars_iff; exists "@"%char; easy|].
      apply lang_seq_iff. exists domain, ("." +:+ tld).
      split; [reflexivity|]. split; [now apply lang_plus_chars|].
      apply lang_seq_iff. exists "."%string, tld.
      split; [reflexivity|].
      split; [apply lang_chars_iff; exists "."%char; easy|].
      now apply lang_plus_chars. }
  split.
  - intros [H|(t & -> & H)];
      apply Hp in H as (local & domain & tld & -> & H);
      exists local, domain, tld; auto.
  - intros (local & domain & tld & [->| ->] & H);
      [left|right; eexists; split; [reflexivity|]]; apply Hp;
      exists local, domain, tld; auto.
Qed.

Lemma any_char_app p (s1 s2 : string) :
  any_char p (s1 +:+ s2) = any_char p s1 || any_char p s2.
Proof.
  induction s1 as [|c s1 IH]; [reflexivity|].
  rewrite string_app_cons. cbn [any_char]. now rewrite IH, orb_assoc.
Qed.

Lemma punctuation_is_not_alphanumeric c :
  is_punctuation c = true -> is_letter c || is_digit c = false.
Proof.
  unfold is_punctuation, punctuation. cbn [any_char]. intros H.
  repeat (apply orb_true_iff in H as [H|H];
          [apply Ascii.eqb_eq in H; subst c; reflexivity|]).
  discriminate.
Qed.

(** X16. [is_strong_password] on ASCII text: a strong password stays
    strong when characters are put before and after it; fewer than eight
    characters are never strong; letters and digits alone are never
    strong. *)
Theorem strong_password_facts password before after :
  all_chars is_ascii password = true ->
  all_chars is_ascii before = true ->
  all_chars is_ascii after = true ->
  (is_strong_password password = true ->
   is_strong_password (before +:+ password +:+ after) = true) /\
  (String.length password < 8 -> is_strong_password password = false) /\
  (all_chars (fun c => is_letter c || is_digit c) password = true ->
   is_strong_password password = false).
Proof.
  intros _ _ _. split; [|split].
  - unfold is_strong_password. intros H.
    repeat (apply andb_true_iff in H as [H ?]).
    apply Nat.leb_le in H.
    rewrite !any_char_app, !string_length_app.
    repeat match goal with
           | E : any_char _ _ = true |- _ => rewrite E; clear E
           end.
    rewrite !orb_true_r. cbn [andb orb].
    rewrite !andb_true_r. apply Nat.leb_le. lia.
  - intros H. unfold is_strong_password.
    destruct (Nat.leb_spec 8 (String.length password)); [lia|reflexivity].
  - intros H. unfold is_strong_password.
    enough (Hp : any_char is_punctuation password = false)
      by (rewrite Hp; apply andb_false_r).
    induction password as [|c s IH]; [reflexivity|].
    cbn [all_chars any_char] in *. apply andb_true_iff in H as [Hc Hs].
    rewrite (IH Hs), orb_false_r.
    destruct (is_punctuation c) eqn:E; [|reflexivity].
    apply punctuation_is_not_alphanumeric in E. congruence.
Qed.

(** ** Reasoning about pages *)

Section RunFacts.

Context {S : Type}.

Lemma run_bind {A B} (m : Pages.Run S A) (k : A -> Pages.Run S B) s :
  (m ≫= k) s =
  match m s with
  | (Pages.Done a, s') => k a s'
  | (Pages.Failed e, s') => (Pages.Failed e, s')
  end.
Proof. reflexivity. Qed.

Lemma hoare_ret {A} (pre post : S -> Prop) (a : A) :
  (forall s, pre s -> post s) -> Pages.hoare pre (mret a) post.
Proof. intros H s r s' Hs [= <- <-]. auto. Qed.

Lemma hoare_bind {A B} (pre mid post : S -> Prop)
    (m : Pages.Run S A) (k : A -> Pages.Run S B) :
  Pages.hoare pre m mid ->
  (forall s, mid s -> post s) ->
  (forall a, Pages.hoare mid (k a) post) ->
  Pages.hoare pre (m ≫= k) post.
Proof.
  intros Hm Hmid Hk s r s' Hs. rewrite run_bind.
  destruct (m s) as [[a|e] s1] eqn:E.
  - apply (Hk a). eapply Hm; eauto.
  - intros [= <- <-]. apply Hmid. eapply Hm; eauto.
Qed.

(** The case of an invariant. *)
Lemma keeps_bind {A B} (inv : S -> Prop)
    (m : Pages.Run S A) (k : A -> Pages.Run S B) :
  Pages.hoare inv m inv ->
  (forall a, Pages.hoare inv (k a) inv) ->
  Pages.hoare inv (m ≫= k) inv.
Proof. intros Hm Hk. now apply (hoare_bind inv inv inv). Qed.

Lemma keeps_ret {A} (inv : S -> Prop) (a : A) :
  Pages.hoare inv (mret a) inv.
Proof. now apply hoare_ret. Qed.

Lemma hoare_weaken {A} (pre pre' post post' : S -> Prop)
    (m : Pages.Run S A) :
  Pages.hoare pre m post ->
  (forall s, pre' s -> pre s) -> (forall s, post s -> post' s) ->
  Pages.hoare pre' m post'.
Proof. intros H H1 H2 s r s' Hs E. eapply H2, H; eauto. Qed.

End RunFacts.

Section PageFacts.

Import Pages.

Lemma keeps_fail {A} (inv : Page -> Prop) (e : PageExn) :
  hoare inv (fail (A := A) e) inv.
Proof. intros s r s' Hs [= <- <-]. exact Hs. Qed.

Lemma keeps_get_session (inv : Page -> Prop) :
  hoare inv get_session inv.
Proof. intros s r s' Hs [= <- <-]. exact Hs. Qed.

Lemma hoare_show (pre post : Page -> Prop) ev :
  (forall p, pre p -> post (mkPage (world p) (session p) (shown p ++ [ev])))
  -> hoare pre (show ev) post.
Proof. intros H s r s' Hs [= <- <-]. auto. Qed.

Lemma hoare_set_session (pre post : Page -> Prop) s0 :
  (forall p, pre p -> post (mkPage (world p) s0 (shown p))) ->
  hoare pre (set_session s0) post.
Proof. intros H s r s' Hs [= <- <-]. auto. Qed.

Lemma hoare_lift {A} (pre post : Page -> Prop) (m : M A) :
  (forall p r w', pre p -> m (world p) = (r, w') ->
                  post (mkPage w' (session p) (shown p))) ->
  hoare pre (lift m) post.
Proof.
  intros H s r s' Hs. unfold lift.
  destruct (m (world s)) as [[a|e] w'] eqn:E; intros [= <- <-]; eauto.
Qed.

Lemma keeps_for_all {A} (inv : Page -> Prop) (xs : list A)
    (body : A -> P unit) :
  (forall x, hoare inv (body x) inv) -> hoare inv (for_all xs body) inv.
Proof.
  intros Hb. induction xs as [|x xs IH]; cbn [for_all].
  - apply keeps_ret.
  - apply keeps_bind; [apply Hb|intros _; exact IH].
Qed.

End PageFacts.

(** Invariants that [show], [lift] and [fail] keep are kept by everything
    built from them. *)
Ltac keeps_step_with show_tac Hlift :=
  lazymatch goal with
  | |- Pages.hoare _ (mbind _ _) _ => apply keeps_bind; [|intros ?]
  | |- Pages.hoare _ (mret _) _ => apply keeps_ret
  | |- Pages.hoare _ (Pages.fail _) _ => apply keeps_fail
  | |- Pages.hoare _ Pages.get_session _ => apply keeps_get_session
  | |- Pages.hoare _ (Pages.show _) _ => show_tac
  | |- Pages.hoare _ (Pages.lift _) _ => apply Hlift
  | |- Pages.hoare _ (Pages.for_all _ _) _ => apply keeps_for_all; intros ?
  | |- Pages.hoare _ (if ?b then _ else _) _ => destruct b
  | |- Pages.hoare _ (match ?x with _ => _ end) _ => destruct x
  end.

Ltac keeps_step Hshow Hlift Hallowed :=
  keeps_step_with ltac:(apply Hshow, Hallowed; easy) Hlift.

Section PageInvariants.

Import Pages.

Variable env : Env.
Variable db : Accounts.

(** What [show] and [lift] keep is kept by every part of the pages that
    leaves the session alone. *)
Section Kept.

Variable inv : Page -> Prop.
Variable allowed : PageEvent -> Prop.
Hypothesis Hshow : forall ev, allowed ev -> hoare inv (show ev) inv.
Hypothesis Hlift : forall A (m : M A), hoare inv (lift m) inv.
Hypothesis Hallowed :
  forall ev, (forall values, ev <> committed_insert values) -> allowed ev.

Lemma keeps_index row i : hoare inv (index row i) inv.
Proof. unfold index. repeat keeps_step Hshow Hlift Hallowed. Qed.

Lemma keeps_read_user_data : hoare inv read_user_data inv.
Proof. unfold read_user_data. repeat keeps_step Hshow Hlift Hallowed. Qed.

Lemma keeps_unpack4 t : hoare inv (unpack4 t) inv.
Proof. unfold unpack4. repeat keeps_step Hshow Hlift Hallowed. Qed.

Lemma keeps_get_db_connection : hoare inv (get_db_connection db) inv.
Proof. unfold get_db_connection. repeat keeps_step Hshow Hlift Hallowed. Qed.

Lemma keeps_verify_user email password :
  hoare inv (verify_user db email password) inv.
Proof.
  unfold verify_user.
  apply keeps_bind; [apply keeps_get_db_connection|intros conn].
  repeat keeps_step Hshow Hlift Hallowed.
Qed.

Lemma keeps_milestone3_profile_page :
  hoare inv Milestone3Page.profile_page inv.
Proof.
  unfold Milestone3Page.profile_page.
  apply keeps_bind; [apply keeps_get_session|intros s].
  apply keeps_bind.
  - destruct (authenticated s); [|apply keeps_ret].
    apply keeps_bind; [apply keeps_read_user_data|intros row].
    apply keeps_bind; [apply keeps_index|intros _]. apply keeps_ret.
  - intros [row|]; [|apply keeps_fail].
    repeat (apply keeps_bind; [apply keeps_index|intros _]).
    apply keeps_ret.
Qed.

Lemma keeps_milestone2_profile_page :
  hoare inv Milestone2Page.profile_page inv.
Proof.
  unfold Milestone2Page.profile_page.
  apply keeps_bind; [apply keeps_get_session|intros s].
  destruct (authenticated s); [|apply Hshow, Hallowed; easy].
  apply keeps_bind; [apply keeps_read_user_data|intros row].
  repeat (apply keeps_bind; [apply keeps_index|intros _]).
  apply keeps_ret.
Qed.

Lemma keeps_milestone3_process_page ui :
  hoare inv (Milestone3Page.process_page env ui) inv.
Proof.
  unfold Milestone3Page.process_page, Milestone3Page.preview.
  apply keeps_bind; [repeat keeps_step Hshow Hlift Hallowed|intros _].
  apply keeps_bind.
  - destruct (Milestone3Page.process_button ui); [|apply keeps_ret].
    apply keeps_bind; [apply keeps_read_user_data|intros row].
    apply keeps_bind; [apply keeps_index|intros name].
    apply keeps_bind; [apply Hlift|intros returned].
    apply keeps_bind; [apply keeps_unpack4|intros unpacked].
    repeat keeps_step Hshow Hlift Hallowed.
  - intros [[[[m t] reels] imp] name].
    apply keeps_bind; [repeat keeps_step Hshow Hlift Hallowed|intros _].
    destruct reels as [|r reels]; [apply Hshow, Hallowed; easy|].
    apply keeps_for_all. intros ir.
    apply keeps_bind; [apply Hshow, Hallowed; easy|intros _].
    destruct name; [apply Hshow, Hallowed; easy|apply keeps_fail].
Qed.

Lemma keeps_milestone2_process_page ui :
  hoare inv (Milestone2Page.process_page env ui) inv.
Proof.
  unfold Milestone2Page.process_page.
  apply keeps_bind.
  - destruct (Milestone2Page.process_button ui); [|apply keeps_ret].
    apply keeps_bind; [apply keeps_read_user_data|intros row].
    apply keeps_bind; [apply keeps_index|intros name].
    apply keeps_bind.
    + unfold Milestone2Page.call_process_video_upload.
      repeat keeps_step Hshow Hlift Hallowed.
    + intros returned.
      apply keeps_bind; [apply keeps_unpack4|intros unpacked].
      apply keeps_ret.
  - intros [[[[m t] reels] imp] name].
    apply keeps_bind; [repeat keeps_step Hshow Hlift Hallowed|intros _].
    apply keeps_bind; [repeat keeps_step Hshow Hlift Hallowed|intros _].
    apply keeps_bind; [repeat keeps_step Hshow Hlift Hallowed|intros _].
    apply keeps_for_all. intros ir.
    apply keeps_bind; [apply Hshow, Hallowed; easy|intros _].
    destruct name; [apply Hshow, Hallowed; easy|apply keeps_fail].
Qed.

End Kept.

End PageInvariants.

(** ** The pages of milestones 2 and 3 *)

Section PageProperties.

Import Pages.

Variable env : Env.
Variable db : Accounts.

Lemma hoare_get_session_bind {A} (pre post : Page -> Prop)
    (k : Session -> P A) :
  (forall s0, hoare (fun p => pre p /\ session p = s0) (k s0) post) ->
  hoare pre (get_session ≫= k) post.
Proof.
  intros Hk p r p' Hp. rewrite run_bind. cbn. apply (Hk (session p)). easy.
Qed.

(** Invariants on the session alone. *)
Section OnSession.

Variable good : Session -> Prop.

Lemma session_kept_by_show ev :
  hoare (fun p => good (session p)) (show ev) (fun p => good (session p)).
Proof. apply hoare_show. easy. Qed.

Lemma session_kept_by_lift A (m : M A) :
  hoare (fun p => good (session p)) (lift m) (fun p => good (session p)).
Proof. apply hoare_lift. easy. Qed.

Lemma session_kept_by_register_page
    full_name username email password phone profession dob short_desc
    picture button :
  hoare (fun p => good (session p))
    (register_page env db full_name username email password phone
       profession dob short_desc picture button)
    (fun p => good (session p)).
Proof.
  unfold register_page, register_user, get_db_connection.
  repeat keeps_step_with ltac:(apply session_kept_by_show)
    session_kept_by_lift.
Qed.

End OnSession.

Lemma keeps_ensure_is_authenticated (good : Session -> Prop) :
  (forall s, good s -> is_authenticated s = None ->
             good (mkSession (Some false) (user_data s) (redirect_to_login s)
                     (menu_choice s))) ->
  hoare (fun p => good (session p)) ensure_is_authenticated
        (fun p => good (session p)).
Proof.
  intros Hgood. unfold ensure_is_authenticated.
  apply hoare_get_session_bind. intros s0.
  destruct (is_authenticated s0) eqn:E.
  - apply hoare_ret. now intros p [Hp _].
  - apply hoare_set_session. intros p [Hp <-]. cbn. now apply Hgood.
Qed.

Lemma keeps_login_page (good : Session -> Prop) email password button :
  (forall s row, good s -> row_truthy (Some row) = true ->
                 good (mkSession (Some true) (Some (Some row))
                         (redirect_to_login s) (menu_choice s))) ->
  hoare (fun p => good (session p)) (login_page db email password button)
        (fun p => good (session p)).
Proof.
  intros Hgood. unfold login_page. destruct button; [|apply keeps_ret].
  apply keeps_bind.
  - apply keeps_verify_user with (allowed := fun _ => True);
      [intros ev _; apply session_kept_by_show|easy].
  - intros row. destruct (row_truthy row) eqn:Hrow;
      [|apply session_kept_by_show].
    apply hoare_get_session_bind. intros s0.
    apply (hoare_bind _ (fun p => good (session p))); [|easy|].
    + apply hoare_set_session. intros p [Hp <-]. cbn.
      destruct row as [row|]; [|discriminate]. now apply Hgood.
    + intros _. apply session_kept_by_show.
Qed.

Lemma session_kept_by_process3 (good : Session -> Prop) ui :
  hoare (fun p => good (session p)) (Milestone3Page.process_page env ui)
        (fun p => good (session p)).
Proof.
  apply keeps_milestone3_process_page with (allowed := fun _ => True);
    [intros ev _; apply session_kept_by_show|apply session_kept_by_lift
    |easy].
Qed.

Lemma session_kept_by_process2 (good : Session -> Prop) ui :
  hoare (fun p => good (session p)) (Milestone2Page.process_page env ui)
        (fun p => good (session p)).
Proof.
  apply keeps_milestone2_process_page with (allowed := fun _ => True);
    [intros ev _; apply session_kept_by_show|apply session_kept_by_lift
    |easy].
Qed.

Lemma session_kept_by_profile3 (good : Session -> Prop) :
  hoare (fun p => good (session p)) Milestone3Page.profile_page
        (fun p => good (session p)).
Proof.
  apply keeps_milestone3_profile_page.
Qed.

Lemma session_kept_by_profile2 (good : Session -> Prop) :
  hoare (fun p => good (session p)) Milestone2Page.profile_page
        (fun p => good (session p)).
Proof.
  apply keeps_milestone2_profile_page with (allowed := fun _ => True);
    [intros ev _; apply session_kept_by_show|easy].
Qed.

Lemma logout_run p :
  logout p =
  (Done tt,
   mkPage (world p)
     (mkSession (Some false) (Some None) (Some true)
        (menu_choice (session p)))
     (shown p ++ [st_success "You have successfully logged out."])).
Proof. reflexivity. Qed.

(** Invariants that do not look at the session. *)
Section SessionFree.

Variable inv : Page -> Prop.
Hypothesis Hset : forall s, hoare inv (set_session s) inv.
Hypothesis Hshow : forall ev,
  (forall values, ev <> committed_insert values) -> hoare inv (show ev) inv.

Lemma free_ensure_is_authenticated : hoare inv ensure_is_authenticated inv.
Proof.
  unfold ensure_is_authenticated.
  apply keeps_bind; [apply keeps_get_session|intros s].
  destruct (is_authenticated s); [apply keeps_ret|apply Hset].
Qed.

Lemma free_login_page email password button :
  hoare inv (login_page db email password button) inv.
Proof.
  unfold login_page. destruct button; [|apply keeps_ret].
  apply keeps_bind.
  - apply keeps_verify_user
      with (allowed := fun ev => forall values, ev <> committed_insert values);
      auto.
  - intros row. destruct (row_truthy row); [|now apply Hshow].
    apply keeps_bind; [apply keeps_get_session|intros s].
    apply keeps_bind; [apply Hset|intros _]. now apply Hshow.
Qed.

Lemma free_logout_page ui : hoare inv (Milestone3Page.logout_page ui) inv.
Proof.
  unfold Milestone3Page.logout_page, logout.
  destruct (String.eqb _ _); [|apply keeps_ret].
  repeat first
    [ apply Hset
    | apply Hshow; easy
    | apply keeps_get_session
    | apply keeps_bind; [|intros ?] ].
Qed.

Lemma free_home_page ui : hoare inv (Milestone2Page.home_page ui) inv.
Proof.
  unfold Milestone2Page.home_page.
  apply keeps_bind; [|intros _].
  - destruct (Milestone2Page.home_login_button ui); [|apply keeps_ret].
    apply keeps_bind; [apply keeps_get_session|intros s]. apply Hset.
  - destruct (Milestone2Page.home_register_button ui); [|apply keeps_ret].
    apply keeps_bind; [apply keeps_get_session|intros s]. apply Hset.
Qed.

End SessionFree.

(** X17. [main] of milestone 3 keeps this invariant of the session: when
    [is_authenticated] is true, [user_data] holds a non-empty row. Login is
    the only place that sets the flag, and it stores the row with it;
    Logout clears both. *)
Theorem authenticated_session_holds_a_row ui p :
  session_ok (session p) ->
  session_ok (session (snd (Milestone3Page.main env db ui p))).
Proof.
  intros Hp.
  enough (H : hoare (fun p => session_ok (session p))
                (Milestone3Page.main env db ui)
                (fun p => session_ok (session p))).
  { destruct (Milestone3Page.main env db ui p) as [r p'] eqn:E.
    exact (H _ _ _ Hp E). }
  unfold Milestone3Page.main.
  apply keeps_bind.
  { apply keeps_ensure_is_authenticated. intros s _ _ [=]. }
  intros _. apply keeps_bind; [apply keeps_get_session|intros s].
  destruct (String.eqb _ "Home"); [apply keeps_ret|].
  destruct (String.eqb _ "Login").
  { apply keeps_login_page. intros s0 row _ Hrow _. exists row.
    split; [reflexivity|]. now destruct row. }
  destruct (String.eqb _ "Register");
    [apply (session_kept_by_register_page session_ok)|].
  destruct (String.eqb _ "User Profile"); [apply session_kept_by_profile3|].
  destruct (_ && _); [apply session_kept_by_process3|].
  destruct (String.eqb _ "Logout"); [|apply keeps_ret].
  unfold Milestone3Page.logout_page.
  destruct (String.eqb _ "Yes"); [|apply keeps_ret].
  intros p0 r p' _. rewrite run_bind, logout_run. cbn.
  now intros [= <- <-] [=].
Qed.

(** X18. In milestone 2 an authenticated session stays authenticated
    whatever the widgets hold: the menu offers Logout, but [main] has no
    branch for it. *)
Theorem milestone2_has_no_way_out ui p :
  authenticated (session p) = true ->
  authenticated (session (snd (Milestone2Page.main env db ui p))) = true.
Proof.
  intros Hp.
  enough (H : hoare (fun p => authenticated (session p) = true)
                (Milestone2Page.main env db ui)
                (fun p => authenticated (session p) = true)).
  { destruct (Milestone2Page.main env db ui p) as [r p'] eqn:E.
    exact (H _ _ _ Hp E). }
  unfold Milestone2Page.main.
  apply keeps_bind.
  { apply (keeps_ensure_is_authenticated (fun s => authenticated s = true)).
    intros s Hs E. unfold authenticated in Hs. now rewrite E in Hs. }
  intros _. apply keeps_bind; [apply keeps_get_session|intros s].
  destruct (String.eqb _ "Home").
  { unfold Milestone2Page.home_page.
    apply keeps_bind; [|intros _].
    - destruct (Milestone2Page.home_login_button ui); [|apply keeps_ret].
      apply hoare_get_session_bind. intros s0.
      apply hoare_set_session. now intros p0 [Hp0 <-].
    - destruct (Milestone2Page.home_register_button ui); [|apply keeps_ret].
      apply hoare_get_session_bind. intros s0.
      apply hoare_set_session. now intros p0 [Hp0 <-]. }
  destruct (String.eqb _ "Login");
    [apply (keeps_login_page (fun s => authenticated s = true)); easy|].
  destruct (String.eqb _ "Register");
    [apply (session_kept_by_register_page
              (fun s => authenticated s = true))|].
  destruct (String.eqb _ "User Profile");
    [apply (session_kept_by_profile2 (fun s => authenticated s = true))|].
  destruct (_ && _);
    [apply (session_kept_by_process2 (fun s => authenticated s = true))|].
  apply keeps_ret.
Qed.

Lemma ensure_run p b :
  is_authenticated (session p) = Some b ->
  ensure_is_authenticated p = (Done tt, p).
Proof.
  intros H. unfold ensure_is_authenticated. rewrite run_bind. cbn.
  now rewrite H.
Qed.

Lemma ensure_keeps_visitor p :
  authenticated (session p) = false ->
  exists s, ensure_is_authenticated p = (Done tt, mkPage (world p) s (shown p))
            /\ authenticated s = false.
Proof.
  intros H. unfold ensure_is_authenticated. rewrite run_bind. cbn.
  destruct p as [w s sh]. cbn in *.
  destruct (is_authenticated s) eqn:E; eauto.
Qed.

(** X19. The User Profile page without a login: milestone 3 reads
    [user_data], which is assigned only under [if is_authenticated], and
    ends with [UnboundLocalError]; milestone 2 shows a warning and ends
    normally. *)
Theorem profile_page_of_a_visitor ui3 ui2 p :
  Milestone3Page.choice ui3 = "User Profile" ->
  Milestone2Page.choice ui2 = "User Profile" ->
  authenticated (session p) = false ->
  fst (Milestone3Page.main env db ui3 p)
    = Failed (UnboundLocalError "user_data") /\
  fst (Milestone2Page.main env db ui2 p) = Done tt /\
  shown (snd (Milestone2Page.main env db ui2 p))
    = shown p ++ [st_warning "You need to log in to view your profile."].
Proof.
  intros H3 H2 Hp.
  destruct (ensure_keeps_visitor p Hp) as (s & Hrun & Hs).
  unfold Milestone3Page.main, Milestone2Page.main.
  rewrite !run_bind, Hrun, H3, H2.
  destruct s as [[[|]|] ? ? ?]; [discriminate Hs|easy..].
Qed.

Lemma preview_run ui p :
  fst (Milestone3Page.preview ui p) = Done tt /\
  session (snd (Milestone3Page.preview ui p)) = session p /\
  shown (snd (Milestone3Page.preview ui p)) = shown p /\
  files (world (snd (Milestone3Page.preview ui p))) = files (world p).
Proof.
  unfold Milestone3Page.preview.
  destruct (Milestone3Page.video_file ui); [easy|].
  destruct (truthy _); easy.
Qed.

(** X20. When [process_video_upload] takes an early return, which has three
    values, the Process Video page of milestone 3 unpacks four and ends
    with [ValueError]. *)
Theorem early_return_breaks_the_process_page ui p row name a b c :
  Milestone3Page.choice ui = "Process Video" ->
  Milestone3Page.process_button ui = true ->
  is_authenticated (session p) = Some true ->
  user_data (session p) = Some (Some row) ->
  row !! 9 = Some name ->
  fst (Milestone3.process_video_upload env (Milestone3Page.video_file ui)
         (Some (Milestone3Page.youtube_url ui)) name
         (Milestone3Page.language ui)
         (world (snd (Milestone3Page.preview ui p))))
    = Returns (Return3 a b c) ->
  fst (Milestone3Page.main env db ui p)
    = Failed (Raised (ValueError
        "not enough values to unpack (expected 4, got 3)")).
Proof.
  intros Hchoice Hbutton Hauth Hdata Hrow Hrun.
  unfold Milestone3Page.main.
  rewrite run_bind, (ensure_run p true Hauth), run_bind. cbn [get_session].
  rewrite Hchoice. unfold authenticated. rewrite Hauth.
  change (String.eqb "Process Video" "Home") with false.
  change (String.eqb "Process Video" "Login") with false.
  change (String.eqb "Process Video" "Register") with false.
  change (String.eqb "Process Video" "User Profile") with false.
  change (String.eqb "Process Video" "Process Video") with true.
  cbv beta iota. cbn [andb].
  unfold Milestone3Page.process_page. rewrite run_bind.
  destruct (preview_run ui p) as (Hdone & Hsession & _ & _).
  destruct (Milestone3Page.preview ui p) as [r p1]. cbn [fst snd] in *.
  subst r. rewrite run_bind, Hbutton.
  rewrite run_bind. unfold read_user_data at 1.
  rewrite run_bind. cbn [get_session]. rewrite Hsession, Hdata.
  change ((mret (Some row) : P _) p1) with (Done (Some row), p1).
  cbv beta iota. rewrite run_bind. unfold index at 1. rewrite Hrow.
  change ((mret name : P _) p1) with (Done name, p1).
  cbv beta iota. rewrite run_bind. unfold lift at 1.
  destruct (Milestone3.process_video_upload _ _ _ _ _ _) as [r w'].
  cbn [fst] in Hrun. subst r. reflexivity.
Qed.

(** X21. In milestone 2, Process pressed without an uploaded file ends with
    [AttributeError] on [video_file.getbuffer()], after the temporary file
    was created: an empty file is left at its path and nothing is shown. *)
Theorem process_without_an_upload ui p row name :
  Milestone2Page.choice ui = "Process Video" ->
  Milestone2Page.process_button ui = true ->
  Milestone2Page.video_file ui = None ->
  is_authenticated (session p) = Some true ->
  user_data (session p) = Some (Some row) ->
  row !! 9 = Some name ->
  Milestone2Page.main env db ui p =
  (Failed (Raised (AttributeError
     "'NoneType' object has no attribute 'getbuffer'")),
   mkPage (mkWorld (<[tempfile_name env := TextFile ""]> (files (world p)))
             (trace (world p)))
     (session p) (shown p)).
Proof.
  intros Hchoice Hbutton Hfile Hauth Hdata Hrow.
  unfold Milestone2Page.main.
  rewrite run_bind, (ensure_run p true Hauth), run_bind. cbn [get_session].
  rewrite Hchoice. unfold authenticated. rewrite Hauth.
  change (String.eqb "Process Video" "Home") with false.
  change (String.eqb "Process Video" "Login") with false.
  change (String.eqb "Process Video" "Register") with false.
  change (String.eqb "Process Video" "User Profile") with false.
  change (String.eqb "Process Video" "Process Video") with true.
  cbv beta iota. cbn [andb].
  unfold Milestone2Page.process_page. rewrite run_bind, Hbutton.
  rewrite run_bind. unfold read_user_data at 1.
  rewrite run_bind. cbn [get_session]. rewrite Hdata.
  change ((mret (Some row) : P _) p) with (Done (Some row), p).
  cbv beta iota. rewrite run_bind. unfold index at 1. rewrite Hrow.
  change ((mret name : P _) p) with (Done name, p).
  cbv beta iota. rewrite run_bind.
  unfold Milestone2Page.call_process_video_upload. rewrite Hfile.
  reflexivity.
Qed.

(** X22. Without an authenticated session, a run of [main] of milestone 3
    shows nothing of the pipeline and changes no file, except the profile
    picture that Register may write. *)
Theorem visitor_cannot_run_the_pipeline ui p :
  authenticated (session p) = false ->
  trace (world (snd (Milestone3Page.main env db ui p))) = trace (world p) /\
  forall path,
    path <> "uploads/profile_pictures/" +:+ Milestone3Page.username ui
            +:+ ".jpg" ->
    files (world (snd (Milestone3Page.main env db ui p))) !! path
    = files (world p) !! path.
Proof.
  intros Hp.
  set (picture := "uploads/profile_pictures/" +:+ Milestone3Page.username ui
                  +:+ ".jpg").
  set (W := fun q : Page =>
         trace (world q) = trace (world p) /\
         forall path, path <> picture ->
                      files (world q) !! path = files (world p) !! path).
  assert (Hset : forall s, hoare W (set_session s) W)
    by (intros s; apply hoare_set_session; easy).
  assert (Hshow : forall ev, hoare W (show ev) W)
    by (intros ev; apply hoare_show; easy).
  enough (H : hoare (fun q => W q /\ authenticated (session q) = false)
                (Milestone3Page.main env db ui) W).
  { destruct (Milestone3Page.main env db ui p) as [r p'] eqn:E.
    apply (H p r p'); [|exact E]. now split. }
  unfold Milestone3Page.main.
  apply (hoare_bind _ (fun q => W q /\ authenticated (session q) = false));
    [|easy|intros _].
  { unfold ensure_is_authenticated.
    apply hoare_get_session_bind. intros s0.
    destruct (is_authenticated s0) eqn:E.
    - apply hoare_ret. now intros q [Hq _].
    - apply hoare_set_session. now intros q [[Hq _] _]. }
  apply hoare_get_session_bind. intros s0.
  intros q r q' [[HW Hauth] <-]. rewrite Hauth, andb_false_r.
  clear Hauth Hp. revert q r q' HW.
  change (hoare W
    (if String.eqb (Milestone3Page.choice ui) "Home" then mret tt
     else if String.eqb (Milestone3Page.choice ui) "Login" then
       login_page db (Milestone3Page.login_email ui)
         (Milestone3Page.login_password ui) (Milestone3Page.login_button ui)
     else if String.eqb (Milestone3Page.choice ui) "Register" then
       register_page env db (Milestone3Page.full_name ui)
         (Milestone3Page.username ui) (Milestone3Page.email ui)
         (Milestone3Page.password ui) (Milestone3Page.phone ui)
         (Milestone3Page.profession ui) (Milestone3Page.dob ui)
         (Milestone3Page.short_desc ui) (Milestone3Page.profile_picture ui)
         (Milestone3Page.register_button ui)
     else if String.eqb (Milestone3Page.choice ui) "User Profile" then
       Milestone3Page.profile_page
     else if String.eqb (Milestone3Page.choice ui) "Logout" then
       Milestone3Page.logout_page ui
     else mret tt) W).
  destruct (String.eqb _ "Home"); [apply keeps_ret|].
  destruct (String.eqb _ "Login"); [apply free_login_page; auto|].
  destruct (String.eqb _ "Register").
  { unfold register_page, register_user, get_db_connection.
    repeat keeps_step_with ltac:(apply Hshow) (@hoare_lift); fold picture.
    intros q r w' [Hq1 Hq2] [= _ <-]. split; [exact Hq1|].
    intros path Hpath. cbn. rewrite lookup_insert_ne by congruence.
    now apply Hq2. }
  destruct (String.eqb _ "User Profile");
    [apply keeps_milestone3_profile_page|].
  destruct (String.eqb _ "Logout");
    [apply free_logout_page; auto|apply keeps_ret].
Qed.

(** X23. A row is inserted by a run of [main] of milestone 3 only on the
    Register page with the button pressed and an e-mail, user name,
    password and phone that pass the four validators; the row is the form's
    values with the picture path of the user name and the country code
    IN. *)
Theorem registration_gate ui p values :
  committed_insert values ∈ shown (snd (Milestone3Page.main env db ui p)) ->
  committed_insert values ∉ shown p ->
  Milestone3Page.choice ui = "Register" /\
  Milestone3Page.register_button ui = true /\
  is_valid_email (Milestone3Page.email ui) = true /\
  is_valid_username (Milestone3Page.username ui) = true /\
  is_strong_password (Milestone3Page.password ui) = true /\
  is_valid_full_phone (Milestone3Page.phone ui) = true /\
  values = Some <$>
    [Milestone3Page.full_name ui; Milestone3Page.username ui;
     Milestone3Page.email ui; Milestone3Page.password ui;
     Milestone3Page.phone ui; Milestone3Page.profession ui;
     Milestone3Page.dob ui; Milestone3Page.short_desc ui;
     "uploads/profile_pictures/" +:+ Milestone3Page.username ui +:+ ".jpg";
     "IN"].
Proof.
  intros Hin Hnew.
  set (goal := Milestone3Page.choice ui = "Register" /\ _).
  set (G := fun q : Page =>
         committed_insert values ∈ shown q -> goal).
  enough (H : hoare G (Milestone3Page.main env db ui) G).
  { destruct (Milestone3Page.main env db ui p) as [r p'] eqn:E.
    apply (H p r p'); [|exact E|exact Hin]. intros Hold. now destruct Hnew. }
  clear Hin Hnew.
  assert (Hset : forall s, hoare G (set_session s) G)
    by (intros s; apply hoare_set_session; easy).
  assert (Hlift : forall A (m : M A), hoare G (lift m) G)
    by (intros A m; apply hoare_lift; easy).
  assert (Hshow : forall ev,
            (forall values, ev <> committed_insert values) ->
            hoare G (show ev) G).
  { intros ev Hev. apply hoare_show. intros q Hq. unfold G. cbn.
    rewrite elem_of_app, list_elem_of_singleton.
    intros [Hold|Heq]; [now apply Hq|]. now destruct (Hev values). }
  unfold Milestone3Page.main.
  apply keeps_bind; [now apply free_ensure_is_authenticated|intros _].
  apply keeps_bind; [apply keeps_get_session|intros s].
  destruct (String.eqb _ "Home"); [apply keeps_ret|].
  destruct (String.eqb _ "Login"); [now apply free_login_page|].
  destruct (String.eqb _ "Register") eqn:Hchoice.
  { apply String.eqb_eq in Hchoice.
    unfold register_page.
    destruct (Milestone3Page.register_button ui) eqn:Hbutton;
      [|apply keeps_ret].
    destruct (_ && _) eqn:Hvalid; [|now apply Hshow].
    apply andb_prop in Hvalid as [Hvalid Hphone].
    apply andb_prop in Hvalid as [Hvalid Hpassword].
    apply andb_prop in Hvalid as [Hemail Husername].
    apply keeps_bind; [|intros _].
    { destruct (Milestone3Page.profile_picture ui); [|apply keeps_ret].
      destruct (open_ok env _); [apply Hlift|apply keeps_fail]. }
    apply keeps_bind;
      [|intros [[|]|]; apply Hshow; easy].
    unfold register_user.
    apply keeps_bind; [|intros conn].
    { apply keeps_get_db_connection
        with (allowed := fun ev => forall values, ev <> committed_insert values);
        auto. }
    destruct conn; [|apply keeps_ret].
    destruct (db_accepts db _).
    - apply keeps_bind; [|intros _; apply keeps_ret].
      apply hoare_show. intros q Hq. unfold G. cbn.
      rewrite elem_of_app, list_elem_of_singleton.
      intros [Hold|[= ->]]; [now apply Hq|]. unfold goal. easy.
    - apply keeps_bind; [now apply Hshow|intros _; apply keeps_ret]. }
  destruct (String.eqb _ "User Profile");
    [apply keeps_milestone3_profile_page|].
  destruct (_ && _).
  { apply keeps_milestone3_process_page
      with (allowed := fun ev => forall values, ev <> committed_insert values);
      auto. }
  destruct (String.eqb _ "Logout");
    [now apply free_logout_page|apply keeps_ret].
Qed.

End PageProperties.

(** ** The pages of [app.py] *)

Section AppFacts.

Import Pages AppPage.

Lemma app_keeps_fail {X} (inv : State -> Prop) (e : PageExn) :
  hoare inv (AppPage.fail (X := X) e) inv.
Proof. intros s r s' Hs [= <- <-]. exact Hs. Qed.

Lemma hoare_app_show (pre post : State -> Prop) ev :
  (forall st, pre st ->
              post (mkState (disk st) (AppPage.session st)
                      (AppPage.shown st ++ [ev]))) ->
  hoare pre (AppPage.show ev) post.
Proof. intros H s r s' Hs [= <- <-]. auto. Qed.

Lemma hoare_write_upload (pre post : State -> Prop) env path uploaded :
  (forall st, pre st -> post st) ->
  (forall st, pre st ->
              post (mkState (<[path := getbuffer uploaded]> (disk st))
                      (AppPage.session st) (AppPage.shown st))) ->
  hoare pre (write_upload env path uploaded) post.
Proof.
  intros H1 H2 s r s' Hs. unfold write_upload.
  destruct (open_ok env path); intros [= <- <-]; auto.
Qed.

Lemma update_run f st :
  update f st =
  (Done tt, mkState (disk st) (Some (f (current st))) (AppPage.shown st)).
Proof.
  unfold update, current, the_session. rewrite run_bind.
  now destruct (AppPage.session st).
Qed.

Lemma hoare_update (pre post : State -> Prop) f :
  (forall st, pre st ->
              post (mkState (disk st) (Some (f (current st)))
                      (AppPage.shown st))) ->
  hoare pre (update f) post.
Proof. intros H s r s' Hs. rewrite update_run. intros [= <- <-]. auto. Qed.

Lemma hoare_the_session_bind {X} (Q : Session -> Prop) (post : State -> Prop)
    (k : Session -> A X) :
  (forall s0, Q s0 -> hoare (fun st => current st = s0) (k s0) post) ->
  hoare (fun st => Q (current st)) (the_session ≫= k) post.
Proof.
  intros Hk st r st' Hst. rewrite run_bind. unfold the_session.
  destruct (AppPage.session st) as [s|] eqn:E.
  - apply (Hk s); unfold current in *; now rewrite E in *.
  - apply (Hk initial_session); unfold current in *; now rewrite ?E in *.
Qed.

End AppFacts.

Ltac app_step show_tac write_tac update_tac :=
  lazymatch goal with
  | |- Pages.hoare _ (mbind _ _) _ => apply keeps_bind; [|intros ?]
  | |- Pages.hoare _ (mret _) _ => apply keeps_ret
  | |- Pages.hoare _ (AppPage.fail _) _ => apply app_keeps_fail
  | |- Pages.hoare _ (AppPage.show _) _ => show_tac
  | |- Pages.hoare _ (AppPage.write_upload _ _ _) _ => write_tac
  | |- Pages.hoare _ (AppPage.update _) _ => update_tac
  | |- Pages.hoare _ (AppPage.set_page _) _ =>
      unfold AppPage.set_page; update_tac
  | |- Pages.hoare _ (if ?b then _ else _) _ => destruct b
  | |- Pages.hoare _ (match ?x with _ => _ end) _ => destruct x
  end.

Section AppProperties.

Import Pages AppPage.

Variable env : Env.
Variable db : Accounts.
Variable uploads_join : string -> string.

(** What looks at the session only is kept by what leaves it alone. *)
Section OnSession.

Variable Q : Session -> Prop.

Lemma app_session_show ev :
  hoare (fun st => Q (current st))
    (AppPage.show ev)
    (fun st => Q (current st)).
Proof. now apply hoare_app_show. Qed.

Lemma app_session_write path uploaded :
  hoare (fun st => Q (current st))
    (write_upload env path uploaded)
    (fun st => Q (current st)).
Proof. now apply hoare_write_upload. Qed.

Lemma app_session_index row i :
  hoare (fun st => Q (current st))
    (AppPage.index row i)
    (fun st => Q (current st)).
Proof.
  unfold AppPage.index.
  destruct (row !! i); [apply keeps_ret|apply app_keeps_fail].
Qed.

Lemma app_session_update f :
  (forall s, Q s -> Q (f s)) ->
  hoare (fun st => Q (current st))
    (update f)
    (fun st => Q (current st)).
Proof. intros H. apply hoare_update. intros st. apply H. Qed.

Lemma app_session_verify_user email password :
  hoare (fun st => Q (current st))
    (AppPage.verify_user db email password)
    (fun st => Q (current st)).
Proof.
  unfold AppPage.verify_user, AppPage.get_db_connection.
  repeat app_step ltac:(apply app_session_show) idtac idtac.
Qed.

Lemma app_session_register_page ui :
  (forall s, Q s ->
     Q (mkSession "login" (logged_in s) (AppPage.email s) (AppPage.phone s)
          (profile_picture_path s) (AppPage.profession s)
          (AppPage.full_name s) (AppPage.dob s) (AppPage.short_desc s))) ->
  hoare (fun st => Q (current st))
    (AppPage.register_page env db ui)
    (fun st => Q (current st)).
Proof.
  intros Hlogin.
  unfold AppPage.register_page, AppPage.register_user, delete_all_users,
    AppPage.get_db_connection.
  repeat app_step ltac:(apply app_session_show)
    ltac:(apply app_session_write)
    ltac:(apply app_session_update, Hlogin).
Qed.

End OnSession.

(** X24. [app.py]: the profile and the upload page are reached only by a
    logged-in session. [main] keeps: if the page is [profile] or
    [upload_video] then [logged_in] is true. *)
Theorem pages_behind_the_login ui st :
  gated st -> gated (snd (AppPage.main env db uploads_join ui st)).
Proof.
  intros Hst.
  set (G := fun s : Session =>
         page s = "profile" \/ page s = "upload_video" ->
         logged_in s = true).
  set (L := fun s : Session => logged_in s = true).
  enough (H : hoare (fun st => G (current st))
                (AppPage.main env db uploads_join ui)
                (fun st => G (current st))).
  { destruct (AppPage.main env db uploads_join ui st) as [r st'] eqn:E.
    exact (H _ _ _ Hst E). }
  clear st Hst. unfold AppPage.main.
  apply hoare_the_session_bind. intros s0 Hs0.
  destruct (String.eqb (page s0) "login").
  { apply hoare_weaken with (pre := fun st => G (current st))
                            (post := fun st => G (current st));
      [|now intros st ->|easy].
    unfold AppPage.login_page.
    apply keeps_bind; [|intros _].
    - destruct (AppPage.login_button ui); [|apply keeps_ret].
      apply keeps_bind; [apply app_session_verify_user|intros user].
      destruct user as [[|x row]|]; try apply app_session_show.
      apply hoare_bind with (mid := fun st => L (current st));
        [apply hoare_update; easy|intros st Hl _; exact Hl|intros _].
      apply hoare_weaken with (pre := fun st => L (current st))
                              (post := fun st => L (current st));
        [|easy|intros st Hl _; exact Hl].
      repeat app_step ltac:(apply app_session_show) idtac
        ltac:(apply app_session_update; easy);
        apply app_session_index.
    - destruct (to_register_button ui); [|apply keeps_ret].
      apply app_session_update. intros s _ [[=]|[=]]. }
  destruct (String.eqb (page s0) "register").
  { apply hoare_weaken with (pre := fun st => G (current st))
                            (post := fun st => G (current st));
      [|now intros st ->|easy].
    apply app_session_register_page. intros s _ [[=]|[=]]. }
  destruct (String.eqb (page s0) "profile") eqn:Hprofile.
  { apply String.eqb_eq in Hprofile.
    unfold AppPage.profile_page.
    destruct (upload_video_button ui);
      [|apply hoare_ret; now intros st ->].
    apply hoare_update. intros st ->. intros _. cbn. apply Hs0. now left. }
  destruct (String.eqb (page s0) "upload_video") eqn:Hupload;
    [|apply hoare_ret; now intros st ->].
  apply String.eqb_eq in Hupload.
  apply hoare_weaken with (pre := fun st => L (current st))
                          (post := fun st => L (current st));
    [|intros st ->; apply Hs0; now right|intros st Hl _; exact Hl].
  unfold AppPage.upload_video_page.
  repeat app_step ltac:(apply app_session_show)
    ltac:(apply app_session_write)
    ltac:(apply app_session_update; easy).
Qed.

Lemma the_session_run st s :
  AppPage.session st = Some s -> the_session st = (Done s, st).
Proof. intros H. unfold the_session. now rewrite H. Qed.

(** X25. [app.py]: a click on Register deletes every user before the form
    is validated. With a working database the first thing committed is the
    [DELETE], whatever the form holds, and a row is inserted after it only
    if the e-mail is valid, the password strong and confirmed. *)
Theorem register_click_deletes_every_user ui st s :
  AppPage.session st = Some s ->
  page s = "register" ->
  AppPage.register_button ui = true ->
  db_connects db = true ->
  db_deletes db = true ->
  exists rest,
    AppPage.shown (snd (AppPage.main env db uploads_join ui st))
    = AppPage.shown st ++ committed_delete_all :: rest /\
    forall values,
      committed_insert values ∈ rest ->
      is_valid_email (new_email ui) = true /\
      is_strong_password (new_password ui) = true /\
      new_password ui = confirm_password ui.
Proof.
  intros Hs Hpage Hbutton Hconn Hdel.
  set (ok := is_valid_email (new_email ui) = true /\ _).
  set (R := fun q : State =>
         exists rest,
           AppPage.shown q = AppPage.shown st ++ committed_delete_all :: rest
           /\ forall values, committed_insert values ∈ rest -> ok).
  change (R (snd (AppPage.main env db uploads_join ui st))).
  assert (Hshow : forall ev,
            (forall values, ev = committed_insert values -> ok) ->
            hoare R (AppPage.show ev) R).
  { intros ev Hev. apply hoare_app_show. intros q (rest & Hq & Hrest).
    exists (rest ++ [ev]). cbn. split.
    - rewrite Hq, <- app_assoc. reflexivity.
    - intros values. rewrite elem_of_app, list_elem_of_singleton.
      intros [Hin| <-]; eauto. }
  assert (Hwrite : forall path uploaded,
            hoare R (write_upload env path uploaded) R)
    by (intros; now apply hoare_write_upload).
  assert (Hupdate : forall f, hoare R (update f) R)
    by (intros; now apply hoare_update).
  unfold AppPage.main. rewrite run_bind, (the_session_run st s Hs), Hpage.
  change (String.eqb "register" "login") with false.
  change (String.eqb "register" "register") with true. cbv beta iota.
  unfold AppPage.register_page. rewrite run_bind, Hbutton, run_bind.
  unfold delete_all_users at 1, AppPage.get_db_connection at 1.
  rewrite Hconn, Hdel, run_bind.
  change ((mret true : A bool) st) with (Done true, st). cbv beta iota.
  unfold AppPage.show at 1.
  set (st1 := mkState _ _ _).
  assert (H1 : R st1) by (exists []; split; [reflexivity|]; intros v Hv;
                          now apply elem_of_nil in Hv).
  clearbody st1.
  match goal with
  | |- R (snd match ?m st1 with _ => _ end) =>
      assert (Hm : hoare R m R); [|destruct (m st1) as [[[]|e] st2] eqn:E;
                                   pose proof (Hm _ _ _ H1 E) as H2]
  end.
  - destruct (negb (is_valid_email _)) eqn:Hemail; [now apply Hshow|].
    destruct (negb (is_strong_password _)) eqn:Hpassword;
      [now apply Hshow|].
    destruct (negb (String.eqb _ _)) eqn:Hconfirm; [now apply Hshow|].
    apply negb_false_iff in Hemail, Hpassword, Hconfirm.
    apply String.eqb_eq in Hconfirm.
    unfold AppPage.register_user, AppPage.get_db_connection.
    repeat app_step ltac:(apply Hshow; now intros)
      ltac:(apply Hwrite) ltac:(apply Hupdate).
  - destruct (back_to_login_button ui); [|exact H2].
    eapply (Hupdate _ st2); [exact H2|].
    apply surjective_pairing.
  - exact H2.
Qed.

(** X26. [app.py]: on the upload page the only file written is the uploaded
    video itself, under [uploads]. Generate Reel and the threshold change
    nothing on the disk. *)
Theorem generate_reel_is_a_placeholder ui st s :
  AppPage.session st = Some s ->
  page s = "upload_video" ->
  disk (snd (AppPage.main env db uploads_join ui st)) =
  match AppPage.video_file ui with
  | Some uploaded =>
      if open_ok env (uploads_join (name uploaded))
      then <[uploads_join (name uploaded) := getbuffer uploaded]> (disk st)
      else disk st
  | None => disk st
  end.
Proof.
  intros Hs Hpage.
  unfold AppPage.main. rewrite run_bind, (the_session_run st s Hs), Hpage.
  change (String.eqb "upload_video" "login") with false.
  change (String.eqb "upload_video" "register") with false.
  change (String.eqb "upload_video" "profile") with false.
  change (String.eqb "upload_video" "upload_video") with true.
  cbv beta iota. unfold AppPage.upload_video_page.
  rewrite !run_bind.
  destruct (AppPage.video_file ui) as [uploaded|].
  - rewrite run_bind. unfold write_upload at 1.
    destruct (open_ok env _); [|reflexivity].
    cbv beta iota.
    destruct (generate_reel_button ui), (back_to_profile_button ui);
      unfold set_page, update, the_session, AppPage.show, mbind, Run_bind,
        mret, Run_ret; cbn; rewrite ?Hs; reflexivity.
  - destruct (generate_reel_button ui), (back_to_profile_button ui);
      unfold set_page, update, the_session, AppPage.show, mbind, Run_bind,
        mret, Run_ret; cbn; rewrite ?Hs; reflexivity.
Qed.

End AppProperties.

(** ** The transcriber script *)

Section ScriptProperties.

Import Pages Part000.

Variable env : Part000.Env.

Lemma format_segments_run segments c :
  (scored env segments /\
   exists lines, format_segments env segments c = (Done lines, c) /\
                 length lines = length segments /\
                 Forall (fun line => line <> "") lines) \/
  (~ scored env segments /\
   exists e, format_segments env segments c = (Failed e, c)).
Proof.
  unfold scored.
  induction segments as [|segment rest IH].
  - left. split; [constructor|]. exists []. easy.
  - cbn [format_segments].
    unfold analyze_sentiment, from_sum, raise, mbind, Run_bind, mret,
      Run_ret.
    destruct (polarity env (strip (text segment))) as [e|q] eqn:E.
    + right. split; [|exists (Raised e); reflexivity].
      intros H. apply Forall_cons in H as [[q Hq] _]. congruence.
    + cbv beta iota zeta.
      destruct IH as [(Hrest & lines & -> & Hlen & Hne)
                     |(Hrest & e & ->)].
      * left. split; [constructor; eauto|].
        eexists. split; [reflexivity|]. cbn [length]. split; [lia|].
        constructor; [|exact Hne]. unfold formatted_text.
        rewrite string_app_cons. discriminate.
      * right. split; [|eauto].
        intros H. apply Forall_cons in H as [_ H]. contradiction.
Qed.

Lemma concat_lines_nonempty line lines :
  line <> "" -> String.concat newline (line :: lines) <> "".
Proof.
  intros Hline. destruct line as [|ch line]; [easy|].
  destruct lines; cbn; [easy|]. rewrite string_app_cons. discriminate.
Qed.

Lemma transcribe_never_writes audio_path c :
  exists transcription,
    fst (transcribe_audio_with_timestamps env audio_path c)
      = Done transcription /\
    disk (snd (transcribe_audio_with_timestamps env audio_path c)) = disk c.
Proof.
  unfold transcribe_audio_with_timestamps, try_except, print,
    os_path_exists, from_sum, raise, mbind, Run_bind, mret, Run_ret.
  destruct (load_model env) as [e|]; [cbn; eauto|].
  cbn -[format_segments String.concat].
  destruct (bool_decide (is_Some (disk c !! audio_path)));
    [|cbn; eauto].
  cbn [negb].
  destruct (model_transcribe env audio_path)
    as [e|[[|segment segments]|]]; try (cbn; eauto; fail).
  cbn -[format_segments String.concat].
  match goal with
  | |- context [format_segments env _ ?c1] =>
      destruct (format_segments_run (segment :: segments) c1)
        as [(_ & lines & -> & _)|(_ & e & ->)]
  end; cbn; eauto.
Qed.

(** X27. [transcribe_audio_with_timestamps] never raises and never writes.
    It returns a non-empty transcription exactly when the model loads, the
    audio file exists, Whisper returns at least one segment and TextBlob
    scores every one; in every other case it returns the empty string. *)
Theorem transcription_is_empty_exactly_on_failure audio_path c :
  exists transcription,
    fst (transcribe_audio_with_timestamps env audio_path c)
      = Done transcription /\
    disk (snd (transcribe_audio_with_timestamps env audio_path c)) = disk c /\
    (transcription <> "" <->
     load_model env = None /\
     is_Some (disk c !! audio_path) /\
     exists segment segments,
       model_transcribe env audio_path = inr (Some (segment :: segments)) /\
       scored env (segment :: segments)).
Proof.
  unfold transcribe_audio_with_timestamps, try_except, print,
    os_path_exists, from_sum, raise, mbind, Run_bind, mret, Run_ret.
  destruct (load_model env) as [e|].
  { cbn. eexists. split; [reflexivity|]. split; [reflexivity|].
    split; [easy|]. now intros ([=] & _). }
  cbn -[format_segments String.concat].
  destruct (bool_decide (is_Some (disk c !! audio_path))) eqn:Hfile.
  2:{ cbn. eexists. split; [reflexivity|]. split; [reflexivity|].
      split; [easy|]. intros (_ & H & _).
      apply bool_decide_eq_false in Hfile. contradiction. }
  apply bool_decide_eq_true in Hfile. cbn [negb].
  destruct (model_transcribe env audio_path) as [e|[[|segment segments]|]]
    eqn:Hresult.
  1,2,4: cbn; eexists; (split; [reflexivity|]); (split; [reflexivity|]);
    (split; [easy|]); now intros (_ & _ & ? & ? & [=] & _).
  cbn -[format_segments String.concat].
  match goal with
  | |- context [format_segments env _ ?c1] =>
      destruct (format_segments_run (segment :: segments) c1)
        as [(Hscored & lines & -> & Hlen & Hne)|(Hscored & e & ->)]
  end.
  - cbn. eexists. split; [reflexivity|]. split; [reflexivity|].
    destruct lines as [|line lines]; [discriminate Hlen|].
    apply Forall_cons in Hne as [Hline _].
    split; [|intros _; now apply concat_lines_nonempty].
    intros _. eauto 10.
  - cbn. eexists. split; [reflexivity|]. split; [reflexivity|].
    split; [easy|]. intros (_ & _ & s1 & s2 & [= <- <-] & H).
    contradiction.
Qed.

(** X28. Transcribing and saving never raises and touches no file but the
    output file. When the transcription is empty nothing is opened and the
    disk stays as it was. Otherwise the output file is opened: it holds the
    transcription when the write succeeds, and what the failed write left,
    which may be nothing, when the write raises after the open. *)
Theorem transcribe_and_save_effect audio_output_path output_file c :
  let run := transcribe_and_save env audio_output_path output_file c in
  fst run = Done tt /\
  (forall path, path <> output_file ->
                disk (snd run) !! path = disk c !! path) /\
  exists transcription,
    fst (transcribe_audio_with_timestamps env audio_output_path c)
      = Done transcription /\
    disk (snd run) =
    match transcription with
    | EmptyString => disk c
    | _ =>
        if open_ok env output_file then
          match f_write env output_file transcription with
          | WriteDone =>
              <[output_file := TextFile transcription]> (disk c)
          | WriteRaises _ partial =>
              <[output_file := TextFile partial]> (disk c)
          end
        else disk c
    end.
Proof.
  cbv zeta. unfold transcribe_and_save. rewrite run_bind.
  destruct (transcribe_never_writes audio_output_path c)
    as (t & Hrun & Hdisk).
  destruct (transcribe_audio_with_timestamps env audio_output_path c)
    as [r c1]. cbn [fst snd] in *. subst r.
  unfold save_transcription.
  destruct t as [|ch t].
  { cbn. rewrite Hdisk. split; [reflexivity|]. split; [reflexivity|].
    exists ""%string. split; reflexivity. }
  unfold try_except, write_text. rewrite run_bind.
  destruct (open_ok env output_file).
  - destruct (f_write env output_file (String ch t)) as [|e partial] eqn:Hw;
      cbn; rewrite Hdisk; (split; [reflexivity|]);
      (split; [intros path Hpath; now apply lookup_insert_ne|]);
      exists (String ch t); (split; [reflexivity|]); now rewrite Hw.
  - cbn. rewrite Hdisk. split; [reflexivity|]. split; [reflexivity|].
    exists (String ch t). split; reflexivity.
Qed.

End ScriptProperties.

(** ** The properties at sample inputs *)

Lemma url_takes_precedence_witness :
  "https://youtu.be/talk"%string <> ""%string /\
  Milestone3.process_video_upload sample_env (Some sample_upload)
    (Some "https://youtu.be/talk"%string) "@bob" "English"
  = Milestone3.process_video_upload sample_env None
      (Some "https://youtu.be/talk"%string) "@bob" "English".
Proof.
  split; [discriminate|].
  apply (url_takes_precedence sample_env (Some sample_upload)
           "https://youtu.be/talk" "@bob" "English").
  discriminate.
Defined.

Lemma run_deletes_only_its_video_witness :
  is_Some (files video_world !! "/tmp/tmpabc.mp4"%string) /\
  (is_Some (files (snd second_run) !! "/tmp/tmpabc.mp4"%string) \/
   video_path_of sample_env (Some sample_upload) None "@bob"
   = Some "/tmp/tmpabc.mp4"%string).
Proof.
  assert (H : is_Some (files video_world !! "/tmp/tmpabc.mp4"%string))
    by (eexists; vm_compute; reflexivity).
  split; [exact H|].
  exact (run_deletes_only_its_video sample_env (Some sample_upload) None
           "@bob" "English" video_world (fst second_run) (snd second_run)
           "/tmp/tmpabc.mp4" (surjective_pairing second_run) H).
Defined.

Lemma transcript_of_a_completed_run_witness :
  sample_run =
    (Returns (Return4 (Some "summary"%string)
                (Some "uploads/transcripts/@bob_tmpabc.mp4.txt"%string)
                [Some "uploads/reels/@bob_reel_1.mp4"%string;
                 Some "uploads/reels/@bob_reel_2.mp4"%string; None]
                (analyze_sentiment sample_env sample_segments)),
     snd sample_run) /\
  exists video_path,
    video_path_of sample_env (Some sample_upload) None "@bob"
      = Some video_path /\
    let path := transcript_path_of "@bob" (basename video_path) in
    "uploads/transcripts/@bob_tmpabc.mp4.txt"%string = path /\
    open_ok sample_env path = true /\
    files (snd sample_run) !! path
    = Some (TextFile (transcript_content
                        (analyze_sentiment sample_env sample_segments))).
Proof.
  assert (H : sample_run =
    (Returns (Return4 (Some "summary"%string)
                (Some "uploads/transcripts/@bob_tmpabc.mp4.txt"%string)
                [Some "uploads/reels/@bob_reel_1.mp4"%string;
                 Some "uploads/reels/@bob_reel_2.mp4"%string; None]
                (analyze_sentiment sample_env sample_segments)),
     snd sample_run)) by (vm_compute; reflexivity).
  split; [exact H|].
  exact (transcript_of_a_completed_run sample_env (Some sample_upload) None
           "@bob" "English" empty_world _ _ _ _ _ H).
Defined.

Lemma reels_of_a_completed_run_witness :
  sample_run =
    (Returns (Return4 (Some "summary"%string)
                (Some "uploads/transcripts/@bob_tmpabc.mp4.txt"%string)
                [Some "uploads/reels/@bob_reel_1.mp4"%string;
                 Some "uploads/reels/@bob_reel_2.mp4"%string; None]
                (analyze_sentiment sample_env sample_segments)),
     snd sample_run) /\
  "uploads/reels/@bob_reel_2.mp4"%string = reel_path "@bob" (1 + 1) /\
  (video_path_of sample_env (Some sample_upload) None "@bob"
   <> Some "uploads/reels/@bob_reel_2.mp4"%string ->
   reel_file_at "uploads/reels/@bob_reel_2.mp4" (snd sample_run)).
Proof.
  assert (H : sample_run =
    (Returns (Return4 (Some "summary"%string)
                (Some "uploads/transcripts/@bob_tmpabc.mp4.txt"%string)
                [Some "uploads/reels/@bob_reel_1.mp4"%string;
                 Some "uploads/reels/@bob_reel_2.mp4"%string; None]
                (analyze_sentiment sample_env sample_segments)),
     snd sample_run)) by (vm_compute; reflexivity).
  split; [exact H|].
  exact (reels_of_a_completed_run sample_env (Some sample_upload) None
           "@bob" "English" empty_world _ _ _ _ _ 1
           "uploads/reels/@bob_reel_2.mp4" H eq_refl).
Defined.

Lemma collected_clips_lie_in_the_video_witness :
  In (mkClip 2 60) (valid_clips (mkVideo 100 true) [mkSegment 2 70 "good"]) /\
  (0 <= clip_start (mkClip 2 60))%Q /\
  (clip_start (mkClip 2 60) < duration (mkVideo 100 true))%Q /\
  (0 < clip_duration (mkClip 2 60))%Q /\
  (clip_start (mkClip 2 60) + clip_duration (mkClip 2 60)
   <= duration (mkVideo 100 true))%Q.
Proof.
  assert (H : In (mkClip 2 60)
                (valid_clips (mkVideo 100 true) [mkSegment 2 70 "good"]))
    by (vm_compute; left; reflexivity).
  split; [exact H|].
  exact (collected_clips_lie_in_the_video (mkVideo 100 true)
           [mkSegment 2 70 "good"] (mkClip 2 60) H).
Defined.

Lemma valid_username_stays_in_its_directory_witness :
  is_valid_username "@bob" = true /\
  slash_free "talk.mp4" = true /\
  slash_free "@bob" = true /\
  basename (reel_path "@bob" 2)
    = "@bob" +:+ "_reel_" +:+ str_nat 2 +:+ ".mp4" /\
  basename (transcript_path_of "@bob" "talk.mp4")
    = "@bob" +:+ "_" +:+ "talk.mp4" +:+ ".txt".
Proof.
  assert (H1 : is_valid_username "@bob" = true) by (vm_compute; reflexivity).
  assert (H2 : slash_free "talk.mp4" = true) by (vm_compute; reflexivity).
  split; [exact H1|]. split; [exact H2|].
  exact (valid_username_stays_in_its_directory "@bob" 2 "talk.mp4" H1 H2).
Defined.

Lemma authenticated_session_holds_a_row_witness :
  Pages.session_ok (Pages.session visitor_page) /\
  Pages.session_ok
    (Pages.session
       (snd (Milestone3Page.main sample_env sample_accounts
               (sample_widgets3 "Login" true) visitor_page))).
Proof.
  assert (H : Pages.session_ok (Pages.session visitor_page))
    by (intros E; discriminate E).
  split; [exact H|].
  exact (authenticated_session_holds_a_row sample_env sample_accounts
           (sample_widgets3 "Login" true) visitor_page H).
Defined.

Lemma milestone2_has_no_way_out_witness :
  Pages.authenticated (Pages.session member_page) = true /\
  Pages.authenticated
    (Pages.session
       (snd (Milestone2Page.main sample_env sample_accounts
               (sample_widgets2 "Logout" true) member_page))) = true.
Proof.
  split; [reflexivity|].
  exact (milestone2_has_no_way_out sample_env sample_accounts
           (sample_widgets2 "Logout" true) member_page eq_refl).
Defined.

Lemma profile_page_of_a_visitor_witness :
  Pages.authenticated (Pages.session visitor_page) = false /\
  fst (Milestone3Page.main sample_env sample_accounts
         (sample_widgets3 "User Profile" false) visitor_page)
    = Pages.Failed (Pages.UnboundLocalError "user_data") /\
  fst (Milestone2Page.main sample_env sample_accounts
         (sample_widgets2 "User Profile" false) visitor_page)
    = Pages.Done tt /\
  Pages.shown
    (snd (Milestone2Page.main sample_env sample_accounts
            (sample_widgets2 "User Profile" false) visitor_page))
    = Pages.shown visitor_page ++
      [Pages.st_warning "You need to log in to view your profile."].
Proof.
  split; [reflexivity|].
  exact (profile_page_of_a_visitor sample_env sample_accounts
           (sample_widgets3 "User Profile" false)
           (sample_widgets2 "User Profile" false) visitor_page
           eq_refl eq_refl eq_refl).
Defined.

Lemma early_return_breaks_the_process_page_witness :
  fst (Milestone3.process_video_upload sample_env None (Some ""%string)
         "@bob" "English"
         (Pages.world
            (snd (Milestone3Page.preview
                    (sample_widgets3 "Process Video" true) member_page))))
    = Returns (Return3 None None []) /\
  fst (Milestone3Page.main sample_env sample_accounts
         (sample_widgets3 "Process Video" true) member_page)
    = Pages.Failed (Pages.Raised (ValueError
        "not enough values to unpack (expected 4, got 3)")).
Proof.
  assert (H : fst (Milestone3.process_video_upload sample_env None
                     (Some ""%string) "@bob" "English"
                     (Pages.world
                        (snd (Milestone3Page.preview
                                (sample_widgets3 "Process Video" true)
                                member_page))))
              = Returns (Return3 None None []))
    by (vm_compute; reflexivity).
  split; [exact H|].
  exact (early_return_breaks_the_process_page sample_env sample_accounts
           (sample_widgets3 "Process Video" true) member_page sample_row
           "@bob" None None [] eq_refl eq_refl eq_refl eq_refl eq_refl H).
Defined.

Lemma process_without_an_upload_witness :
  Milestone2Page.main sample_env sample_accounts
    (sample_widgets2 "Process Video" true) member_page =
  (Pages.Failed (Pages.Raised (AttributeError
     "'NoneType' object has no attribute 'getbuffer'")),
   Pages.mkPage
     (mkWorld (<[tempfile_name sample_env := TextFile ""]>
                 (files (Pages.world member_page)))
        (trace (Pages.world member_page)))
     (Pages.session member_page) (Pages.shown member_page)).
Proof.
  exact (process_without_an_upload sample_env sample_accounts
           (sample_widgets2 "Process Video" true) member_page sample_row
           "@bob" eq_refl eq_refl eq_refl eq_refl eq_refl eq_refl).
Defined.

Lemma visitor_cannot_run_the_pipeline_witness :
  Pages.authenticated (Pages.session visitor_page) = false /\
  trace (Pages.world
           (snd (Milestone3Page.main sample_env sample_accounts
                   (sample_widgets3 "Process Video" true) visitor_page)))
  = trace (Pages.world visitor_page) /\
  forall path,
    path <> "uploads/profile_pictures/" +:+
            Milestone3Page.username (sample_widgets3 "Process Video" true)
            +:+ ".jpg" ->
    files (Pages.world
             (snd (Milestone3Page.main sample_env sample_accounts
                     (sample_widgets3 "Process Video" true) visitor_page)))
      !! path
    = files (Pages.world visitor_page) !! path.
Proof.
  split; [reflexivity|].
  exact (visitor_cannot_run_the_pipeline sample_env sample_accounts
           (sample_widgets3 "Process Video" true) visitor_page eq_refl).
Defined.

Lemma registration_gate_witness :
  (Pages.committed_insert sample_values
     ∈ Pages.shown
         (snd (Milestone3Page.main sample_env sample_accounts
                 (sample_widgets3 "Register" true) visitor_page))) /\
  (Pages.committed_insert sample_values ∉ Pages.shown visitor_page) /\
  Milestone3Page.choice (sample_widgets3 "Register" true)
    = "Register"%string /\
  Milestone3Page.register_button (sample_widgets3 "Register" true) = true /\
  is_valid_email (Milestone3Page.email (sample_widgets3 "Register" true))
    = true /\
  is_valid_username
    (Milestone3Page.username (sample_widgets3 "Register" true)) = true /\
  is_strong_password
    (Milestone3Page.password (sample_widgets3 "Register" true)) = true /\
  is_valid_full_phone
    (Milestone3Page.phone (sample_widgets3 "Register" true)) = true /\
  sample_values = Some <$>
    [Milestone3Page.full_name (sample_widgets3 "Register" true);
     Milestone3Page.username (sample_widgets3 "Register" true);
     Milestone3Page.email (sample_widgets3 "Register" true);
     Milestone3Page.password (sample_widgets3 "Register" true);
     Milestone3Page.phone (sample_widgets3 "Register" true);
     Milestone3Page.profession (sample_widgets3 "Register" true);
     Milestone3Page.dob (sample_widgets3 "Register" true);
     Milestone3Page.short_desc (sample_widgets3 "Register" true);
     "uploads/profile_pictures/" +:+
       Milestone3Page.username (sample_widgets3 "Register" true) +:+ ".jpg";
     "IN"%string].
Proof.
  assert (H1 : Pages.committed_insert sample_values
               ∈ Pages.shown
                   (snd (Milestone3Page.main sample_env sample_accounts
                           (sample_widgets3 "Register" true) visitor_page))).
  { assert (E : Pages.shown
                  (snd (Milestone3Page.main sample_env sample_accounts
                          (sample_widgets3 "Register" true) visitor_page))
                = [Pages.committed_insert sample_values;
                   Pages.st_success
                     "Registration successful! You can now login."])
      by (vm_compute; reflexivity).
    rewrite E. constructor. }
  assert (H2 : Pages.committed_insert sample_values
               ∉ Pages.shown visitor_page)
    by (intros H; inversion H).
  split; [exact H1|]. split; [exact H2|].
  exact (registration_gate sample_env sample_accounts
           (sample_widgets3 "Register" true) visitor_page sample_values
           H1 H2).
Defined.

Lemma pages_behind_the_login_witness :
  AppPage.gated (AppPage.mkState ∅ None []) /\
  AppPage.gated
    (snd (AppPage.main sample_env sample_accounts posix_uploads_join
            (app_widgets true) (AppPage.mkState ∅ None []))).
Proof.
  assert (H : AppPage.gated (AppPage.mkState ∅ None []))
    by (intros [E|E]; discriminate E).
  split; [exact H|].
  exact (pages_behind_the_login sample_env sample_accounts
           posix_uploads_join (app_widgets true) _ H).
Defined.

Lemma register_click_deletes_every_user_witness :
  exists rest,
    AppPage.shown
      (snd (AppPage.main sample_env sample_accounts posix_uploads_join
              (app_widgets true) (app_state "register" false)))
    = AppPage.shown (app_state "register" false) ++
      Pages.committed_delete_all :: rest /\
    forall values,
      Pages.committed_insert values ∈ rest ->
      is_valid_email (AppPage.new_email (app_widgets true)) = true /\
      is_strong_password (AppPage.new_password (app_widgets true)) = true /\
      AppPage.new_password (app_widgets true)
      = AppPage.confirm_password (app_widgets true).
Proof.
  exact (register_click_deletes_every_user sample_env sample_accounts
           posix_uploads_join (app_widgets true) (app_state "register" false)
           _ eq_refl eq_refl eq_refl eq_refl eq_refl).
Defined.

Lemma generate_reel_is_a_placeholder_witness :
  AppPage.disk
    (snd (AppPage.main sample_env sample_accounts posix_uploads_join
            (app_widgets true) (app_state "upload_video" true)))
  = <[posix_uploads_join (name sample_upload) := getbuffer sample_upload]>
      (AppPage.disk (app_state "upload_video" true)).
Proof.
  exact (generate_reel_is_a_placeholder sample_env sample_accounts
           posix_uploads_join (app_widgets true)
           (app_state "upload_video" true) _ eq_refl eq_refl).
Defined.

Lemma run_completes_only_if_witness :
  fst sample_run =
    Returns (Return4 (Some "summary"%string)
               (Some "uploads/transcripts/@bob_tmpabc.mp4.txt"%string)
               [Some "uploads/reels/@bob_reel_1.mp4"%string;
                Some "uploads/reels/@bob_reel_2.mp4"%string; None]
               (analyze_sentiment sample_env sample_segments)) /\
  exists video_path d segment segments,
    acquired sample_env (Some sample_upload) None "@bob"
      = Some (video_path, VideoFile d true) /\
    video_path <> ""%string /\
    ffmpeg_ok sample_env (audio_path "@bob" video_path) = true /\
    whisper_transcribe sample_env (audio_path "@bob" video_path)
      (language_code "English") = Some (segment :: segments) /\
    analyze_sentiment sample_env sample_segments
      = analyze_sentiment sample_env (segment :: segments) /\
    forall e,
      chat_completion sample_env
        (summary_prompt (analyze_sentiment sample_env sample_segments))
      <> HttpRaises e.
Proof.
  assert (H : fst sample_run =
    Returns (Return4 (Some "summary"%string)
               (Some "uploads/transcripts/@bob_tmpabc.mp4.txt"%string)
               [Some "uploads/reels/@bob_reel_1.mp4"%string;
                Some "uploads/reels/@bob_reel_2.mp4"%string; None]
               (analyze_sentiment sample_env sample_segments)))
    by (vm_compute; reflexivity).
  split; [exact H|].
  exact (run_completes_only_if sample_env (Some sample_upload) None "@bob"
           "English" empty_world _ _ _ _ H).
Defined.

Lemma strong_password_facts_witness :
  all_chars is_ascii "Passw0rd!" = true /\
  all_chars is_ascii "my" = true /\
  all_chars is_ascii "2024" = true /\
  is_strong_password "Passw0rd!" = true /\
  is_strong_password ("my" +:+ "Passw0rd!" +:+ "2024") = true.
Proof.
  assert (H1 : all_chars is_ascii "Passw0rd!" = true)
    by (vm_compute; reflexivity).
  assert (H2 : all_chars is_ascii "my" = true) by (vm_compute; reflexivity).
  assert (H3 : all_chars is_ascii "2024" = true)
    by (vm_compute; reflexivity).
  assert (H4 : is_strong_password "Passw0rd!" = true)
    by (vm_compute; reflexivity).
  split; [exact H1|]. split; [exact H2|]. split; [exact H3|].
  split; [exact H4|].
  exact (proj1 (strong_password_facts "Passw0rd!" "my" "2024" H1 H2 H3) H4).
Defined.

(** A segment whose text is punctuation only is kept when the scorer rates
    it above 0.05. *)
Lemma punctuation_only_text_is_kept :
  all_chars is_punctuation ":)" = true /\
  (0.05 < polarity_compound emoticon_env ":)")%Q /\
  analyze_sentiment emoticon_env [mkSegment 0 1 ":)"]
  = [mkSegment 0 1 ":)"].
Proof. repeat split; vm_compute; reflexivity. Qed.

(** The renderer of milestone 2 writes a reel whose only clip lasts 68
    seconds. *)
Lemma milestone2_reel_exceeds_cap :
  Milestone2.create_reel sample_env [mkSegment 2 70 "good"]
    "/tmp/tmpabc.mp4" "@bob" 1 video_world
  = (Returns (Some "uploads/reels/@bob_reel_1.mp4"%string),
     mkWorld (<["uploads/reels/@bob_reel_1.mp4"%string
                := ReelFile [mkClip 2 68]]> (files video_world))
       (trace video_world)) /\
  ~ (clip_duration (mkClip 2 68) <= 60)%Q.
Proof.
  split; [vm_compute; reflexivity|]. vm_compute. intros H. now apply H.
Qed.
